(** * XPS conversion service: a shallow embedding of [main.py]

    The service saves an uploaded file under a generated name, opens it with
    the document backend (PyMuPDF), runs one of four pipelines over the
    pages and always releases the handle and the upload afterwards.

    The embedding keeps the shape of the Python code:
    - the request handlers are written in a state-and-exception monad [M];
      the state holds the file system, the number of identifiers drawn so
      far, the trace of external calls and the handler's local variable
      [doc];
    - [try / except Exception / finally] is one combinator with Python's
      semantics;
    - the document backend, the imaging library and the entropy source are
      the fields of the class [Backend]: the handlers are verified for every
      backend, and each field is a pure function that either returns a
      value or the text of the exception it raises. *)

From Stdlib Require Import ZArith NArith Ascii String DecimalString DecimalNat.
From stdpp Require Import base option list strings gmap.

Local Open Scope stdpp_scope.

(** ** Strings as Python uses them *)

Module Py.

(** One line feed, Python's ["\n"]. *)
Definition LF : string := String (ascii_of_nat 10) EmptyString.

(** [str.lower] on one character: the letters [A-Z] move to [a-z], every
    other byte stays. A name is held as its bytes; no character outside
    ASCII has [.], [x], [p] or [s] as its lower case, so the suffix test of
    the handlers reads the same on the bytes. *)
Definition lower_char (c : ascii) : ascii :=
  let n := nat_of_ascii c in
  if (65 <=? n)%nat && (n <=? 90)%nat then ascii_of_nat (n + 32) else c.

Fixpoint lower (s : string) : string :=
  match s with
  | EmptyString => EmptyString
  | String c s' => String (lower_char c) (lower s')
  end.

(** [str.startswith]. *)
Definition startswith (s pre : string) : bool := String.prefix pre s.

(** [str.endswith]: the last [len suf] characters of [s] are [suf]. *)
Definition endswith (s suf : string) : bool :=
  let n := String.length s in
  let k := String.length suf in
  (k <=? n)%nat && String.eqb (String.substring (n - k) k s) suf.

(** [str(n)] for a non-negative integer. *)
Definition str_of_nat (n : nat) : string :=
  NilEmpty.string_of_uint (Nat.to_uint n).

(** [repr] of a string without quotes or escapes in it, as in
    [str(list_of_strings)]. *)
Definition repr (s : string) : string := "'" +:+ s +:+ "'".

Fixpoint join (sep : string) (l : list string) : string :=
  match l with
  | [] => ""
  | [x] => x
  | x :: l' => x +:+ sep +:+ join sep l'
  end.

(** [str] of a list of strings. *)
Definition str_of_list (l : list string) : string :=
  "[" +:+ join ", " (map repr l) +:+ "]".

(** [os.path.join] of two components (posixpath). *)
Definition path_join (a b : string) : string :=
  if startswith b "/" then b
  else if String.eqb a "" || endswith a "/" then a +:+ b
  else a +:+ "/" +:+ b.

End Py.

(** ** [uuid.uuid4] *)

Module Uuid.

Definition hex_digit (n : N) : ascii :=
  (if n <? 10 then ascii_of_N (48 + n) else ascii_of_N (87 + n))%N.

(** [w] hexadecimal digits of [v], most significant first: ['%0wx' % v]
    for [v < 16^w]. *)
Fixpoint hex (w : nat) (v : N) : string :=
  match w with
  | O => ""
  | S w' => hex w' (v / 16)%N +:+ String (hex_digit (v mod 16)%N) ""
  end.

(** [UUID(bytes=os.urandom(16), version=4).int]: the 128 random bits with
    the variant and the version fields overwritten. *)
Definition uuid4_int (random : N) : N :=
  let i := (random mod 2 ^ 128)%N in
  let i := N.ldiff i (N.shiftl 0xc000 48) in
  let i := N.lor i (N.shiftl 0x8000 48) in
  let i := N.ldiff i (N.shiftl 0xf000 64) in
  N.lor i (N.shiftl 4 76).

(** [str(uuid)]: 8-4-4-4-12 hexadecimal digits. *)
Definition str (u : N) : string :=
  let h := hex 32 u in
  String.substring 0 8 h +:+ "-" +:+ String.substring 8 4 h +:+ "-" +:+
  String.substring 12 4 h +:+ "-" +:+ String.substring 16 4 h +:+ "-" +:+
  String.substring 20 12 h.

End Uuid.

(** ** Data *)

Definition bytes := string.

(** The outcome of a call into an external library: a value, or the text
    [str(e)] of the exception it raises. *)
Inductive result (A : Type) : Type :=
| Ok (a : A)
| Err (msg : string).
Arguments Ok {A} a.
Arguments Err {A} msg.

(** [fitz.Rect]: the rectangle of one hit of [page.search_for]. *)
Record Rect (C : Type) : Type := mkRect { x0 : C; y0 : C; x1 : C; y1 : C }.
Arguments mkRect {C} x0 y0 x1 y1.
Arguments x0 {C} r.
Arguments y0 {C} r.
Arguments x1 {C} r.
Arguments y1 {C} r.

(** [fitz.Pixmap], as far as the handlers read it. *)
Record Pixmap : Type := mkPixmap { width : nat; height : nat; samples : bytes }.

(** An opened [fitz.Document]: its pages in order and its metadata dict. *)
Record Document (P : Type) : Type :=
  mkDocument { pages : list P; metadata : list (string * string) }.
Arguments mkDocument {P} pages metadata.
Arguments pages {P} d.
Arguments metadata {P} d.

(** What the handlers append to a [docx.Document]. Each block is one
    paragraph of the document: [Paragraph text] is the paragraph that
    [add_paragraph(text)] appends, and [PageBreak] is the paragraph that
    [add_page_break()] appends, which holds a page break and no text. *)
Inductive DocxBlock : Type :=
| Paragraph (text : string)
| PageBreak.

(** [fastapi.UploadFile]. *)
Record UploadFile : Type := mkUpload { filename : string; content : bytes }.

(** ** The external libraries *)

Class Backend : Type := {
  (** the state of one page inside PyMuPDF *)
  PageData : Type;
  (** page coordinates (Python floats, only passed along) *)
  Coord : Type;
  (** [PIL.Image.Image] *)
  Image : Type;
  (** the [n]-th block of 16 random bytes handed to [uuid.uuid4] *)
  urandom16 : nat → N;
  (** [fitz.open] on the content of a file *)
  parse : bytes → result (Document PageData);
  (** [page.get_text()] *)
  get_text_of : PageData → result string;
  (** [page.get_pixmap()] *)
  get_pixmap_of : PageData → result Pixmap;
  (** [page.search_for(needle)]: the list of the hits, or [None], which
      PyMuPDF returns in place of a list for an empty needle *)
  search_for_of : PageData → string → result (option (list (Rect Coord)));
  (** [page.add_redact_annot(rect)] *)
  add_redact_annot_of : PageData → Rect Coord → result PageData;
  (** [page.apply_redactions()] *)
  apply_redactions_of : PageData → result PageData;
  (** [page.insert_text(point, text, fontsize=, color=)] *)
  insert_text_of :
    PageData → Coord * Coord → string → Z → Z * Z * Z → result PageData;
  (** [doc.save]: the bytes of the PDF written *)
  pdf_bytes : Document PageData → result bytes;
  (** [Image.frombytes(mode, size, data)] *)
  image_frombytes : string → nat * nat → bytes → result Image;
  (** [img.save(buffer, format=)]: the bytes written to the buffer *)
  image_save : Image → string → result bytes;
  (** [word_doc.save]: the bytes of the file written *)
  docx_bytes : list DocxBlock → bytes;
}.

(** Responses of the handlers. *)
Inductive Response : Type :=
| FileResponse (path media_type download_name : string)
| StreamingResponse (zip : list (string * bytes))
                    (media_type content_disposition : string)
| JSONResponse (meta : list (string * string)) (page_count : nat)
               (text : string)
| NoneResponse.

(** Python exceptions: a library error with its text, or FastAPI's
    [HTTPException]. *)
Inductive exn : Type :=
| PyError (msg : string)
| HTTPException (status_code : nat) (detail : string).

(** [str(e)]. *)
Definition exn_str (e : exn) : string :=
  match e with
  | PyError msg => msg
  | HTTPException code detail => Py.str_of_nat code +:+ ": " +:+ detail
  end.

Inductive outcome (A : Type) : Type :=
| Return (a : A)
| Raise (e : exn).
Arguments Return {A} a.
Arguments Raise {A} e.

(** ** Configuration *)

Definition UPLOAD_FOLDER : string := "uploads".
Definition RESULT_FOLDER : string := "results".

Definition SUPPORTED_CONVERSIONS : list (string * string) :=
  [ ("pdf", "application/pdf");
    ("images", "application/zip");
    ("docx",
     "application/vnd.openxmlformats-officedocument.wordprocessingml.document") ].

(** The separator of [read_xps]: two line feeds, the words, two line feeds. *)
Definition PAGE_BREAK : string :=
  Py.LF +:+ Py.LF +:+ "--- Page Break ---" +:+ Py.LF +:+ Py.LF.

Fixpoint dict_get (k : string) (d : list (string * string)) : option string :=
  match d with
  | [] => None
  | (k', v) :: d' => if String.eqb k k' then Some v else dict_get k d'
  end.

(** [k in d]. *)
Definition dict_in (k : string) (d : list (string * string)) : bool :=
  match dict_get k d with Some _ => true | None => false end.

Definition dict_keys (d : list (string * string)) : list string := map fst d.

(** ** State, exceptions and the handlers' monad *)

Section Service.
Context `{B : Backend}.

(** The calls that are traced, in the order they happen: the writing and
    the removal of a file, the opening and the closing of a document, the
    saving of a result, and the calls of [edit_xps] on a page. The calls
    that only read a page ([load_page], [get_text], [get_pixmap]) are not
    traced. *)
Inductive Event : Type :=
| EvWrite (path : string)
| EvRemove (path : string)
| EvOpen (path : string)
| EvClose
| EvSave (path : string)
| EvDocxSave (path : string)
| EvSearch (page : nat) (needle : string)
| EvAddRedact (page : nat) (r : Rect Coord)
| EvApplyRedactions (page : nat)
| EvInsertText (page : nat) (point : Coord * Coord) (text : string)
               (fontsize : Z) (color : Z * Z * Z).

(** The file system (both folders), the number of identifiers drawn, the
    trace, and the local variable [doc] of the running handler: [None], or
    the current state of the opened document object. *)
Record State : Type := mkState {
  fs : gmap string bytes;
  uuid_calls : nat;
  trace : list Event;
  doc : option (Document PageData);
}.

Definition M (A : Type) : Type := State → outcome A * State.

Definition ret {A} (a : A) : M A := λ s, (Return a, s).

Definition bind {A C} (m : M A) (k : A → M C) : M C :=
  λ s, match m s with
       | (Return a, s') => k a s'
       | (Raise e, s') => (Raise e, s')
       end.

Definition raise {A} (e : exn) : M A := λ s, (Raise e, s).

Notation "x ← m ; k" := (bind m (λ x, k))
  (at level 20, m at level 100, k at level 200, only parsing).
Notation "m ;; k" := (bind m (λ _, k))
  (at level 100, k at level 200, right associativity, only parsing).

(** A call into a library: its exception becomes a Python exception. *)
Definition lift {A} (r : result A) : M A :=
  match r with
  | Ok a => ret a
  | Err msg => raise (PyError msg)
  end.

Definition emit (e : Event) : M unit :=
  λ s, (Return tt, mkState (fs s) (uuid_calls s) (trace s ++ [e]) (doc s)).

(** [try: body / except Exception as e: handler(e) / finally: final].
    The handler runs on an exception of the body; [final] runs on every
    path, and an exception of [final] replaces the pending outcome. *)
Definition try_except_finally {A}
    (body : M A) (handler : exn → M A) (final : M unit) : M A :=
  λ s,
    let '(r1, s1) := body s in
    let '(r2, s2) :=
      match r1 with
      | Return a => (Return a, s1)
      | Raise e => handler e s1
      end in
    match final s2 with
    | (Return _, s3) => (r2, s3)
    | (Raise e, s3) => (Raise e, s3)
    end.

(** [for x in l: acc = body(x, acc)]; the accumulator stands for the local
    objects the loop body updates. *)
Fixpoint for_each {X A} (l : list X) (acc : A) (body : X → A → M A) : M A :=
  match l with
  | [] => ret acc
  | x :: l' => acc' ← body x acc; for_each l' acc' body
  end.

(** *** Primitives *)

(** [str(uuid.uuid4())]. *)
Definition uuid4 : M string :=
  λ s, (Return (Uuid.str (Uuid.uuid4_int (urandom16 (uuid_calls s)))),
        mkState (fs s) (S (uuid_calls s)) (trace s) (doc s)).

(** [with open(path, "wb") as f: f.write(data)]. *)
Definition write_file (path : string) (data : bytes) : M unit :=
  λ s, (Return tt,
        mkState (<[path := data]> (fs s)) (uuid_calls s)
                (trace s ++ [EvWrite path]) (doc s)).

(** [os.path.exists]. *)
Definition path_exists (path : string) : M bool :=
  λ s, (Return (bool_decide (is_Some (fs s !! path))), s).

(** [os.remove] of an existing file. The file system of the model holds
    regular files only, and no error of the operating system is modelled:
    the handlers remove nothing but the upload they wrote themselves. *)
Definition os_remove (path : string) : M unit :=
  λ s, (Return tt,
        mkState (delete path (fs s)) (uuid_calls s)
                (trace s ++ [EvRemove path]) (doc s)).

(** The assignment [doc = v]. *)
Definition set_doc (v : option (Document PageData)) : M unit :=
  λ s, (Return tt, mkState (fs s) (uuid_calls s) (trace s) v).

(** Reading [doc] where the code uses it as a document. *)
Definition get_doc : M (Document PageData) :=
  λ s, match doc s with
       | Some d => (Return d, s)
       | None => (Raise (PyError "'NoneType' object has no attribute"), s)
       end.

(** [fitz.open(path)]. *)
Definition fitz_open (path : string) : M (Document PageData) :=
  emit (EvOpen path);;
  λ s, match fs s !! path with
       | Some data => lift (parse data) s
       | None => (Raise (PyError ("no such file: " +:+ Py.repr path)), s)
       end.

(** [len(doc)]. *)
Definition doc_len : M nat := d ← get_doc; ret (length (pages d)).

(** [bool(doc)] in [if doc:]: [None] is false, and a document object,
    which defines [__len__] (the handlers call [len(doc)]) and no
    [__bool__], is true when its length is not zero. *)
Definition py_bool (v : option (Document PageData)) : bool :=
  match v with
  | None => false
  | Some d => negb (length (pages d) =? 0)%nat
  end.

Definition doc_truthy : M bool := λ s, (Return (py_bool (doc s)), s).

(** [doc.close()]. *)
Definition doc_close : M unit := _ ← get_doc; emit EvClose.

(** [doc.load_page(i)]: the page object is the page number in [doc]. *)
Definition load_page (i : nat) : M nat :=
  d ← get_doc;
  if (i <? length (pages d))%nat then ret i
  else raise (PyError "page not in document").

(** The state of page [page] of [doc]. *)
Definition page_data (page : nat) : M PageData :=
  d ← get_doc;
  match pages d !! page with
  | Some p => ret p
  | None => raise (PyError "page not in document")
  end.

(** A call on a page object that changes the page. *)
Definition page_update (page : nat) (f : PageData → result PageData) : M unit :=
  d ← get_doc;
  p ← page_data page;
  p' ← lift (f p);
  set_doc (Some (mkDocument (<[page := p']> (pages d)) (metadata d))).

Definition page_get_text (page : nat) : M string :=
  p ← page_data page; lift (get_text_of p).

Definition page_get_pixmap (page : nat) : M Pixmap :=
  p ← page_data page; lift (get_pixmap_of p).

Definition page_search_for (page : nat) (needle : string)
  : M (option (list (Rect Coord))) :=
  emit (EvSearch page needle);;
  p ← page_data page; lift (search_for_of p needle).

Definition page_add_redact_annot (page : nat) (r : Rect Coord) : M unit :=
  emit (EvAddRedact page r);;
  page_update page (λ p, add_redact_annot_of p r).

Definition page_apply_redactions (page : nat) : M unit :=
  emit (EvApplyRedactions page);;
  page_update page apply_redactions_of.

Definition page_insert_text (page : nat) (point : Coord * Coord)
    (text : string) (fontsize : Z) (color : Z * Z * Z) : M unit :=
  emit (EvInsertText page point text fontsize color);;
  page_update page (λ p, insert_text_of p point text fontsize color).

(** [doc.save(path)]. *)
Definition doc_save (path : string) : M unit :=
  emit (EvSave path);;
  d ← get_doc;
  data ← lift (pdf_bytes d);
  λ s, (Return tt, mkState (<[path := data]> (fs s)) (uuid_calls s)
                           (trace s) (doc s)).

(** [word_doc.save(path)]. *)
Definition docx_save (word_doc : list DocxBlock) (path : string) : M unit :=
  emit (EvDocxSave path);;
  λ s, (Return tt, mkState (<[path := docx_bytes word_doc]> (fs s))
                           (uuid_calls s) (trace s) (doc s)).

(** [SUPPORTED_CONVERSIONS[k]]. *)
Definition media_type (k : string) : M string :=
  match dict_get k SUPPORTED_CONVERSIONS with
  | Some v => ret v
  | None => raise (PyError (Py.repr k))
  end.

(** *** Helper functions of the service *)

Definition save_file (file : UploadFile) : M string :=
  u ← uuid4;
  let safe_filename := u +:+ ".xps" in
  let input_path := Py.path_join UPLOAD_FOLDER safe_filename in
  write_file input_path (content file);;
  ret input_path.

Definition cleanup (file_path : string) : M unit :=
  e ← path_exists file_path;
  if e then os_remove file_path else ret tt.

(** The check shared by the four handlers. *)
Definition is_xps (file : UploadFile) : bool :=
  Py.endswith (Py.lower (filename file)) ".xps".

(** The [finally] block shared by the four handlers. *)
Definition release (input_path : string) : M unit :=
  t ← doc_truthy;
  (if t then doc_close else ret tt);;
  cleanup input_path.

(** The body of the loop of [convert_xps] ("images") and of
    [preview_all_xps]; [zipf] is the archive's entries in writing order. *)
Definition zip_page (i : nat) (zipf : list (string * bytes))
  : M (list (string * bytes)) :=
  page ← load_page i;
  pix ← page_get_pixmap page;
  img ← lift (image_frombytes "RGB" (width pix, height pix) (samples pix));
  img_io ← lift (image_save img "PNG");
  ret (zipf ++ [("page_" +:+ Py.str_of_nat (i + 1) +:+ ".png", img_io)]).

(** [for i in range(len(doc))] over a fresh archive. *)
Definition zip_pages : M (list (string * bytes)) :=
  n ← doc_len;
  for_each (seq 0 n) [] zip_page.

(** The body of the loop of [convert_xps] ("docx"). *)
Definition docx_page (i : nat) (word_doc : list DocxBlock)
  : M (list DocxBlock) :=
  page ← load_page i;
  text ← page_get_text page;
  let word_doc := word_doc ++ [Paragraph text] in
  len ← doc_len;
  if (Z.of_nat i <? Z.of_nat len - 1)%Z
  then ret (word_doc ++ [PageBreak])
  else ret word_doc.

(** [for i in range(len(doc))] over a fresh [Document()]. *)
Definition docx_blocks : M (list DocxBlock) :=
  n ← doc_len;
  for_each (seq 0 n) [] docx_page.

(** The body of the loop of [read_xps]. *)
Definition extract_page (page_num : nat) (text_content : string) : M string :=
  page ← load_page page_num;
  text ← page_get_text page;
  ret (text_content +:+ (text +:+ PAGE_BREAK)).

(** [for page_num in range(len(doc))], starting from [text_content = ""]. *)
Definition extract_text : M string :=
  n ← doc_len;
  for_each (seq 0 n) "" extract_page.

(** The values of [for x in v]: a list gives its elements, and [None]
    raises [TypeError]. *)
Definition py_iter {A} (v : option (list A)) : M (list A) :=
  match v with
  | Some l => ret l
  | None => raise (PyError "'NoneType' object is not iterable")
  end.

(** The body of the inner loop of [edit_xps]. *)
Definition replace_instance (page : nat) (new_text : string)
    (inst : Rect Coord) (_ : unit) : M unit :=
  page_add_redact_annot page inst;;
  page_apply_redactions page;;
  page_insert_text page (x0 inst, y0 inst) new_text 11%Z (0, 0, 0)%Z.

(** The body of the outer loop of [edit_xps]. *)
Definition replace_page (old_text new_text : string) (page_num : nat)
    (_ : unit) : M unit :=
  page ← load_page page_num;
  text_instances ← page_search_for page old_text;
  insts ← py_iter text_instances;
  for_each insts tt (replace_instance page new_text).

(** [for page_num in range(len(doc))]. *)
Definition replace_in_pages (old_text new_text : string) : M unit :=
  n ← doc_len;
  for_each (seq 0 n) tt (replace_page old_text new_text).

(** The [try] block of [convert_xps]. *)
Definition convert_try (conversion_type input_path : string) : M Response :=
  d ← fitz_open input_path;
  set_doc (Some d);;
  u ← uuid4;
  let output_filename := u +:+ "." +:+ conversion_type in
  let output_path := Py.path_join RESULT_FOLDER output_filename in
  if String.eqb conversion_type "pdf" then
    doc_save output_path;;
    mt ← media_type "pdf";
    ret (FileResponse output_path mt output_filename)
  else if String.eqb conversion_type "images" then
    zipf ← zip_pages;
    ret (StreamingResponse zipf "application/zip"
           "attachment; filename=images.zip")
  else if String.eqb conversion_type "docx" then
    word_doc ← docx_blocks;
    docx_save word_doc output_path;;
    mt ← media_type "docx";
    ret (FileResponse output_path mt output_filename)
  else ret NoneResponse.

(** [POST /convert/{conversion_type}]. *)
Definition convert_xps (conversion_type : string) (file : UploadFile)
  : M Response :=
  if negb (dict_in conversion_type SUPPORTED_CONVERSIONS) then
    raise (HTTPException 400
             ("Unsupported conversion. Allowed: " +:+
              Py.str_of_list (dict_keys SUPPORTED_CONVERSIONS)))
  else if negb (is_xps file) then
    raise (HTTPException 400 "Only .xps files are allowed")
  else
    input_path ← save_file file;
    set_doc None;;
    try_except_finally
      (convert_try conversion_type input_path)
      (λ e, raise (HTTPException 500 ("Conversion failed: " +:+ exn_str e)))
      (release input_path).

(** The [try] block of [read_xps]. *)
Definition read_try (input_path : string) : M Response :=
  d ← fitz_open input_path;
  set_doc (Some d);;
  d ← get_doc;
  let meta := metadata d in
  text_content ← extract_text;
  len ← doc_len;
  ret (JSONResponse meta len text_content).

(** [POST /read-xps]. *)
Definition read_xps (file : UploadFile) : M Response :=
  if negb (is_xps file) then
    raise (HTTPException 400 "Only .xps files are allowed")
  else
    input_path ← save_file file;
    set_doc None;;
    try_except_finally
      (read_try input_path)
      (λ e, raise (HTTPException 500 ("Failed to read XPS: " +:+ exn_str e)))
      (release input_path).

(** The [try] block of [preview_all_xps]. *)
Definition preview_try (input_path : string) : M Response :=
  d ← fitz_open input_path;
  set_doc (Some d);;
  zipf ← zip_pages;
  ret (StreamingResponse zipf "application/zip"
         "attachment; filename=preview_pages.zip").

(** [POST /preview-all]. *)
Definition preview_all_xps (file : UploadFile) : M Response :=
  if negb (is_xps file) then
    raise (HTTPException 400 "Only .xps files are allowed")
  else
    input_path ← save_file file;
    set_doc None;;
    try_except_finally
      (preview_try input_path)
      (λ e, raise (HTTPException 500
                     ("Failed to generate preview: " +:+ exn_str e)))
      (release input_path).

(** The [try] block of [edit_xps]. *)
Definition edit_try (input_path old_text new_text : string) : M Response :=
  d ← fitz_open input_path;
  set_doc (Some d);;
  replace_in_pages old_text new_text;;
  u ← uuid4;
  let output_filename := "edited_" +:+ u +:+ ".pdf" in
  let output_path := Py.path_join RESULT_FOLDER output_filename in
  doc_save output_path;;
  ret (FileResponse output_path "application/pdf" output_filename).

(** [POST /edit-xps]. *)
Definition edit_xps (file : UploadFile) (old_text new_text : string)
  : M Response :=
  if negb (is_xps file) then
    raise (HTTPException 400 "Only .xps files are allowed")
  else
    input_path ← save_file file;
    set_doc None;;
    try_except_finally
      (edit_try input_path old_text new_text)
      (λ e, raise (HTTPException 500 ("Failed to edit XPS: " +:+ exn_str e)))
      (release input_path).

(** [GET /]. *)
Definition root : list (string * string) :=
  [("message", "Welcome to the XPS API. Use /docs for API documentation.")].

End Service.

(** ** A small backend to run the handlers on *)

Module Toy.

(** A page is its text; a document file is its pages' texts, one per
    line-feed-terminated line, and a file starting with ["!"] does not
    open. Searching finds the needle when the page's text is the needle
    itself and gives [None] for the empty needle; redaction empties the
    page and insertion appends, as they do on a document that is a PDF; a
    document without pages cannot be saved. *)
Fixpoint lines (acc : string) (s : string) : list string :=
  match s with
  | EmptyString => []
  | String c s' =>
      if Ascii.eqb c (ascii_of_nat 10) then acc :: lines "" s'
      else lines (acc +:+ String c "") s'
  end.

#[global] Instance backend : Backend := {|
  PageData := string;
  Coord := Z;
  Image := nat * nat * bytes;
  urandom16 := λ n, (N.of_nat n * 0x0123456789abcdef0123456789abcdef + 7)%N;
  parse := λ data,
    if Py.startswith data "!" then Err "cannot open broken document"
    else Ok (mkDocument (lines "" data) [("format", "XPS")]);
  get_text_of := λ p,
    if String.eqb p "?" then Err "text extraction failed" else Ok p;
  get_pixmap_of := λ p, Ok (mkPixmap (String.length p) 1 p);
  search_for_of := λ p needle,
    if String.eqb needle "" then Ok None
    else if String.eqb p needle
         then Ok (Some [mkRect 0%Z 0%Z (Z.of_nat (String.length p)) 1%Z])
         else Ok (Some []);
  add_redact_annot_of := λ p r, Ok p;
  apply_redactions_of := λ p, Ok "";
  insert_text_of := λ p pt text fontsize color, Ok (p +:+ text);
  pdf_bytes := λ d,
    match pages d with
    | [] => Err "cannot save with zero pages"
    | ps => Ok ("%PDF" +:+ Py.join Py.LF ps)
    end;
  image_frombytes := λ mode size data, Ok (size, data);
  image_save := λ img format, Ok (format +:+ ":" +:+ snd img);
  docx_bytes := λ body,
    Py.join "" (map (λ b, match b with
                          | Paragraph t => "<p>" +:+ t +:+ "</p>"
                          | PageBreak => "<p><br/></p>"
                          end) body);
|}.

Definition s0 : State :=
  mkState ∅ 0 [] None.

(** Three pages: "Intro", "Draft", "End". *)
Definition three_pages : bytes :=
  "Intro" +:+ Py.LF +:+ "Draft" +:+ Py.LF +:+ "End" +:+ Py.LF.

Definition upload : UploadFile := mkUpload "Report.XPS" three_pages.

Definition document : Document string :=
  mkDocument ["Intro"; "Draft"; "End"] [("format", "XPS")].

(** An upload that opens as a document without pages. *)
Definition empty_upload : UploadFile := mkUpload "empty.xps" "".

Definition empty_document : Document string :=
  mkDocument [] [("format", "XPS")].

(** An upload that does not open. *)
Definition broken_upload : UploadFile := mkUpload "broken.xps" "!".

(** An upload whose only page has no extractable text. *)
Definition unreadable_upload : UploadFile :=
  mkUpload "unreadable.xps" ("?" +:+ Py.LF).

(** An upload whose second page has no extractable text. *)
Definition second_unreadable : UploadFile :=
  mkUpload "second.xps" ("Intro" +:+ Py.LF +:+ "?" +:+ Py.LF +:+ "End" +:+ Py.LF).

(** The same libraries, but a page with the text ["#"] cannot be
    rendered. *)
Definition frail : Backend := {|
  PageData := string;
  Coord := Z;
  Image := nat * nat * bytes;
  urandom16 := @urandom16 backend;
  parse := @parse backend;
  get_text_of := @get_text_of backend;
  get_pixmap_of := λ p,
    if String.eqb p "#" then Err "cannot render page"
    else @get_pixmap_of backend p;
  search_for_of := @search_for_of backend;
  add_redact_annot_of := @add_redact_annot_of backend;
  apply_redactions_of := @apply_redactions_of backend;
  insert_text_of := @insert_text_of backend;
  pdf_bytes := @pdf_bytes backend;
  image_frombytes := @image_frombytes backend;
  image_save := @image_save backend;
  docx_bytes := @docx_bytes backend;
|}.

(** The same libraries, but the pages are those of a document that is not
    a PDF, as the pages of an XPS document are: [add_redact_annot] raises
    on them. *)
Definition not_pdf : Backend := {|
  PageData := string;
  Coord := Z;
  Image := nat * nat * bytes;
  urandom16 := @urandom16 backend;
  parse := @parse backend;
  get_text_of := @get_text_of backend;
  get_pixmap_of := @get_pixmap_of backend;
  search_for_of := @search_for_of backend;
  add_redact_annot_of := λ p r, Err "is no PDF";
  apply_redactions_of := @apply_redactions_of backend;
  insert_text_of := @insert_text_of backend;
  pdf_bytes := @pdf_bytes backend;
  image_frombytes := @image_frombytes backend;
  image_save := @image_save backend;
  docx_bytes := @docx_bytes backend;
|}.

(** An upload whose second page cannot be rendered by [frail]. *)
Definition second_unrenderable : UploadFile :=
  mkUpload "render.xps" ("Intro" +:+ Py.LF +:+ "#" +:+ Py.LF +:+ "End" +:+ Py.LF).

(** A state in which the folders already hold files of other requests. *)
Definition busy : State :=
  mkState (<["results/earlier.pdf" := "%PDFold"]>
             (<["uploads/other.xps" := three_pages]> ∅)) 5 [] None.

End Toy.

(** ** States the handlers pass through *)

Section Stages.
Context `{B : Backend}.

(** The path [save_file] writes to in state [s]. *)
Definition input_path_at (s : State) : string :=
  "uploads/" +:+ Uuid.str (Uuid.uuid4_int (urandom16 (uuid_calls s))) +:+ ".xps".

(** The identifier drawn after the upload was saved in state [s]. *)
Definition output_uuid_at (s : State) : string :=
  Uuid.str (Uuid.uuid4_int (urandom16 (S (uuid_calls s)))).

(** After [save_file] and [doc = None]. *)
Definition saved (file : UploadFile) (s : State) : State :=
  mkState (<[input_path_at s := content file]> (fs s)) (S (uuid_calls s))
          (trace s ++ [EvWrite (input_path_at s)]) None.

(** After an attempt to open the saved upload, with the value of [doc]. *)
Definition attempted (file : UploadFile) (s : State)
    (v : option (Document PageData)) : State :=
  mkState (<[input_path_at s := content file]> (fs s)) (S (uuid_calls s))
          (trace s ++ [EvWrite (input_path_at s); EvOpen (input_path_at s)]) v.

(** After the [finally] block. *)
Definition released (input_path : string) (s : State) : State :=
  mkState (delete input_path (fs s)) (uuid_calls s)
          (trace s ++ (if py_bool (doc s) then [EvClose] else [])
                   ++ (if bool_decide (is_Some (fs s !! input_path))
                       then [EvRemove input_path] else []))
          (doc s).

(** The outcome of a handler from the outcome of its [try] block: the
    [except] clause maps an exception, the [finally] block runs either way. *)
Definition finish {A} (prefix input_path : string) (r : outcome A * State)
  : outcome A * State :=
  match r with
  | (Return a, s1) => (Return a, released input_path s1)
  | (Raise e, s1) =>
      (Raise (HTTPException 500 (prefix +:+ exn_str e)), released input_path s1)
  end.

(** The number of [doc.close()] calls in a trace. *)
Definition is_close (e : Event) : bool :=
  match e with EvClose => true | _ => false end.

Fixpoint closes (t : list Event) : nat :=
  match t with
  | [] => 0
  | e :: t' => (if is_close e then 1 else 0) + closes t'
  end.

(** *** What the pipelines are expected to produce *)

(** The text of [read_xps]: every page's text followed by the separator. *)
Fixpoint pages_text (texts : list string) : string :=
  match texts with
  | [] => ""
  | t :: rest => (t +:+ PAGE_BREAK) +:+ pages_text rest
  end.

(** The PNG file of a page: its pixmap, read as an RGB image of the
    pixmap's width and height, saved in PNG format. *)
Definition png_of_page (p : PageData) : result bytes :=
  match get_pixmap_of p with
  | Err msg => Err msg
  | Ok pix =>
      match image_frombytes "RGB" (width pix, height pix) (samples pix) with
      | Err msg => Err msg
      | Ok img => image_save img "PNG"
      end
  end.

(** The archive entries for the PNG files of pages [k], [k+1], ... *)
Fixpoint png_entries (k : nat) (pngs : list bytes) : list (string * bytes) :=
  match pngs with
  | [] => []
  | b :: rest =>
      ("page_" +:+ Py.str_of_nat (k + 1) +:+ ".png", b) :: png_entries (S k) rest
  end.

(** One paragraph per text, a page break between two paragraphs. *)
Fixpoint docx_body (texts : list string) : list DocxBlock :=
  match texts with
  | [] => []
  | t :: rest =>
      match rest with
      | [] => [Paragraph t]
      | _ :: _ => Paragraph t :: PageBreak :: docx_body rest
      end
  end.

(** The paragraphs appended by [add_paragraph(text)], which hold a page's
    text, as opposed to the paragraphs that hold a page break. The number
    of paragraphs of a document is the length of its body. *)
Definition is_text_paragraph (b : DocxBlock) : bool :=
  match b with Paragraph _ => true | PageBreak => false end.

(** The paragraphs appended by [add_page_break()]. *)
Definition is_page_break (b : DocxBlock) : bool :=
  match b with Paragraph _ => false | PageBreak => true end.

(** Redaction of one hit and insertion of the new text at its anchor. *)
Definition redact_insert (new_text : string) (p : PageData)
    (inst : Rect Coord) : result PageData :=
  match add_redact_annot_of p inst with
  | Err msg => Err msg
  | Ok p1 =>
      match apply_redactions_of p1 with
      | Err msg => Err msg
      | Ok p2 => insert_text_of p2 (x0 inst, y0 inst) new_text 11%Z (0, 0, 0)%Z
      end
  end.

(** The same for the hits of a page, in the order given. *)
Fixpoint redact_insert_all (new_text : string) (p : PageData)
    (insts : list (Rect Coord)) : result PageData :=
  match insts with
  | [] => Ok p
  | inst :: rest =>
      match redact_insert new_text p inst with
      | Err msg => Err msg
      | Ok p' => redact_insert_all new_text p' rest
      end
  end.

(** The backend calls for one hit on page [page]. *)
Definition instance_events (page : nat) (new_text : string)
    (inst : Rect Coord) : list Event :=
  [ EvAddRedact page inst;
    EvApplyRedactions page;
    EvInsertText page (x0 inst, y0 inst) new_text 11%Z (0, 0, 0)%Z ].

(** The backend calls for pages [k], [k+1], ... with the given hits. *)
Fixpoint pages_events (old_text new_text : string) (k : nat)
    (hits : list (list (Rect Coord))) : list Event :=
  match hits with
  | [] => []
  | insts :: rest =>
      (EvSearch k old_text :: concat (map (instance_events k new_text) insts))
      ++ pages_events old_text new_text (S k) rest
  end.

(** The searches on pages [j], [j+1], ..., [j+k-1]. *)
Definition searches (old_text : string) (j k : nat) : list Event :=
  map (λ i, EvSearch i old_text) (seq j k).

(** State [s], whose [doc] is [d], after calls on page [i] that leave the
    page as [p'] and the events [extra] in the trace. *)
Definition set_page (s : State) (d : Document PageData) (i : nat)
    (p' : PageData) (extra : list Event) : State :=
  mkState (fs s) (uuid_calls s) (trace s ++ extra)
          (Some (mkDocument (<[i := p']> (pages d)) (metadata d))).

(** One more identifier drawn. *)
Definition drawn (s : State) : State :=
  mkState (fs s) (S (uuid_calls s)) (trace s) (doc s).

(** The path of the DOCX file written for a request that starts in [s]. *)
Definition docx_path_at (s : State) : string :=
  "results/" +:+ output_uuid_at s +:+ ".docx".

(** The path of the edited PDF written for a request that starts in [s]. *)
Definition edited_name_at (s : State) : string :=
  "edited_" +:+ output_uuid_at s +:+ ".pdf".

Definition edited_path_at (s : State) : string :=
  "results/" +:+ edited_name_at s.

(** The pages and their hits after the text-replace loops: a page of [d]
    with its hits for [old_text] and its state after redaction and
    insertion on every hit. *)
Definition edited (old_text new_text : string) (d : Document PageData)
    (edits : list (list (Rect Coord) * PageData)) : Prop :=
  Forall2 (λ p e, search_for_of p old_text = Ok (Some e.1)
                  ∧ redact_insert_all new_text p e.1 = Ok e.2)
          (pages d) edits.

(** A computation that closes no document and leaves the truth value of
    [doc] as it is. *)
Definition quiet {A} (m : M A) : Prop :=
  ∀ s, closes (trace (snd (m s))) = closes (trace s)
       ∧ py_bool (doc (snd (m s))) = py_bool (doc s).

(** How often the [finally] block closes the document of an upload. *)
Definition closes_expected (file : UploadFile) : nat :=
  match parse (content file) with
  | Ok d => if py_bool (Some d) then 1 else 0
  | Err _ => 0
  end.

(** The promise of the DOCX pipeline read to the letter, for the request
    that starts in [s]: the document that the loop of [convert_xps] builds
    on the opened upload and that the handler writes has exactly N
    paragraphs and exactly N - 1 page breaks, N the number of pages, as
    integers. *)
Definition docx_counts_as_stated (file : UploadFile) (s : State) : Prop :=
  ∀ d, parse (content file) = Ok d →
    ∃ body,
      fst (docx_blocks (drawn (attempted file s (Some d)))) = Return body
      ∧ fs (snd (convert_xps "docx" file s)) !! docx_path_at s
        = Some (docx_bytes body)
      ∧ length body = length (pages d)
      ∧ Z.of_nat (length (List.filter is_page_break body))
        = (Z.of_nat (length (pages d)) - 1)%Z.


(** The promise about a document without pages read to the letter, for
    the request that starts in [s]: every operation returns on it, the
    archive of the images has no entry, the DOCX has no paragraph, and the
    text read is empty with a page count of 0. *)
Definition zero_pages_as_stated (file : UploadFile) (s : State) : Prop :=
  ∀ d, parse (content file) = Ok d → pages d = [] →
    (∃ r, fst (convert_xps "pdf" file s) = Return r)
    ∧ (∀ old_text new_text,
         ∃ r, fst (edit_xps file old_text new_text s) = Return r)
    ∧ fst (convert_xps "images" file s)
      = Return (StreamingResponse [] "application/zip"
                  "attachment; filename=images.zip")
    ∧ fst (preview_all_xps file s)
      = Return (StreamingResponse [] "application/zip"
                  "attachment; filename=preview_pages.zip")
    ∧ (∃ r, fst (convert_xps "docx" file s) = Return r)
    ∧ fs (snd (convert_xps "docx" file s)) !! docx_path_at s
      = Some (docx_bytes [])
    ∧ fst (read_xps file s) = Return (JSONResponse (metadata d) 0 "").

(** *** What a request may do to the rest of the state *)

(** The path of the PDF written by [convert_xps] ("pdf") for a request
    that starts in [s]. *)
Definition pdf_path_at (s : State) : string :=
  "results/" +:+ output_uuid_at s +:+ ".pdf".

(** The path of the file written by [convert_xps] for a conversion type. *)
Definition convert_path_at (ct : string) (s : State) : string :=
  "results/" +:+ output_uuid_at s +:+ "." +:+ ct.

(** The file system once the upload is saved. *)
Definition base_fs (file : UploadFile) (s : State) : gmap string bytes :=
  <[input_path_at s := content file]> (fs s).

(** The calls on an opened document and the saving of a result. *)
Definition is_page_event (e : Event) : bool :=
  match e with
  | EvWrite _ | EvRemove _ | EvOpen _ | EvClose => false
  | _ => true
  end.

(** From [s] to [s']: same files, same number of identifiers drawn, and
    only calls on the opened document added to the trace. *)
Definition calm_step (s s' : State) : Prop :=
  fs s' = fs s
  ∧ uuid_calls s' = uuid_calls s
  ∧ ∃ t, trace s' = trace s ++ t ∧ forallb is_page_event t = true.

Definition calm {A} (m : M A) : Prop := ∀ s, calm_step s (snd (m s)).

(** What every accepted request amounts to, [r] being the handler's
    outcome and final state and [out] the only path it may write to: the
    [finally] block ran on a state [s1] that holds the upload and
    otherwise the files of [s], but for [out] when the handler returned;
    at most one more identifier was drawn; and between opening the upload
    and the [finally] block only calls on the document happened. *)
Definition summary (file : UploadFile) (s : State) (out : string)
    (r : outcome Response * State) : Prop :=
  ∃ s1,
    snd r = released (input_path_at s) s1
    ∧ (fs s1 = base_fs file s
       ∨ ∃ data resp, fs s1 = <[out := data]> (base_fs file s)
                      ∧ fst r = Return resp)
    ∧ (uuid_calls s1 = S (uuid_calls s) ∨ uuid_calls s1 = S (S (uuid_calls s)))
    ∧ ∃ t, trace s1
           = trace s ++ [EvWrite (input_path_at s); EvOpen (input_path_at s)]
                     ++ t
           ∧ forallb is_page_event t = true.

(** The calls of one accepted request that starts in [s], as they must
    appear at the end of the trace [t']. *)
Definition in_order (s : State) (t' : list Event) : Prop :=
  ∃ t closing,
    t' = trace s ++ [EvWrite (input_path_at s); EvOpen (input_path_at s)]
                 ++ t ++ closing ++ [EvRemove (input_path_at s)]
    ∧ forallb is_page_event t = true
    ∧ (closing = [] ∨ closing = [EvClose]).

(** A computation that leaves the whole state as it is. *)
Definition still {A} (m : M A) : Prop := ∀ s, snd (m s) = s.


End Stages.

(** ** Facts about the string functions *)

Lemma append_cons c (s t : string) : String c s +:+ t = String c (s +:+ t).
Proof. reflexivity. Qed.

Lemma append_nil_l (s : string) : "" +:+ s = s.
Proof. reflexivity. Qed.

Lemma append_nil_r (s : string) : s +:+ "" = s.
Proof. induction s as [|c s IH]; [done|]. by rewrite append_cons, IH. Qed.

Lemma append_assoc (a b c : string) : (a +:+ b) +:+ c = a +:+ (b +:+ c).
Proof.
  induction a as [|x a IH]; [done|].
  by rewrite !append_cons, IH.
Qed.

Lemma length_append (a b : string) :
  String.length (a +:+ b) = String.length a + String.length b.
Proof.
  induction a as [|x a IH]; [done|].
  rewrite append_cons. simpl. by rewrite IH.
Qed.

Lemma substring_all (s : string) : String.substring 0 (String.length s) s = s.
Proof. induction s as [|c s IH]; [done|]. simpl. by rewrite IH. Qed.

Lemma substring_append_r (p suf : string) :
  String.substring (String.length p) (String.length suf) (p +:+ suf) = suf.
Proof.
  induction p as [|c p IH]; [apply substring_all|].
  rewrite append_cons. simpl. apply IH.
Qed.

Lemma substring_split (s : string) (m : nat) :
  m ≤ String.length s →
  s = String.substring 0 m s +:+ String.substring m (String.length s - m) s.
Proof.
  revert m. induction s as [|c s IH]; intros m Hm.
  - simpl in Hm. assert (m = 0) as -> by lia. done.
  - destruct m as [|m].
    + simpl. rewrite append_nil_l. by rewrite substring_all.
    + simpl in Hm. simpl. rewrite append_cons. f_equal. apply IH. lia.
Qed.

(** [endswith] is true exactly on the strings that are some stem followed
    by the suffix. *)
Lemma endswith_spec (s suf : string) :
  Py.endswith s suf = true ↔ ∃ stem, s = stem +:+ suf.
Proof.
  unfold Py.endswith. split.
  - intros [Hle Heq]%andb_true_iff.
    apply Nat.leb_le in Hle. apply String.eqb_eq in Heq.
    exists (String.substring 0 (String.length s - String.length suf) s).
    etrans; [apply (substring_split s (String.length s - String.length suf)); lia|].
    f_equal.
    replace (String.length s - (String.length s - String.length suf))
      with (String.length suf) by lia.
    exact Heq.
  - intros [stem ->]. rewrite length_append.
    apply andb_true_iff. split; [apply Nat.leb_le; lia|].
    apply String.eqb_eq.
    replace (String.length stem + String.length suf - String.length suf)
      with (String.length stem) by lia.
    apply substring_append_r.
Qed.

Lemma hex_digit_not_slash (n : N) :
  (n < 16)%N → Uuid.hex_digit n ≠ "/"%char.
Proof.
  intros Hn.
  assert (N.to_nat n < 16) as Hk.
  { change 16 with (N.to_nat 16). apply Nat.compare_lt_iff.
    rewrite <- N2Nat.inj_compare. by apply N.compare_lt_iff. }
  rewrite <- (N2Nat.id n). clear Hn.
  generalize dependent (N.to_nat n). intros k Hk.
  do 16 (destruct k as [|k]; [vm_compute; discriminate|]). lia.
Qed.

Lemma hex_head (w : nat) (v : N) :
  ∃ c rest, Uuid.hex (S w) v = String c rest ∧ c ≠ "/"%char.
Proof.
  revert v. induction w as [|w IH]; intros v.
  - exists (Uuid.hex_digit (v mod 16)%N), "". split; [done|].
    apply hex_digit_not_slash. by apply N.mod_lt.
  - destruct (IH (v / 16)%N) as (c & rest & Heq & Hc).
    exists c, (rest +:+ String (Uuid.hex_digit (v mod 16)%N) "").
    split; [|done].
    change (Uuid.hex (S (S w)) v)
      with (Uuid.hex (S w) (v / 16)%N +:+ String (Uuid.hex_digit (v mod 16)%N) "").
    by rewrite Heq.
Qed.

(** An identifier starts with a hexadecimal digit, never with [/]. *)
Lemma uuid_str_head (u : N) :
  ∃ c rest, Uuid.str u = String c rest ∧ c ≠ "/"%char.
Proof.
  destruct (hex_head 31 u) as (c & rest & Heq & Hc).
  unfold Uuid.str. rewrite Heq. simpl String.substring at 1.
  rewrite append_cons. eauto.
Qed.

Lemma startswith_slash c (s : string) :
  c ≠ "/"%char → Py.startswith (String c s) "/" = false.
Proof.
  intros Hc. unfold Py.startswith.
  change (String.prefix "/" (String c s))
    with (if ascii_dec "/" c then String.prefix "" s else false).
  destruct (ascii_dec "/" c) as [Heq|Hne]; [|reflexivity].
  exfalso. apply Hc. symmetry. exact Heq.
Qed.

(** [os.path.join] of a folder of the service and a generated name. *)
Lemma path_join_uploads_uuid (u : N) (ext : string) :
  Py.path_join UPLOAD_FOLDER (Uuid.str u +:+ ext)
  = "uploads/" +:+ Uuid.str u +:+ ext.
Proof.
  destruct (uuid_str_head u) as (c & rest & Heq & Hc).
  unfold Py.path_join. rewrite Heq, append_cons, startswith_slash by done.
  reflexivity.
Qed.

Lemma path_join_results_uuid (u : N) (ext : string) :
  Py.path_join RESULT_FOLDER (Uuid.str u +:+ ext)
  = "results/" +:+ Uuid.str u +:+ ext.
Proof.
  destruct (uuid_str_head u) as (c & rest & Heq & Hc).
  unfold Py.path_join. rewrite Heq, append_cons, startswith_slash by done.
  reflexivity.
Qed.

Lemma path_join_results_edited (name : string) :
  Py.path_join RESULT_FOLDER ("edited_" +:+ name)
  = "results/edited_" +:+ name.
Proof. reflexivity. Qed.

Lemma uploads_not_results (a b : string) : "uploads/" +:+ a ≠ "results/" +:+ b.
Proof. discriminate. Qed.

(** *** Examples *)

Example lower_xps : Py.lower "Report.XPS" = "report.xps".
Proof. reflexivity. Qed.

Example endswith_xps : Py.endswith (Py.lower "Report.XPS") ".xps" = true.
Proof. reflexivity. Qed.

Example endswith_txt : Py.endswith (Py.lower "report.txt") ".xps" = false.
Proof. reflexivity. Qed.

Example endswith_short : Py.endswith "ps" ".xps" = false.
Proof. reflexivity. Qed.

Example str_of_nat_12 : Py.str_of_nat 12 = "12".
Proof. reflexivity. Qed.

Example path_join_uploads : Py.path_join "uploads" "a.xps" = "uploads/a.xps".
Proof. reflexivity. Qed.

Example uuid_str_0 :
  Uuid.str (Uuid.uuid4_int 0) = "00000000-0000-4000-8000-000000000000".
Proof. vm_compute. reflexivity. Qed.

Example uuid_str_big :
  Uuid.str (Uuid.uuid4_int (2 ^ 128 - 1)) = "ffffffff-ffff-4fff-bfff-ffffffffffff".
Proof. vm_compute. reflexivity. Qed.


(** ** Running the monad *)

#[global] Arguments Uuid.str : simpl never.
#[global] Arguments Uuid.uuid4_int : simpl never.
#[global] Arguments Py.path_join : simpl never.
#[global] Arguments Py.str_of_nat : simpl never.
#[global] Arguments input_path_at : simpl never.
#[global] Arguments output_uuid_at : simpl never.

(** Reduction of the monad's plumbing, leaving maps, strings and loops
    alone. *)
Ltac mred :=
  repeat progress
    (cbv beta iota delta
       [bind ret raise lift emit set_doc get_doc uuid4 write_file path_exists
        os_remove doc_truthy doc_close doc_len load_page page_data page_update
        page_get_text page_get_pixmap page_search_for page_add_redact_annot
        page_apply_redactions page_insert_text doc_save docx_save py_iter];
     cbn [fs uuid_calls trace doc pages metadata fst snd]).

Section Runs.
Context `{B : Backend}.

Lemma bind_return {A C} (m : M A) (k : A → M C) s a s' :
  m s = (Return a, s') → bind m k s = k a s'.
Proof. intros H. unfold bind. by rewrite H. Qed.

Lemma bind_raise {A C} (m : M A) (k : A → M C) s e s' :
  m s = (Raise e, s') → bind m k s = (Raise e, s').
Proof. intros H. unfold bind. by rewrite H. Qed.

Lemma closes_app (t u : list Event) : closes (t ++ u) = closes t + closes u.
Proof. induction t as [|e t IH]; [done|]. simpl. rewrite IH. lia. Qed.

Lemma save_file_run file s :
  save_file file s
  = (Return (input_path_at s),
     mkState (<[input_path_at s := content file]> (fs s)) (S (uuid_calls s))
             (trace s ++ [EvWrite (input_path_at s)]) (doc s)).
Proof.
  unfold save_file. mred.
  rewrite path_join_uploads_uuid. reflexivity.
Qed.

Lemma cleanup_absent (f : gmap string bytes) (p : string) :
  bool_decide (is_Some (f !! p)) = false → delete p f = f.
Proof.
  intros Hex. apply bool_decide_eq_false in Hex.
  apply delete_id. by apply eq_None_not_Some.
Qed.

Lemma release_run input_path s :
  release input_path s = (Return tt, released input_path s).
Proof.
  unfold release, released, cleanup.
  destruct s as [f u t [d|]]; mred.
  - destruct (py_bool (Some d)); mred;
      destruct (bool_decide (is_Some (f !! input_path))) eqn:Hex; mred.
    + by rewrite <- app_assoc.
    + by rewrite (cleanup_absent _ _ Hex).
    + done.
    + by rewrite (cleanup_absent _ _ Hex), !app_nil_r.
  - change (py_bool None) with false. mred.
    destruct (bool_decide (is_Some (f !! input_path))) eqn:Hex; mred.
    + done.
    + by rewrite (cleanup_absent _ _ Hex), !app_nil_r.
Qed.

(** The [try] statement of the four handlers, run on a state. *)
Lemma try_release_run {A} (body : M A) (prefix input_path : string) s :
  try_except_finally body
    (λ e, raise (HTTPException 500 (prefix +:+ exn_str e)))
    (release input_path) s
  = finish prefix input_path (body s).
Proof.
  unfold try_except_finally, raise, finish.
  destruct (body s) as [[a|e] s1]; by rewrite release_run.
Qed.

(** What the handlers do before the [try] statement. *)
Lemma prelude_run {A} (k : string → M A) file s :
  bind (save_file file) (λ input_path, bind (set_doc None) (λ _, k input_path)) s
  = k (input_path_at s) (saved file s).
Proof.
  rewrite (bind_return _ _ _ _ _ (save_file_run file s)). reflexivity.
Qed.

(** The first two statements of every [try] block. *)
Lemma open_run {A} (rest : M A) file s :
  bind (fitz_open (input_path_at s))
       (λ d, bind (set_doc (Some d)) (λ _, rest)) (saved file s)
  = match parse (content file) with
    | Ok d => rest (attempted file s (Some d))
    | Err msg => (Raise (PyError msg), attempted file s None)
    end.
Proof.
  unfold fitz_open, saved, attempted.
  mred. rewrite lookup_insert_eq, <- app_assoc.
  destruct (parse (content file)) as [d|msg]; reflexivity.
Qed.

(** *** The handlers on an accepted upload *)

Lemma convert_xps_run ct file s :
  dict_in ct SUPPORTED_CONVERSIONS = true →
  is_xps file = true →
  convert_xps ct file s
  = finish "Conversion failed: " (input_path_at s)
      (convert_try ct (input_path_at s) (saved file s)).
Proof.
  intros Hct Hx. unfold convert_xps. rewrite Hct, Hx. cbn [negb].
  rewrite prelude_run. apply try_release_run.
Qed.

Lemma read_xps_run file s :
  is_xps file = true →
  read_xps file s
  = finish "Failed to read XPS: " (input_path_at s)
      (read_try (input_path_at s) (saved file s)).
Proof.
  intros Hx. unfold read_xps. rewrite Hx. cbn [negb].
  rewrite prelude_run. apply try_release_run.
Qed.

Lemma preview_all_xps_run file s :
  is_xps file = true →
  preview_all_xps file s
  = finish "Failed to generate preview: " (input_path_at s)
      (preview_try (input_path_at s) (saved file s)).
Proof.
  intros Hx. unfold preview_all_xps. rewrite Hx. cbn [negb].
  rewrite prelude_run. apply try_release_run.
Qed.

Lemma edit_xps_run file old_text new_text s :
  is_xps file = true →
  edit_xps file old_text new_text s
  = finish "Failed to edit XPS: " (input_path_at s)
      (edit_try (input_path_at s) old_text new_text (saved file s)).
Proof.
  intros Hx. unfold edit_xps. rewrite Hx. cbn [negb].
  rewrite prelude_run. apply try_release_run.
Qed.

Lemma is_xps_false file :
  (¬ ∃ stem, Py.lower (filename file) = stem +:+ ".xps") →
  is_xps file = false.
Proof.
  intros Hno. unfold is_xps.
  destruct (Py.endswith (Py.lower (filename file)) ".xps") eqn:He; [|done].
  exfalso. apply Hno. by apply endswith_spec.
Qed.

End Runs.

(** ** The loops *)

Section Loops.
Context `{B : Backend}.

Lemma seq_split_at (n k : nat) :
  k < n → seq 0 n = seq 0 k ++ k :: seq (S k) (n - S k).
Proof.
  intros Hk. replace n with (k + S (n - S k)) at 1 by lia.
  by rewrite seq_app.
Qed.

(** A loop over [l1 ++ l2] is the loop over [l1] followed, when that one
    returns, by the loop over [l2]. *)
Lemma for_each_app {X A} (l1 l2 : list X) (body : X → A → M A) : ∀ acc s,
  for_each (l1 ++ l2) acc body s
  = bind (for_each l1 acc body) (λ acc', for_each l2 acc' body) s.
Proof.
  induction l1 as [|x l1 IH]; intros acc s; [reflexivity|].
  cbn [app for_each]. unfold bind.
  destruct (body x acc s) as [[a|e] s1]; [|reflexivity].
  rewrite IH. reflexivity.
Qed.

Lemma doc_len_run s d :
  doc s = Some d → doc_len s = (Return (length (pages d)), s).
Proof. intros Hd. unfold doc_len. mred. by rewrite Hd. Qed.

Lemma load_page_run s d i :
  doc s = Some d → i < length (pages d) → load_page i s = (Return i, s).
Proof.
  intros Hd Hi. unfold load_page. mred. rewrite Hd.
  apply Nat.ltb_lt in Hi. by rewrite Hi.
Qed.

Lemma page_get_text_run s d i p t :
  doc s = Some d → pages d !! i = Some p → get_text_of p = Ok t →
  page_get_text i s = (Return t, s).
Proof.
  intros Hd Hp Ht. unfold page_get_text. mred. rewrite Hd. mred.
  by rewrite Hp, Ht.
Qed.

Lemma page_get_pixmap_run s d i p pix :
  doc s = Some d → pages d !! i = Some p → get_pixmap_of p = Ok pix →
  page_get_pixmap i s = (Return pix, s).
Proof.
  intros Hd Hp Ht. unfold page_get_pixmap. mred. rewrite Hd. mred.
  by rewrite Hp, Ht.
Qed.

Lemma middle_lookup {A} (done todo : list A) (p : A) :
  (done ++ p :: todo) !! length done = Some p.
Proof. by rewrite list_lookup_middle. Qed.

Lemma middle_length {A} (done todo : list A) (p : A) :
  length done < length (done ++ p :: todo).
Proof. rewrite length_app. simpl. lia. Qed.

Lemma middle_shift {A} (done todo : list A) (p : A) :
  done ++ p :: todo = (done ++ [p]) ++ todo.
Proof. by rewrite <- app_assoc. Qed.

Lemma length_snoc {A} (done : list A) (p : A) :
  length (done ++ [p]) = S (length done).
Proof. rewrite length_app. simpl. lia. Qed.

(** The loop of [read_xps] over the pages not yet visited. *)
Lemma extract_loop todo : ∀ texts done acc s d,
  doc s = Some d →
  pages d = done ++ todo →
  Forall2 (λ p t, get_text_of p = Ok t) todo texts →
  for_each (seq (length done) (length todo)) acc extract_page s
  = (Return (acc +:+ pages_text texts), s).
Proof.
  induction todo as [|p todo IH]; intros texts done acc s d Hd Hp Hall.
  - apply Forall2_nil_inv_l in Hall as ->. simpl.
    by rewrite append_nil_r.
  - apply Forall2_cons_inv_l in Hall as (t & texts' & Ht & Hall & ->).
    cbn [length seq for_each].
    assert (extract_page (length done) acc s
            = (Return (acc +:+ (t +:+ PAGE_BREAK)), s)) as Hstep.
    { unfold extract_page.
      erewrite bind_return;
        [|eapply load_page_run; [done|rewrite Hp; apply middle_length]].
      erewrite bind_return;
        [|eapply page_get_text_run; [done|rewrite Hp; apply middle_lookup|done]].
      reflexivity. }
    rewrite (bind_return _ _ _ _ _ Hstep).
    rewrite <- (length_snoc done p).
    rewrite (IH texts' (done ++ [p]) _ s d Hd); [|by rewrite Hp, middle_shift|done].
    cbn [pages_text]. by rewrite append_assoc.
Qed.

Lemma extract_text_run s d texts :
  doc s = Some d →
  Forall2 (λ p t, get_text_of p = Ok t) (pages d) texts →
  extract_text s = (Return (pages_text texts), s).
Proof.
  intros Hd Hall. unfold extract_text.
  rewrite (bind_return _ _ _ _ _ (doc_len_run s d Hd)).
  exact (extract_loop (pages d) texts [] "" s d Hd eq_refl Hall).
Qed.

Lemma png_of_page_inv p b :
  png_of_page p = Ok b →
  ∃ pix img, get_pixmap_of p = Ok pix
    ∧ image_frombytes "RGB" (width pix, height pix) (samples pix) = Ok img
    ∧ image_save img "PNG" = Ok b.
Proof.
  unfold png_of_page. intros H.
  destruct (get_pixmap_of p) as [pix|]; [|done].
  destruct (image_frombytes "RGB" (width pix, height pix) (samples pix))
    as [img|] eqn:Himg; [|done].
  eauto.
Qed.

(** The loop of the two image pipelines over the pages not yet visited. *)
Lemma zip_loop todo : ∀ pngs done acc s d,
  doc s = Some d →
  pages d = done ++ todo →
  Forall2 (λ p b, png_of_page p = Ok b) todo pngs →
  for_each (seq (length done) (length todo)) acc zip_page s
  = (Return (acc ++ png_entries (length done) pngs), s).
Proof.
  induction todo as [|p todo IH]; intros pngs done acc s d Hd Hp Hall.
  - apply Forall2_nil_inv_l in Hall as ->. simpl. by rewrite app_nil_r.
  - apply Forall2_cons_inv_l in Hall as (b & pngs' & Hb & Hall & ->).
    apply png_of_page_inv in Hb as (pix & img & Hpix & Himg & Hsave).
    cbn [length seq for_each].
    assert (zip_page (length done) acc s
            = (Return (acc ++ [("page_" +:+ Py.str_of_nat (length done + 1)
                                +:+ ".png", b)]), s)) as Hstep.
    { unfold zip_page.
      erewrite bind_return;
        [|eapply load_page_run; [done|rewrite Hp; apply middle_length]].
      erewrite bind_return;
        [|eapply page_get_pixmap_run;
          [done|rewrite Hp; apply middle_lookup|done]].
      rewrite Himg. unfold lift at 1.
      erewrite bind_return; [|reflexivity].
      rewrite Hsave. reflexivity. }
    rewrite (bind_return _ _ _ _ _ Hstep).
    rewrite <- (length_snoc done p).
    rewrite (IH pngs' (done ++ [p]) _ s d Hd); [|by rewrite Hp, middle_shift|done].
    cbn [png_entries]. rewrite <- app_assoc. rewrite length_snoc. reflexivity.
Qed.

Lemma zip_pages_run s d pngs :
  doc s = Some d →
  Forall2 (λ p b, png_of_page p = Ok b) (pages d) pngs →
  zip_pages s = (Return (png_entries 0 pngs), s).
Proof.
  intros Hd Hall. unfold zip_pages.
  rewrite (bind_return _ _ _ _ _ (doc_len_run s d Hd)).
  exact (zip_loop (pages d) pngs [] [] s d Hd eq_refl Hall).
Qed.

(** The loop of the DOCX pipeline over the pages not yet visited. *)
Lemma docx_loop todo : ∀ texts done acc s d,
  doc s = Some d →
  pages d = done ++ todo →
  Forall2 (λ p t, get_text_of p = Ok t) todo texts →
  for_each (seq (length done) (length todo)) acc docx_page s
  = (Return (acc ++ docx_body texts), s).
Proof.
  induction todo as [|p todo IH]; intros texts done acc s d Hd Hp Hall.
  - apply Forall2_nil_inv_l in Hall as ->. simpl. by rewrite app_nil_r.
  - apply Forall2_cons_inv_l in Hall as (t & texts' & Ht & Hall & ->).
    cbn [length seq for_each].
    assert (docx_page (length done) acc s
            = (Return (if bool_decide (todo = [])
                       then acc ++ [Paragraph t]
                       else (acc ++ [Paragraph t]) ++ [PageBreak]), s))
      as Hstep.
    { unfold docx_page.
      erewrite bind_return;
        [|eapply load_page_run; [done|rewrite Hp; apply middle_length]].
      erewrite bind_return;
        [|eapply page_get_text_run; [done|rewrite Hp; apply middle_lookup|done]].
      cbv zeta.
      rewrite (bind_return _ _ _ _ _ (doc_len_run s d Hd)).
      rewrite Hp, length_app. cbn [length].
      match goal with
      | |- context [(?a <? ?b)%Z] => destruct (Z.ltb_spec a b) as [Hlt|Hge]
      end.
      - rewrite bool_decide_eq_false_2; [reflexivity|].
        intros ->. cbn [length] in Hlt. lia.
      - rewrite bool_decide_eq_true_2; [reflexivity|].
        destruct todo as [|q todo]; [done|]. cbn [length] in Hge. lia. }
    rewrite (bind_return _ _ _ _ _ Hstep).
    rewrite <- (length_snoc done p).
    rewrite (IH texts' (done ++ [p]) _ s d Hd); [|by rewrite Hp, middle_shift|done].
    destruct todo as [|q todo].
    + apply Forall2_nil_inv_l in Hall as ->.
      rewrite bool_decide_eq_true_2 by done. cbn [docx_body].
      by rewrite app_nil_r.
    + apply Forall2_cons_inv_l in Hall as (t2 & texts2 & _ & _ & ->).
      rewrite bool_decide_eq_false_2 by done.
      cbn [docx_body]. by rewrite <- !app_assoc.
Qed.

Lemma docx_blocks_run s d texts :
  doc s = Some d →
  Forall2 (λ p t, get_text_of p = Ok t) (pages d) texts →
  docx_blocks s = (Return (docx_body texts), s).
Proof.
  intros Hd Hall. unfold docx_blocks.
  rewrite (bind_return _ _ _ _ _ (doc_len_run s d Hd)).
  exact (docx_loop (pages d) texts [] [] s d Hd eq_refl Hall).
Qed.

Lemma redact_insert_inv new_text p inst p' :
  redact_insert new_text p inst = Ok p' →
  ∃ p1 p2, add_redact_annot_of p inst = Ok p1
    ∧ apply_redactions_of p1 = Ok p2
    ∧ insert_text_of p2 (x0 inst, y0 inst) new_text 11%Z (0, 0, 0)%Z = Ok p'.
Proof.
  unfold redact_insert. intros H.
  destruct (add_redact_annot_of p inst) as [p1|]; [|done].
  destruct (apply_redactions_of p1) as [p2|] eqn:H2; [|done].
  eauto.
Qed.

Lemma set_page_id s d i p :
  doc s = Some d → pages d !! i = Some p → set_page s d i p [] = s.
Proof.
  intros Hd Hp. unfold set_page.
  rewrite (list_insert_id _ _ _ Hp), app_nil_r.
  destruct s as [f u t o], d as [ps m]. cbn in *. by rewrite Hd.
Qed.

Lemma set_page_twice s d i p1 p2 e1 e2 :
  set_page (set_page s d i p1 e1)
           (mkDocument (<[i := p1]> (pages d)) (metadata d)) i p2 e2
  = set_page s d i p2 (e1 ++ e2).
Proof.
  unfold set_page. cbn [fs uuid_calls trace doc pages metadata].
  by rewrite list_insert_insert_eq, <- app_assoc.
Qed.

(** One pass of the inner loop of [edit_xps]. *)
Lemma replace_instance_run s d i p inst p' new_text :
  doc s = Some d → pages d !! i = Some p →
  redact_insert new_text p inst = Ok p' →
  replace_instance i new_text inst tt s
  = (Return tt, set_page s d i p' (instance_events i new_text inst)).
Proof.
  intros Hd Hp (p1 & p2 & H1 & H2 & H3)%redact_insert_inv.
  pose proof (lookup_lt_Some _ _ _ Hp) as Hi.
  unfold replace_instance, set_page, instance_events. mred.
  rewrite Hd. mred. rewrite Hp, H1. mred.
  rewrite list_lookup_insert_eq by done. rewrite H2. mred.
  rewrite list_lookup_insert_eq by (by rewrite length_insert).
  rewrite H3. mred.
  by rewrite !list_insert_insert_eq, <- !app_assoc.
Qed.

(** The inner loop of [edit_xps] on the hits of one page. *)
Lemma replace_instances_run new_text i insts : ∀ s d p p',
  doc s = Some d → pages d !! i = Some p →
  redact_insert_all new_text p insts = Ok p' →
  for_each insts tt (replace_instance i new_text) s
  = (Return tt,
     set_page s d i p' (concat (map (instance_events i new_text) insts))).
Proof.
  induction insts as [|inst insts IH]; intros s d p p' Hd Hp Hall.
  - cbn in Hall. injection Hall as <-. cbn [for_each map concat].
    by rewrite (set_page_id s d i p).
  - cbn [redact_insert_all] in Hall.
    destruct (redact_insert new_text p inst) as [p1|] eqn:H1; [|done].
    cbn [for_each map concat].
    rewrite (bind_return _ _ _ _ _
               (replace_instance_run s d i p inst p1 new_text Hd Hp H1)).
    rewrite (IH _ (mkDocument (<[i := p1]> (pages d)) (metadata d)) p1 p');
      [|done| |done].
    + by rewrite set_page_twice.
    + cbn [pages]. apply list_lookup_insert_eq. by eapply lookup_lt_Some.
Qed.

(** The search on one page. *)
Lemma page_search_for_run old_text s d i p v :
  doc s = Some d → pages d !! i = Some p →
  search_for_of p old_text = Ok v →
  page_search_for i old_text s
  = (Return v, set_page s d i p [EvSearch i old_text]).
Proof.
  intros Hd Hp Hs.
  unfold page_search_for, set_page. mred. rewrite Hd. mred.
  rewrite Hp, Hs. rewrite (list_insert_id _ _ _ Hp).
  by destruct d.
Qed.

(** One pass of the outer loop of [edit_xps]. *)
Lemma replace_page_run old_text new_text s d i p insts p' :
  doc s = Some d → pages d !! i = Some p →
  search_for_of p old_text = Ok (Some insts) →
  redact_insert_all new_text p insts = Ok p' →
  replace_page old_text new_text i tt s
  = (Return tt,
     set_page s d i p'
       (EvSearch i old_text :: concat (map (instance_events i new_text) insts))).
Proof.
  intros Hd Hp Hs Hall. unfold replace_page.
  erewrite bind_return; [|eapply load_page_run; [done|by eapply lookup_lt_Some]].
  rewrite (bind_return _ _ _ _ _
             (page_search_for_run old_text s d i p (Some insts) Hd Hp Hs)).
  rewrite (bind_return _ _ (set_page s d i p [EvSearch i old_text]) insts
             (set_page s d i p [EvSearch i old_text])) by done.
  rewrite (replace_instances_run new_text i insts _
             (mkDocument (<[i := p]> (pages d)) (metadata d)) p p');
    [|done| |done].
  - by rewrite set_page_twice.
  - cbn [pages]. apply list_lookup_insert_eq. by eapply lookup_lt_Some.
Qed.

(** The outer loop of [edit_xps] over the pages not yet visited. *)
Lemma replace_loop old_text new_text todo : ∀ edits done s meta,
  doc s = Some (mkDocument (done ++ todo) meta) →
  Forall2 (λ p e, search_for_of p old_text = Ok (Some e.1)
                  ∧ redact_insert_all new_text p e.1 = Ok e.2) todo edits →
  for_each (seq (length done) (length todo)) tt
           (replace_page old_text new_text) s
  = (Return tt,
     mkState (fs s) (uuid_calls s)
       (trace s ++ pages_events old_text new_text (length done) (map fst edits))
       (Some (mkDocument (done ++ map snd edits) meta))).
Proof.
  induction todo as [|p todo IH]; intros edits done s meta Hd Hall.
  - apply Forall2_nil_inv_l in Hall as ->.
    cbn [length seq for_each map pages_events].
    rewrite app_nil_r. destruct s as [f u t o]. cbn in *. by rewrite Hd.
  - apply Forall2_cons_inv_l in Hall as ([insts p'] & edits' & [Hs Hr] & Hall & ->).
    cbn [fst snd] in Hs, Hr.
    cbn [length seq for_each].
    rewrite (bind_return _ _ _ _ _
               (replace_page_run old_text new_text s _ (length done) p insts p'
                  Hd (middle_lookup done todo p) Hs Hr)).
    rewrite <- (length_snoc done p').
    erewrite (IH edits' (done ++ [p'])); [| |done].
    + unfold set_page. cbn [fs uuid_calls trace doc map fst snd pages_events].
      rewrite <- !app_assoc. rewrite length_snoc. reflexivity.
    + unfold set_page. cbn [doc pages metadata].
      rewrite <- (Nat.add_0_r (length done)), insert_app_r.
      cbn. by rewrite <- app_assoc.
Qed.

Lemma replace_in_pages_run old_text new_text s d edits :
  doc s = Some d →
  Forall2 (λ p e, search_for_of p old_text = Ok (Some e.1)
                  ∧ redact_insert_all new_text p e.1 = Ok e.2)
          (pages d) edits →
  replace_in_pages old_text new_text s
  = (Return tt,
     mkState (fs s) (uuid_calls s)
       (trace s ++ pages_events old_text new_text 0 (map fst edits))
       (Some (mkDocument (map snd edits) (metadata d)))).
Proof.
  intros Hd Hall. unfold replace_in_pages.
  rewrite (bind_return _ _ _ _ _ (doc_len_run s d Hd)).
  destruct d as [ps m].
  exact (replace_loop old_text new_text ps edits [] s m Hd Hall).
Qed.

(** The outer loop of [edit_xps] over pages without a hit. *)
Lemma search_only_loop old_text new_text d : ∀ k j s,
  doc s = Some d →
  j + k ≤ length (pages d) →
  (∀ i q, j ≤ i < j + k → pages d !! i = Some q →
     search_for_of q old_text = Ok (Some [])) →
  for_each (seq j k) tt (replace_page old_text new_text) s
  = (Return tt,
     mkState (fs s) (uuid_calls s) (trace s ++ searches old_text j k)
             (Some d)).
Proof.
  induction k as [|k IH]; intros j s Hd Hlen Hno.
  - cbn [seq for_each searches map]. rewrite app_nil_r.
    destruct s as [f u t o]. cbn in *. by rewrite Hd.
  - cbn [seq for_each].
    destruct (lookup_lt_is_Some_2 (pages d) j ltac:(lia)) as [q Hq].
    rewrite (bind_return _ _ _ _ _
               (replace_page_run old_text new_text s d j q [] q Hd Hq
                  (Hno j q ltac:(lia) Hq) eq_refl)).
    assert (set_page s d j q (EvSearch j old_text :: concat (map (instance_events j new_text) []))
            = mkState (fs s) (uuid_calls s) (trace s ++ [EvSearch j old_text])
                      (Some d)) as ->.
    { unfold set_page. cbn [map concat].
      rewrite (list_insert_id _ _ _ Hq). by destruct d. }
    rewrite (IH (S j)); [|done|lia|].
    + cbn [fs uuid_calls trace]. unfold searches. cbn [seq map].
      by rewrite <- app_assoc.
    + intros i q' Hi Hq'. apply (Hno i q'); [lia|done].
Qed.

(** A pass of the outer loop of [edit_xps] on a page with a hit whose
    redaction is refused: the pass stops at [add_redact_annot]. *)
Lemma replace_page_refused old_text new_text s d i p inst insts msg :
  doc s = Some d → pages d !! i = Some p →
  search_for_of p old_text = Ok (Some (inst :: insts)) →
  add_redact_annot_of p inst = Err msg →
  replace_page old_text new_text i tt s
  = (Raise (PyError msg),
     mkState (fs s) (uuid_calls s)
             (trace s ++ [EvSearch i old_text; EvAddRedact i inst]) (Some d)).
Proof.
  intros Hd Hp Hs Hbad. unfold replace_page.
  erewrite bind_return; [|eapply load_page_run; [done|by eapply lookup_lt_Some]].
  rewrite (bind_return _ _ _ _ _
             (page_search_for_run old_text s d i p _ Hd Hp Hs)).
  unfold set_page. rewrite (list_insert_id _ _ _ Hp).
  match goal with
  | |- bind _ _ ?st = _ =>
      rewrite (bind_return _ _ st (inst :: insts) st) by done
  end.
  cbn [for_each]. unfold replace_instance. mred.
  rewrite Hp, Hbad. mred.
  rewrite <- app_assoc. by destruct d.
Qed.

(** A pass of the outer loop of [edit_xps] on a page for which the search
    gives [None]: the inner [for] raises. *)
Lemma replace_page_none old_text new_text s d i p :
  doc s = Some d → pages d !! i = Some p →
  search_for_of p old_text = Ok None →
  replace_page old_text new_text i tt s
  = (Raise (PyError "'NoneType' object is not iterable"),
     mkState (fs s) (uuid_calls s) (trace s ++ [EvSearch i old_text])
             (Some d)).
Proof.
  intros Hd Hp Hs. unfold replace_page.
  erewrite bind_return; [|eapply load_page_run; [done|by eapply lookup_lt_Some]].
  rewrite (bind_return _ _ _ _ _
             (page_search_for_run old_text s d i p _ Hd Hp Hs)).
  unfold set_page. rewrite (list_insert_id _ _ _ Hp).
  unfold bind, py_iter, raise. by destruct d.
Qed.

(** The outer loop of [edit_xps] when a pass raises after passes on pages
    without a hit. *)
Lemma replace_in_pages_stops old_text new_text s d k e (t : list Event) :
  doc s = Some d →
  k < length (pages d) →
  (∀ i q, i < k → pages d !! i = Some q →
     search_for_of q old_text = Ok (Some [])) →
  (∀ s', doc s' = Some d →
     replace_page old_text new_text k tt s'
     = (Raise e, mkState (fs s') (uuid_calls s') (trace s' ++ t) (Some d))) →
  replace_in_pages old_text new_text s
  = (Raise e,
     mkState (fs s) (uuid_calls s) (trace s ++ searches old_text 0 k ++ t)
             (Some d)).
Proof.
  intros Hd Hk Hno Hstop. unfold replace_in_pages.
  assert (∀ i q, 0 ≤ i < 0 + k → pages d !! i = Some q →
            search_for_of q old_text = Ok (Some [])) as Hno'.
  { intros i q Hi Hq. apply (Hno i q); [lia|done]. }
  rewrite (bind_return _ _ _ _ _ (doc_len_run s d Hd)).
  rewrite (seq_split_at (length (pages d)) k Hk).
  rewrite for_each_app.
  rewrite (bind_return _ _ _ _ _
             (search_only_loop old_text new_text d k 0 s Hd ltac:(lia) Hno')).
  cbn [for_each].
  erewrite bind_raise; [|by apply Hstop].
  cbn [fs uuid_calls trace]. by rewrite <- app_assoc.
Qed.

End Loops.

(** ** The handlers on a document that opens *)

Section Handlers.
Context `{B : Backend}.

Lemma uuid4_attempted {A} (k : string → M A) file s v :
  bind uuid4 k (attempted file s v)
  = k (output_uuid_at s) (drawn (attempted file s v)).
Proof. reflexivity. Qed.

Lemma read_xps_ok file s d texts :
  is_xps file = true →
  parse (content file) = Ok d →
  Forall2 (λ p t, get_text_of p = Ok t) (pages d) texts →
  read_xps file s
  = (Return (JSONResponse (metadata d) (length (pages d)) (pages_text texts)),
     released (input_path_at s) (attempted file s (Some d))).
Proof.
  intros Hx Hparse Hall. rewrite read_xps_run by done.
  unfold read_try. rewrite open_run, Hparse.
  set (s1 := attempted file s (Some d)).
  assert (doc s1 = Some d) as Hd by done.
  assert (get_doc s1 = (Return d, s1)) as Hget.
  { unfold get_doc. by rewrite Hd. }
  rewrite (bind_return _ _ _ _ _ Hget). cbv zeta.
  rewrite (bind_return _ _ _ _ _ (extract_text_run s1 d texts Hd Hall)).
  rewrite (bind_return _ _ _ _ _ (doc_len_run s1 d Hd)).
  reflexivity.
Qed.

Lemma preview_all_xps_ok file s d pngs :
  is_xps file = true →
  parse (content file) = Ok d →
  Forall2 (λ p b, png_of_page p = Ok b) (pages d) pngs →
  preview_all_xps file s
  = (Return (StreamingResponse (png_entries 0 pngs) "application/zip"
               "attachment; filename=preview_pages.zip"),
     released (input_path_at s) (attempted file s (Some d))).
Proof.
  intros Hx Hparse Hall. rewrite preview_all_xps_run by done.
  unfold preview_try. rewrite open_run, Hparse.
  set (s1 := attempted file s (Some d)).
  assert (doc s1 = Some d) as Hd by done.
  rewrite (bind_return _ _ _ _ _ (zip_pages_run s1 d pngs Hd Hall)).
  reflexivity.
Qed.

Lemma convert_images_ok file s d pngs :
  is_xps file = true →
  parse (content file) = Ok d →
  Forall2 (λ p b, png_of_page p = Ok b) (pages d) pngs →
  convert_xps "images" file s
  = (Return (StreamingResponse (png_entries 0 pngs) "application/zip"
               "attachment; filename=images.zip"),
     released (input_path_at s) (drawn (attempted file s (Some d)))).
Proof.
  intros Hx Hparse Hall. rewrite convert_xps_run by done.
  unfold convert_try. rewrite open_run, Hparse.
  rewrite uuid4_attempted. cbv zeta.
  change (String.eqb "images" "pdf") with false.
  change (String.eqb "images" "images") with true. cbv iota.
  set (s1 := drawn (attempted file s (Some d))).
  assert (doc s1 = Some d) as Hd by done.
  rewrite (bind_return _ _ _ _ _ (zip_pages_run s1 d pngs Hd Hall)).
  reflexivity.
Qed.

Lemma results_path_at s (ext : string) :
  Py.path_join RESULT_FOLDER (output_uuid_at s +:+ "." +:+ ext)
  = "results/" +:+ output_uuid_at s +:+ "." +:+ ext.
Proof. unfold output_uuid_at. apply path_join_results_uuid. Qed.

Lemma convert_docx_ok file s d texts :
  is_xps file = true →
  parse (content file) = Ok d →
  Forall2 (λ p t, get_text_of p = Ok t) (pages d) texts →
  convert_xps "docx" file s
  = (Return (FileResponse (docx_path_at s)
               "application/vnd.openxmlformats-officedocument.wordprocessingml.document"
               (output_uuid_at s +:+ ".docx")),
     released (input_path_at s)
       (mkState (<[docx_path_at s := docx_bytes (docx_body texts)]>
                   (<[input_path_at s := content file]> (fs s)))
                (S (S (uuid_calls s)))
                (trace s ++ [EvWrite (input_path_at s);
                             EvOpen (input_path_at s);
                             EvDocxSave (docx_path_at s)])
                (Some d))).
Proof.
  intros Hx Hparse Hall. rewrite convert_xps_run by done.
  unfold convert_try. rewrite open_run, Hparse.
  rewrite uuid4_attempted. cbv zeta.
  change (String.eqb "docx" "pdf") with false.
  change (String.eqb "docx" "images") with false.
  change (String.eqb "docx" "docx") with true. cbv iota.
  set (s1 := drawn (attempted file s (Some d))).
  assert (doc s1 = Some d) as Hd by done.
  rewrite (bind_return _ _ _ _ _ (docx_blocks_run s1 d texts Hd Hall)).
  rewrite (results_path_at s "docx").
  change ("." +:+ "docx") with ".docx". fold (docx_path_at s).
  unfold media_type.
  change (dict_get "docx" SUPPORTED_CONVERSIONS)
    with (Some "application/vnd.openxmlformats-officedocument.wordprocessingml.document").
  mred. unfold s1, drawn, attempted. mred.
  rewrite <- app_assoc. reflexivity.
Qed.

Lemma edit_xps_ok file old_text new_text s d edits data :
  is_xps file = true →
  parse (content file) = Ok d →
  edited old_text new_text d edits →
  pdf_bytes (mkDocument (map snd edits) (metadata d)) = Ok data →
  edit_xps file old_text new_text s
  = (Return (FileResponse (edited_path_at s) "application/pdf"
               (edited_name_at s)),
     released (input_path_at s)
       (mkState (<[edited_path_at s := data]>
                   (<[input_path_at s := content file]> (fs s)))
                (S (S (uuid_calls s)))
                (trace s ++ [EvWrite (input_path_at s);
                             EvOpen (input_path_at s)]
                   ++ pages_events old_text new_text 0 (map fst edits)
                   ++ [EvSave (edited_path_at s)])
                (Some (mkDocument (map snd edits) (metadata d))))).
Proof.
  intros Hx Hparse Hall Hsave. rewrite edit_xps_run by done.
  unfold edit_try. rewrite open_run, Hparse.
  set (s1 := attempted file s (Some d)).
  assert (doc s1 = Some d) as Hd by done.
  rewrite (bind_return _ _ _ _ _
             (replace_in_pages_run old_text new_text s1 d edits Hd Hall)).
  unfold s1, attempted. mred.
  fold (output_uuid_at s). fold (edited_name_at s).
  change (Py.path_join RESULT_FOLDER (edited_name_at s))
    with (edited_path_at s).
  rewrite Hsave. mred.
  rewrite <- !app_assoc. reflexivity.
Qed.

End Handlers.

(** ** Facts about the expected outputs *)

Section Outputs.
Context `{B : Backend}.

Lemma released_fs_input input_path st :
  fs (released input_path st) !! input_path = None.
Proof. unfold released. cbn [fs]. apply lookup_delete_eq. Qed.

Lemma released_fs_other input_path st (p : string) :
  p ≠ input_path → fs (released input_path st) !! p = fs st !! p.
Proof. intros Hne. unfold released. cbn [fs]. by apply lookup_delete_ne. Qed.

Lemma input_not_docx s : docx_path_at s ≠ input_path_at s.
Proof. unfold docx_path_at, input_path_at. discriminate. Qed.

Lemma input_not_edited s : edited_path_at s ≠ input_path_at s.
Proof. unfold edited_path_at, input_path_at. discriminate. Qed.

Lemma pages_text_length texts :
  String.length (pages_text texts)
  = list_sum (map String.length texts)
    + length texts * String.length PAGE_BREAK.
Proof.
  induction texts as [|t texts IH]; [done|].
  cbn [pages_text map list_sum fold_right length].
  rewrite !length_append, IH. fold (list_sum (map String.length texts)). lia.
Qed.

Lemma png_entries_length k pngs : length (png_entries k pngs) = length pngs.
Proof.
  revert k. induction pngs as [|b pngs IH]; intros k; [done|].
  cbn [png_entries length]. by rewrite IH.
Qed.

Lemma png_entries_lookup pngs : ∀ k i b,
  pngs !! i = Some b →
  png_entries k pngs !! i
  = Some ("page_" +:+ Py.str_of_nat (k + i + 1) +:+ ".png", b).
Proof.
  induction pngs as [|b0 pngs IH]; intros k i b Hi; [done|].
  destruct i as [|i]; cbn [png_entries].
  - injection Hi as ->. by rewrite Nat.add_0_r.
  - cbn in Hi. rewrite lookup_cons_ne_0 by done. cbn [Nat.pred].
    rewrite (IH (S k) i b Hi).
    by replace (S k + i + 1) with (k + S i + 1) by lia.
Qed.

Lemma docx_body_paragraphs texts :
  List.filter is_text_paragraph (docx_body texts) = map Paragraph texts.
Proof.
  induction texts as [|t texts IH]; [done|].
  destruct texts as [|t2 texts]; [done|].
  cbn [docx_body] in *. cbn [List.filter is_text_paragraph map] in *.
  by rewrite IH.
Qed.

Lemma docx_body_length texts :
  length (docx_body texts) = 2 * length texts - 1.
Proof.
  induction texts as [|t texts IH]; [done|].
  destruct texts as [|t2 texts]; [done|].
  cbn [docx_body length] in *. rewrite IH. lia.
Qed.

Lemma docx_body_breaks texts :
  length (List.filter is_page_break (docx_body texts)) = length texts - 1.
Proof.
  induction texts as [|t texts IH]; [done|].
  destruct texts as [|t2 texts]; [done|].
  cbn [docx_body] in *. cbn [List.filter is_page_break length] in *.
  rewrite IH. lia.
Qed.

(** Block [2i] is the paragraph of text [i]; block [2i+1] is a page break
    when a text [i+1] follows, and missing otherwise. *)
Lemma docx_body_lookup texts : ∀ i,
  docx_body texts !! (2 * i) = Paragraph <$> texts !! i
  ∧ docx_body texts !! (2 * i + 1)
    = (if decide (i + 1 < length texts) then Some PageBreak else None).
Proof.
  induction texts as [|t texts IH]; intros i.
  - split; [done|]. by rewrite decide_False by (cbn; lia).
  - destruct texts as [|t2 texts].
    + destruct i as [|i].
      * split; [done|]. by rewrite decide_False by (cbn; lia).
      * replace (2 * S i) with (S (S (2 * i))) by lia.
        split; [done|]. by rewrite decide_False by (cbn; lia).
    + destruct i as [|i].
      * split; [done|]. by rewrite decide_True by (cbn; lia).
      * destruct (IH i) as [IH1 IH2].
        replace (2 * S i) with (S (S (2 * i))) by lia.
        replace (S (S (2 * i)) + 1) with (S (S (2 * i + 1))) by lia.
        change (docx_body (t :: t2 :: texts))
          with (Paragraph t :: PageBreak :: docx_body (t2 :: texts)).
        split.
        -- exact IH1.
        -- etrans; [exact IH2|].
           destruct (decide (i + 1 < length (t2 :: texts)));
             [rewrite decide_True|rewrite decide_False]; cbn [length] in *;
             done || lia.
Qed.

End Outputs.

(** ** The pipelines *)

Section Pipelines.
Context `{B : Backend}.

(** C1. For an upload that opens as a document [d] whose pages have the
    texts [texts], [read_xps] answers with the metadata of [d], with
    [page_count] equal to the number N of pages, and with the text made of
    every page's text followed by the separator, in page order: N
    separators, one after each page, the last page included. *)
Theorem read_xps_text_and_page_count file s d texts :
  is_xps file = true →
  parse (content file) = Ok d →
  Forall2 (λ p t, get_text_of p = Ok t) (pages d) texts →
  fst (read_xps file s)
  = Return (JSONResponse (metadata d) (length (pages d)) (pages_text texts))
  ∧ length texts = length (pages d)
  ∧ pages_text texts
    = fold_right (λ t acc, (t +:+ PAGE_BREAK) +:+ acc) "" texts
  ∧ String.length (pages_text texts)
    = list_sum (map String.length texts)
      + length (pages d) * String.length PAGE_BREAK.
Proof.
  intros Hx Hparse Hall.
  rewrite (read_xps_ok file s d texts) by done.
  pose proof (Forall2_length _ _ _ Hall) as Hlen.
  split; [done|]. split; [done|]. split.
  - clear. induction texts as [|t texts IH]; [done|].
    cbn [pages_text fold_right]. by rewrite IH.
  - rewrite pages_text_length. by rewrite Hlen.
Qed.

(** C2. For an upload that opens as a document [d] whose pages render to
    the PNG files [pngs], both image pipelines answer with a ZIP archive of
    exactly N entries; entry [i] (from 0, in writing order) is named
    [page_{i+1}.png] and holds the PNG file of page [i], made from the
    page's pixmap at the pixmap's width and height. *)
Theorem to_images_archive file s d pngs :
  is_xps file = true →
  parse (content file) = Ok d →
  Forall2 (λ p b, png_of_page p = Ok b) (pages d) pngs →
  fst (convert_xps "images" file s)
  = Return (StreamingResponse (png_entries 0 pngs) "application/zip"
              "attachment; filename=images.zip")
  ∧ fst (preview_all_xps file s)
    = Return (StreamingResponse (png_entries 0 pngs) "application/zip"
                "attachment; filename=preview_pages.zip")
  ∧ length (png_entries 0 pngs) = length (pages d)
  ∧ ∀ i p, pages d !! i = Some p →
      ∃ b, png_of_page p = Ok b
        ∧ png_entries 0 pngs !! i
          = Some ("page_" +:+ Py.str_of_nat (i + 1) +:+ ".png", b).
Proof.
  intros Hx Hparse Hall.
  rewrite (convert_images_ok file s d pngs) by done.
  rewrite (preview_all_xps_ok file s d pngs) by done.
  split; [done|]. split; [done|]. split.
  - rewrite png_entries_length. symmetry. by eapply Forall2_length.
  - intros i p Hp.
    destruct (Forall2_lookup_l _ _ _ _ _ Hall Hp) as (b & Hb & Hpng).
    exists b. split; [done|].
    by rewrite (png_entries_lookup pngs 0 i b Hb).
Qed.

(** C3, as amended. For an upload that opens as a document [d] whose
    pages have the texts [texts], the DOCX pipeline writes a document with
    exactly N text paragraphs, the pages' texts in page order, and a page
    break after every one of them but the last, each page break being a
    paragraph of its own: N - 1 page breaks and 2N - 1 paragraphs in all
    when N is at least 1, and no paragraph at all when N is 0. *)
Theorem to_docx_paragraphs_and_breaks file s d texts :
  is_xps file = true →
  parse (content file) = Ok d →
  Forall2 (λ p t, get_text_of p = Ok t) (pages d) texts →
  fst (convert_xps "docx" file s)
  = Return (FileResponse (docx_path_at s)
              "application/vnd.openxmlformats-officedocument.wordprocessingml.document"
              (output_uuid_at s +:+ ".docx"))
  ∧ fs (snd (convert_xps "docx" file s)) !! docx_path_at s
    = Some (docx_bytes (docx_body texts))
  ∧ List.filter is_text_paragraph (docx_body texts) = map Paragraph texts
  ∧ length texts = length (pages d)
  ∧ Z.of_nat (length (List.filter is_page_break (docx_body texts)))
    = Z.max 0 (Z.of_nat (length (pages d)) - 1)
  ∧ Z.of_nat (length (docx_body texts))
    = Z.max 0 (2 * Z.of_nat (length (pages d)) - 1)
  ∧ ∀ i, docx_body texts !! (2 * i) = Paragraph <$> texts !! i
       ∧ docx_body texts !! (2 * i + 1)
         = (if decide (i + 1 < length (pages d))
            then Some PageBreak else None).
Proof.
  intros Hx Hparse Hall.
  rewrite (convert_docx_ok file s d texts) by done.
  pose proof (Forall2_length _ _ _ Hall) as Hlen.
  split; [done|]. split.
  { cbn [snd]. rewrite released_fs_other by apply input_not_docx.
    cbn [fs]. apply lookup_insert_eq. }
  split; [apply docx_body_paragraphs|].
  split; [done|]. split.
  { rewrite docx_body_breaks, <- Hlen. lia. }
  split.
  { rewrite docx_body_length, <- Hlen. lia. }
  intros i. rewrite Hlen. apply docx_body_lookup.
Qed.

End Pipelines.

(** ** What a [try] block cannot do

    No statement of a [try] block after the first two closes the document
    or assigns [doc] something of another length. *)

Section Quiet.
Context `{B : Backend}.

Lemma quiet_ret {A} (a : A) : quiet (ret a).
Proof. by intros s. Qed.

Lemma quiet_raise {A} (e : exn) : quiet (@raise _ A e).
Proof. by intros s. Qed.

Lemma quiet_lift {A} (r : result A) : quiet (lift r).
Proof. by destruct r; intros s. Qed.

Lemma quiet_bind {A C} (m : M A) (k : A → M C) :
  quiet m → (∀ a, quiet (k a)) → quiet (bind m k).
Proof.
  intros Hm Hk s. unfold bind.
  destruct (Hm s) as [H1 H2].
  destruct (m s) as [[a|e] s1]; cbn [snd] in *.
  - destruct (Hk a s1) as [H3 H4]. split; congruence.
  - done.
Qed.

Lemma quiet_if {A} (b : bool) (m1 m2 : M A) :
  quiet m1 → quiet m2 → quiet (if b then m1 else m2).
Proof. by destruct b. Qed.

Lemma quiet_for_each {X A} (l : list X) (body : X → A → M A) :
  (∀ x acc, quiet (body x acc)) → ∀ acc, quiet (for_each l acc body).
Proof.
  intros Hbody. induction l as [|x l IH]; intros acc.
  - apply quiet_ret.
  - cbn [for_each]. apply quiet_bind; [apply Hbody|apply IH].
Qed.

Lemma quiet_emit (e : Event) : is_close e = false → quiet (emit e).
Proof.
  intros He s. unfold emit. cbn [snd trace doc].
  rewrite closes_app. cbn [closes]. rewrite He. split; [lia|done].
Qed.

Lemma quiet_get_doc : quiet get_doc.
Proof.
  intros s. unfold get_doc.
  destruct (doc s) as [d|] eqn:Hd; cbn [snd]; by rewrite Hd.
Qed.

Lemma quiet_uuid4 : quiet uuid4.
Proof. by intros s. Qed.

Lemma quiet_doc_len : quiet doc_len.
Proof.
  apply quiet_bind; [apply quiet_get_doc|intros; apply quiet_ret].
Qed.

Lemma quiet_load_page i : quiet (load_page i).
Proof.
  apply quiet_bind; [apply quiet_get_doc|intros d].
  apply quiet_if; [apply quiet_ret|apply quiet_raise].
Qed.

Lemma quiet_page_data i : quiet (page_data i).
Proof.
  apply quiet_bind; [apply quiet_get_doc|intros d].
  destruct (pages d !! i); [apply quiet_ret|apply quiet_raise].
Qed.

Lemma quiet_page_update i f : quiet (page_update i f).
Proof.
  intros s. unfold page_update. mred.
  destruct (doc s) as [d|] eqn:Hd; mred; rewrite ?Hd; mred; [|done].
  destruct (pages d !! i) as [p|]; mred; rewrite ?Hd; [|done].
  destruct (f p) as [p'|]; mred; rewrite ?Hd; [|done].
  split; [done|]. unfold py_bool. cbn [pages]. by rewrite length_insert.
Qed.

Lemma quiet_page_get_text i : quiet (page_get_text i).
Proof.
  apply quiet_bind; [apply quiet_page_data|intros; apply quiet_lift].
Qed.

Lemma quiet_page_get_pixmap i : quiet (page_get_pixmap i).
Proof.
  apply quiet_bind; [apply quiet_page_data|intros; apply quiet_lift].
Qed.

Lemma quiet_page_search_for i needle : quiet (page_search_for i needle).
Proof.
  apply quiet_bind; [by apply quiet_emit|intros _].
  apply quiet_bind; [apply quiet_page_data|intros; apply quiet_lift].
Qed.

Lemma quiet_doc_save path : quiet (doc_save path).
Proof.
  apply quiet_bind; [by apply quiet_emit|intros _].
  apply quiet_bind; [apply quiet_get_doc|intros d].
  apply quiet_bind; [apply quiet_lift|intros data]. by intros s.
Qed.

Lemma quiet_docx_save body path : quiet (docx_save body path).
Proof. apply quiet_bind; [by apply quiet_emit|intros _]. by intros s. Qed.

Lemma quiet_media_type k : quiet (media_type k).
Proof.
  unfold media_type.
  destruct (dict_get k SUPPORTED_CONVERSIONS); [apply quiet_ret|apply quiet_raise].
Qed.

Lemma quiet_zip_pages : quiet zip_pages.
Proof.
  apply quiet_bind; [apply quiet_doc_len|intros n].
  apply quiet_for_each. intros i zipf.
  apply quiet_bind; [apply quiet_load_page|intros page].
  apply quiet_bind; [apply quiet_page_get_pixmap|intros pix].
  apply quiet_bind; [apply quiet_lift|intros img].
  apply quiet_bind; [apply quiet_lift|intros img_io]. apply quiet_ret.
Qed.

Lemma quiet_docx_blocks : quiet docx_blocks.
Proof.
  apply quiet_bind; [apply quiet_doc_len|intros n].
  apply quiet_for_each. intros i word_doc.
  apply quiet_bind; [apply quiet_load_page|intros page].
  apply quiet_bind; [apply quiet_page_get_text|intros text]. cbv zeta.
  apply quiet_bind; [apply quiet_doc_len|intros len].
  apply quiet_if; apply quiet_ret.
Qed.

Lemma quiet_extract_text : quiet extract_text.
Proof.
  apply quiet_bind; [apply quiet_doc_len|intros n].
  apply quiet_for_each. intros i text_content.
  apply quiet_bind; [apply quiet_load_page|intros page].
  apply quiet_bind; [apply quiet_page_get_text|intros text]. apply quiet_ret.
Qed.

Lemma quiet_replace_in_pages old_text new_text :
  quiet (replace_in_pages old_text new_text).
Proof.
  apply quiet_bind; [apply quiet_doc_len|intros n].
  apply quiet_for_each. intros i [].
  apply quiet_bind; [apply quiet_load_page|intros page].
  apply quiet_bind; [apply quiet_page_search_for|intros text_instances].
  apply quiet_bind;
    [destruct text_instances; [apply quiet_ret|apply quiet_raise]|intros insts].
  apply quiet_for_each. intros inst [].
  apply quiet_bind;
    [apply quiet_bind; [by apply quiet_emit|intros; apply quiet_page_update]|].
  intros _.
  apply quiet_bind;
    [apply quiet_bind; [by apply quiet_emit|intros; apply quiet_page_update]|].
  intros _.
  apply quiet_bind; [by apply quiet_emit|intros; apply quiet_page_update].
Qed.

(** A handler whose [try] block opens the upload and goes on quietly:
    the upload is gone afterwards, and the document was closed once when
    it opened with at least one page, and not at all otherwise. *)
Lemma finish_open_quiet {A} (rest : M A) (prefix : string) file s :
  quiet rest →
  let r := finish prefix (input_path_at s)
             (bind (fitz_open (input_path_at s))
                   (λ d, bind (set_doc (Some d)) (λ _, rest)) (saved file s)) in
  fs (snd r) !! input_path_at s = None
  ∧ closes (trace (snd r))
    = closes (trace s)
      + match parse (content file) with
        | Ok d => if py_bool (Some d) then 1 else 0
        | Err _ => 0
        end.
Proof.
  intros Hq r. subst r. rewrite open_run.
  assert (∀ v, closes (trace (attempted file s v)) = closes (trace s)) as Hatt.
  { intros v. unfold attempted. cbn [trace]. rewrite closes_app. cbn. lia. }
  assert (∀ (o : outcome A) st,
            fs (snd (finish prefix (input_path_at s) (o, st)))
              !! input_path_at s = None
            ∧ closes (trace (snd (finish prefix (input_path_at s) (o, st))))
              = closes (trace st) + (if py_bool (doc st) then 1 else 0))
    as Hfin.
  { intros o st. destruct o; cbn [finish snd]; (split; [apply released_fs_input|]);
      unfold released; cbn [trace]; rewrite !closes_app;
      destruct (py_bool (doc st)), (bool_decide (is_Some (fs st !! input_path_at s)));
      cbn; lia. }
  destruct (parse (content file)) as [d|msg].
  - destruct (Hq (attempted file s (Some d))) as [H1 H2].
    destruct (rest (attempted file s (Some d))) as [o st]. cbn [snd] in *.
    destruct (Hfin o st) as [H3 H4]. split; [done|].
    rewrite H4, H1, H2, Hatt. done.
  - destruct (Hfin (@Raise A (PyError msg)) (attempted file s None)) as [H3 H4].
    split; [done|]. rewrite H4, Hatt. cbn. lia.
Qed.

End Quiet.

(** ** Cleanup *)

Section Cleanup.
Context `{B : Backend}.

Ltac quiet_steps :=
  repeat first
    [ apply quiet_ret | apply quiet_raise | apply quiet_lift
    | apply quiet_uuid4 | apply quiet_doc_len | apply quiet_get_doc
    | apply quiet_zip_pages | apply quiet_docx_blocks
    | apply quiet_extract_text | apply quiet_replace_in_pages
    | apply quiet_doc_save | apply quiet_docx_save | apply quiet_media_type
    | apply quiet_if
    | apply quiet_bind; [|intros ?] ].

Lemma convert_xps_cleanup ct file s :
  dict_in ct SUPPORTED_CONVERSIONS = true →
  is_xps file = true →
  fs (snd (convert_xps ct file s)) !! input_path_at s = None
  ∧ closes (trace (snd (convert_xps ct file s)))
    = closes (trace s) + closes_expected file.
Proof.
  intros Hct Hx. rewrite convert_xps_run by done. unfold convert_try.
  apply finish_open_quiet. cbv zeta. quiet_steps.
Qed.

Lemma read_xps_cleanup file s :
  is_xps file = true →
  fs (snd (read_xps file s)) !! input_path_at s = None
  ∧ closes (trace (snd (read_xps file s)))
    = closes (trace s) + closes_expected file.
Proof.
  intros Hx. rewrite read_xps_run by done. unfold read_try.
  apply finish_open_quiet. cbv zeta. quiet_steps.
Qed.

Lemma preview_all_xps_cleanup file s :
  is_xps file = true →
  fs (snd (preview_all_xps file s)) !! input_path_at s = None
  ∧ closes (trace (snd (preview_all_xps file s)))
    = closes (trace s) + closes_expected file.
Proof.
  intros Hx. rewrite preview_all_xps_run by done. unfold preview_try.
  apply finish_open_quiet. quiet_steps.
Qed.

Lemma edit_xps_cleanup file old_text new_text s :
  is_xps file = true →
  fs (snd (edit_xps file old_text new_text s)) !! input_path_at s = None
  ∧ closes (trace (snd (edit_xps file old_text new_text s)))
    = closes (trace s) + closes_expected file.
Proof.
  intros Hx. rewrite edit_xps_run by done. unfold edit_try.
  apply finish_open_quiet. cbv zeta. quiet_steps.
Qed.

(** What the code guarantees on every path of every handler: the saved
    upload is removed, and a document that opened with at least one page
    is closed exactly once. *)
Lemma cleanup_on_every_path file s :
  is_xps file = true →
  (∀ ct, dict_in ct SUPPORTED_CONVERSIONS = true →
     fs (snd (convert_xps ct file s)) !! input_path_at s = None
     ∧ closes (trace (snd (convert_xps ct file s)))
       = closes (trace s) + closes_expected file)
  ∧ (fs (snd (read_xps file s)) !! input_path_at s = None
     ∧ closes (trace (snd (read_xps file s)))
       = closes (trace s) + closes_expected file)
  ∧ (fs (snd (preview_all_xps file s)) !! input_path_at s = None
     ∧ closes (trace (snd (preview_all_xps file s)))
       = closes (trace s) + closes_expected file)
  ∧ (∀ old_text new_text,
       fs (snd (edit_xps file old_text new_text s)) !! input_path_at s = None
       ∧ closes (trace (snd (edit_xps file old_text new_text s)))
         = closes (trace s) + closes_expected file).
Proof.
  intros Hx. split; [|split; [|split]].
  - intros ct Hct. by apply convert_xps_cleanup.
  - by apply read_xps_cleanup.
  - by apply preview_all_xps_cleanup.
  - intros old_text new_text. by apply edit_xps_cleanup.
Qed.

(** C5, where the code departs from it. An upload that opens as a
    document without pages is saved, opened, and removed again, but the
    document is never closed: [if doc:] is false for a document of length
    0, on every handler. *)
Theorem empty_document_is_never_closed file s d :
  is_xps file = true →
  parse (content file) = Ok d →
  pages d = [] →
  (∀ ct, dict_in ct SUPPORTED_CONVERSIONS = true →
     closes (trace (snd (convert_xps ct file s))) = closes (trace s))
  ∧ closes (trace (snd (read_xps file s))) = closes (trace s)
  ∧ closes (trace (snd (preview_all_xps file s))) = closes (trace s)
  ∧ (∀ old_text new_text,
       closes (trace (snd (edit_xps file old_text new_text s)))
       = closes (trace s))
  ∧ trace (snd (read_xps file s))
    = trace s ++ [EvWrite (input_path_at s); EvOpen (input_path_at s);
                  EvRemove (input_path_at s)].
Proof.
  intros Hx Hparse Hnil.
  assert (closes_expected file = 0) as H0.
  { unfold closes_expected. rewrite Hparse. unfold py_bool. by rewrite Hnil. }
  destruct (cleanup_on_every_path file s Hx) as (Hc & [_ Hr] & [_ Hp] & He).
  split; [|split; [|split; [|split]]].
  - intros ct Hct. destruct (Hc ct Hct) as [_ ->]. lia.
  - lia.
  - lia.
  - intros old_text new_text. destruct (He old_text new_text) as [_ ->]. lia.
  - assert (Forall2 (λ p t, get_text_of p = Ok t) (pages d) []) as Htxt
      by (rewrite Hnil; constructor).
    rewrite (read_xps_ok file s d [] Hx Hparse Htxt).
    cbn [snd]. unfold released, attempted. cbn [trace doc fs].
    unfold py_bool. rewrite Hnil. cbn [length Nat.eqb negb].
    rewrite lookup_insert_eq.
    rewrite bool_decide_eq_true_2 by eauto.
    by rewrite <- app_assoc.
Qed.

End Cleanup.

(** ** Text replacement, validation, error mapping and file names *)

Section Requests.
Context `{B : Backend}.



(** The [try] block of [edit_xps] when a pass of the page loop raises
    after passes on pages without a hit. *)
Lemma edit_xps_stops file old_text new_text s d k e (t : list Event) :
  is_xps file = true →
  parse (content file) = Ok d →
  k < length (pages d) →
  (∀ i q, i < k → pages d !! i = Some q →
     search_for_of q old_text = Ok (Some [])) →
  (∀ s', doc s' = Some d →
     replace_page old_text new_text k tt s'
     = (Raise e, mkState (fs s') (uuid_calls s') (trace s' ++ t) (Some d))) →
  edit_xps file old_text new_text s
  = (Raise (HTTPException 500 ("Failed to edit XPS: " +:+ exn_str e)),
     released (input_path_at s)
       (mkState (base_fs file s) (S (uuid_calls s))
          (trace s ++ [EvWrite (input_path_at s); EvOpen (input_path_at s)]
                   ++ searches old_text 0 k ++ t)
          (Some d))).
Proof.
  intros Hx Hparse Hk Hno Hstop.
  rewrite edit_xps_run by done. unfold edit_try.
  rewrite open_run, Hparse.
  rewrite (bind_raise _ _ _ _ _
             (replace_in_pages_stops old_text new_text
                (attempted file s (Some d)) d k e t eq_refl Hk Hno Hstop)).
  unfold finish, attempted, base_fs. cbn [fs uuid_calls trace].
  by rewrite <- !app_assoc.
Qed.

(** What the [finally] block leaves of a state that holds the upload and
    a document with pages. *)
Lemma released_after_failure file s d (t : list Event) :
  pages d ≠ [] →
  released (input_path_at s)
    (mkState (base_fs file s) (S (uuid_calls s)) t (Some d))
  = mkState (delete (input_path_at s) (base_fs file s)) (S (uuid_calls s))
            (t ++ [EvClose; EvRemove (input_path_at s)]) (Some d).
Proof.
  intros Hne.
  assert (base_fs file s !! input_path_at s = Some (content file)) as Hl
    by apply lookup_insert_eq.
  unfold released. cbn [fs uuid_calls trace doc]. rewrite Hl.
  rewrite bool_decide_eq_true_2 by eauto.
  assert (py_bool (Some d) = true) as ->; [|done].
  unfold py_bool. by destruct (pages d).
Qed.


(** The text replacement where every call on a page succeeds, as on a
    document that is a PDF. For an upload that opens as a document [d],
    with [edits] giving for every page its hits for [old_text] and its
    state after redaction and insertion on every hit, and with the edited
    document saving as [data]: [edit_xps] searches the pages in ascending
    order; on a page it handles the hits in the order the search returned
    them, for each hit adding the redaction for its rectangle, applying
    it, and then inserting [new_text] at [(x0, y0)] with font size 11 in
    black; a page without hits keeps its state; the document is saved
    last, as [results/edited_{uuid}.pdf], and that file is the answer. *)
Lemma edit_replaces_in_page_order file old_text new_text s d edits data :
  is_xps file = true →
  parse (content file) = Ok d →
  edited old_text new_text d edits →
  pdf_bytes (mkDocument (map snd edits) (metadata d)) = Ok data →
  fst (edit_xps file old_text new_text s)
  = Return (FileResponse ("results/" +:+ "edited_" +:+ output_uuid_at s +:+ ".pdf")
              "application/pdf"
              ("edited_" +:+ output_uuid_at s +:+ ".pdf"))
  ∧ trace (snd (edit_xps file old_text new_text s))
    = trace s
      ++ [EvWrite (input_path_at s); EvOpen (input_path_at s)]
      ++ pages_events old_text new_text 0 (map fst edits)
      ++ [EvSave (edited_path_at s)]
      ++ (if py_bool (Some d) then [EvClose] else [])
      ++ [EvRemove (input_path_at s)]
  ∧ fs (snd (edit_xps file old_text new_text s)) !! edited_path_at s
    = Some data
  ∧ doc (snd (edit_xps file old_text new_text s))
    = Some (mkDocument (map snd edits) (metadata d))
  ∧ ∀ i p, pages d !! i = Some p → search_for_of p old_text = Ok (Some []) →
      map snd edits !! i = Some p.
Proof.
  intros Hx Hparse Hed Hsave.
  rewrite (edit_xps_ok file old_text new_text s d edits data) by done.
  cbn [fst snd].
  split; [done|]. split; [|split; [|split]].
  - unfold released. cbn [trace doc fs].
    rewrite lookup_insert_ne by apply input_not_edited.
    rewrite lookup_insert_eq.
    rewrite bool_decide_eq_true_2 by eauto.
    assert (py_bool (Some (mkDocument (map snd edits) (metadata d)))
            = py_bool (Some d)) as ->.
    { unfold py_bool. cbn [pages]. rewrite length_map.
      by rewrite (Forall2_length _ _ _ Hed). }
    by rewrite <- !app_assoc.
  - rewrite released_fs_other by apply input_not_edited.
    cbn [fs]. apply lookup_insert_eq.
  - done.
  - intros i p Hp Hnone.
    destruct (Forall2_lookup_l _ _ _ _ _ Hed Hp) as ([insts p'] & He & Hs & Hr).
    cbn [fst snd] in Hs, Hr.
    rewrite Hnone in Hs. injection Hs as <-.
    cbn [redact_insert_all] in Hr. injection Hr as <-.
    by rewrite list_lookup_fmap, He.
Qed.

(** C6, where the code departs from it. [edit_xps] redacts with
    [add_redact_annot], which the pages of a document that is not a PDF
    refuse. When the upload opens as [d], the search finds no hit on the
    pages before page [k] and the hits [inst :: insts] on page [k], and
    [add_redact_annot] raises [msg] for [inst], then [edit_xps] has
    searched the pages 0 to [k] in ascending order and called
    [add_redact_annot] for the first hit, and that is all it does to the
    document: it answers with status 500 and [msg], nothing was redacted,
    [new_text] was inserted nowhere, no PDF was saved, and the files are
    those from before the request. *)
Theorem edit_fails_on_first_hit file old_text new_text s d k p inst insts msg :
  is_xps file = true →
  parse (content file) = Ok d →
  pages d !! k = Some p →
  (∀ i q, i < k → pages d !! i = Some q →
     search_for_of q old_text = Ok (Some [])) →
  search_for_of p old_text = Ok (Some (inst :: insts)) →
  add_redact_annot_of p inst = Err msg →
  fst (edit_xps file old_text new_text s)
  = Raise (HTTPException 500 ("Failed to edit XPS: " +:+ msg))
  ∧ trace (snd (edit_xps file old_text new_text s))
    = trace s
      ++ [EvWrite (input_path_at s); EvOpen (input_path_at s)]
      ++ searches old_text 0 k
      ++ [EvSearch k old_text; EvAddRedact k inst]
      ++ [EvClose; EvRemove (input_path_at s)]
  ∧ doc (snd (edit_xps file old_text new_text s)) = Some d
  ∧ fs (snd (edit_xps file old_text new_text s))
    = delete (input_path_at s) (base_fs file s)
  ∧ fs (snd (edit_xps file old_text new_text s)) !! edited_path_at s
    = fs s !! edited_path_at s.
Proof.
  intros Hx Hparse Hp Hno Hs Hbad.
  rewrite (edit_xps_stops file old_text new_text s d k (PyError msg)
             [EvSearch k old_text; EvAddRedact k inst] Hx Hparse
             (lookup_lt_Some _ _ _ Hp) Hno).
  - rewrite released_after_failure
      by (intros Hnil; by rewrite Hnil in Hp).
    cbn [fst snd trace doc fs].
    split; [done|]. split; [by rewrite <- !app_assoc|].
    split; [done|]. split; [done|].
    rewrite lookup_delete_ne by apply not_eq_sym, input_not_edited.
    unfold base_fs. apply lookup_insert_ne. apply not_eq_sym, input_not_edited.
  - intros s' Hd'.
    exact (replace_page_refused old_text new_text s' d k p inst insts msg
             Hd' Hp Hs Hbad).
Qed.

(** A document that cannot be saved: the PDF conversion answers with
    status 500 and the error of [doc.save]. *)
Lemma convert_pdf_unsaved file s d msg :
  is_xps file = true →
  parse (content file) = Ok d →
  pdf_bytes d = Err msg →
  fst (convert_xps "pdf" file s)
  = Raise (HTTPException 500 ("Conversion failed: " +:+ msg)).
Proof.
  intros Hx Hparse Hsave. rewrite convert_xps_run by done.
  unfold convert_try. rewrite open_run, Hparse.
  rewrite uuid4_attempted. cbv zeta.
  change (String.eqb "pdf" "pdf") with true. cbv iota.
  unfold drawn, attempted. mred. rewrite Hsave. mred.
  reflexivity.
Qed.

(** The same for the text replacement, when the edited document cannot be
    saved. *)
Lemma edit_xps_unsaved file old_text new_text s d edits msg :
  is_xps file = true →
  parse (content file) = Ok d →
  edited old_text new_text d edits →
  pdf_bytes (mkDocument (map snd edits) (metadata d)) = Err msg →
  fst (edit_xps file old_text new_text s)
  = Raise (HTTPException 500 ("Failed to edit XPS: " +:+ msg)).
Proof.
  intros Hx Hparse Hall Hsave. rewrite edit_xps_run by done.
  unfold edit_try. rewrite open_run, Hparse.
  set (s1 := attempted file s (Some d)).
  assert (doc s1 = Some d) as Hd by done.
  rewrite (bind_return _ _ _ _ _
             (replace_in_pages_run old_text new_text s1 d edits Hd Hall)).
  unfold s1, attempted. mred. rewrite Hsave. mred.
  reflexivity.
Qed.

(** C9, as amended. For an upload that opens as a document without
    pages, the operations that do not save the document succeed: the image
    pipelines answer with an archive without entries, the DOCX pipeline
    writes a document without paragraphs and without page breaks, and
    [read_xps] answers with [page_count] 0 and the empty text. The
    operations that save the document, the PDF conversion and the text
    replacement (whose page loop has nothing to visit), answer with status
    500 and the error of [doc.save] when the document without pages
    cannot be saved. *)
Theorem zero_page_document_operations file s d :
  is_xps file = true →
  parse (content file) = Ok d →
  pages d = [] →
  fst (convert_xps "images" file s)
  = Return (StreamingResponse [] "application/zip"
              "attachment; filename=images.zip")
  ∧ fst (preview_all_xps file s)
    = Return (StreamingResponse [] "application/zip"
                "attachment; filename=preview_pages.zip")
  ∧ fst (convert_xps "docx" file s)
    = Return (FileResponse (docx_path_at s)
                "application/vnd.openxmlformats-officedocument.wordprocessingml.document"
                (output_uuid_at s +:+ ".docx"))
  ∧ fs (snd (convert_xps "docx" file s)) !! docx_path_at s
    = Some (docx_bytes [])
  ∧ fst (read_xps file s) = Return (JSONResponse (metadata d) 0 "")
  ∧ ∀ msg, pdf_bytes d = Err msg →
      fst (convert_xps "pdf" file s)
      = Raise (HTTPException 500 ("Conversion failed: " +:+ msg))
      ∧ ∀ old_text new_text,
          fst (edit_xps file old_text new_text s)
          = Raise (HTTPException 500 ("Failed to edit XPS: " +:+ msg)).
Proof.
  intros Hx Hparse Hnil.
  assert (Forall2 (λ p b, png_of_page p = Ok b) (pages d) []) as Hpng
    by (rewrite Hnil; constructor).
  assert (Forall2 (λ p t, get_text_of p = Ok t) (pages d) []) as Htxt
    by (rewrite Hnil; constructor).
  rewrite (convert_images_ok file s d []) by done.
  rewrite (preview_all_xps_ok file s d []) by done.
  rewrite (convert_docx_ok file s d []) by done.
  rewrite (read_xps_ok file s d []) by done.
  rewrite Hnil.
  split; [done|]. split; [done|]. split; [done|]. split; [|split; [done|]].
  - cbn [snd]. rewrite released_fs_other by apply input_not_docx.
    cbn [fs docx_body]. apply lookup_insert_eq.
  - intros msg Hsave. split.
    + by apply (convert_pdf_unsaved file s d msg).
    + intros old_text new_text.
      apply (edit_xps_unsaved file old_text new_text s d [] msg Hx Hparse).
      * unfold edited. rewrite Hnil. constructor.
      * cbn [map]. rewrite <- Hnil. by destruct d.
Qed.

(** C7. An upload whose name, in lower case, is not some stem followed by
    [.xps] is refused by each of the four handlers with status 400, and
    the state is untouched: nothing was saved, nothing was opened, no
    identifier was drawn. *)
Theorem non_xps_upload_rejected file s :
  (¬ ∃ stem, Py.lower (filename file) = stem +:+ ".xps") →
  (∀ ct, ∃ detail, convert_xps ct file s = (Raise (HTTPException 400 detail), s))
  ∧ read_xps file s
    = (Raise (HTTPException 400 "Only .xps files are allowed"), s)
  ∧ preview_all_xps file s
    = (Raise (HTTPException 400 "Only .xps files are allowed"), s)
  ∧ ∀ old_text new_text,
      edit_xps file old_text new_text s
      = (Raise (HTTPException 400 "Only .xps files are allowed"), s).
Proof.
  intros Hx%is_xps_false.
  split; [|split; [|split]].
  - intros ct. unfold convert_xps. rewrite Hx.
    destruct (dict_in ct SUPPORTED_CONVERSIONS); cbn [negb]; eauto.
  - unfold read_xps. by rewrite Hx.
  - unfold preview_all_xps. by rewrite Hx.
  - intros old_text new_text. unfold edit_xps. by rewrite Hx.
Qed.

(** C8. On an accepted upload, when the [try] block of a handler raises
    [e], anywhere from opening the document to saving the result, the
    handler raises an HTTP error with status 500 and the handler's prefix
    followed by [str(e)]. *)
Theorem pipeline_exception_becomes_500 file s e s1 :
  is_xps file = true →
  (∀ ct, dict_in ct SUPPORTED_CONVERSIONS = true →
     convert_try ct (input_path_at s) (saved file s) = (Raise e, s1) →
     fst (convert_xps ct file s)
     = Raise (HTTPException 500 ("Conversion failed: " +:+ exn_str e)))
  ∧ (read_try (input_path_at s) (saved file s) = (Raise e, s1) →
     fst (read_xps file s)
     = Raise (HTTPException 500 ("Failed to read XPS: " +:+ exn_str e)))
  ∧ (preview_try (input_path_at s) (saved file s) = (Raise e, s1) →
     fst (preview_all_xps file s)
     = Raise (HTTPException 500 ("Failed to generate preview: " +:+ exn_str e)))
  ∧ (∀ old_text new_text,
       edit_try (input_path_at s) old_text new_text (saved file s)
       = (Raise e, s1) →
       fst (edit_xps file old_text new_text s)
       = Raise (HTTPException 500 ("Failed to edit XPS: " +:+ exn_str e))).
Proof.
  intros Hx. split; [|split; [|split]].
  - intros ct Hct Hraise. rewrite convert_xps_run by done. by rewrite Hraise.
  - intros Hraise. rewrite read_xps_run by done. by rewrite Hraise.
  - intros Hraise. rewrite preview_all_xps_run by done. by rewrite Hraise.
  - intros old_text new_text Hraise. rewrite edit_xps_run by done.
    by rewrite Hraise.
Qed.

(** C10. The upload is written to the uploads folder joined with the
    identifier drawn at that moment followed by [.xps], that is to
    [uploads/{uuid}.xps]; and two accepted uploads with the same content
    are handled alike whatever their names are: the client's file name
    reaches no path, no response and no other part of the state. *)
Theorem upload_path_ignores_client_name (f1 f2 : UploadFile) s :
  is_xps f1 = true →
  is_xps f2 = true →
  content f1 = content f2 →
  let u := Uuid.str (Uuid.uuid4_int (urandom16 (uuid_calls s))) in
  save_file f1 s
  = (Return (Py.path_join UPLOAD_FOLDER (u +:+ ".xps")),
     mkState (<[Py.path_join UPLOAD_FOLDER (u +:+ ".xps") := content f1]> (fs s))
             (S (uuid_calls s))
             (trace s ++ [EvWrite (Py.path_join UPLOAD_FOLDER (u +:+ ".xps"))])
             (doc s))
  ∧ Py.path_join UPLOAD_FOLDER (u +:+ ".xps") = "uploads/" +:+ u +:+ ".xps"
  ∧ save_file f1 s = save_file f2 s
  ∧ (∀ ct, convert_xps ct f1 s = convert_xps ct f2 s)
  ∧ read_xps f1 s = read_xps f2 s
  ∧ preview_all_xps f1 s = preview_all_xps f2 s
  ∧ ∀ old_text new_text,
      edit_xps f1 old_text new_text s = edit_xps f2 old_text new_text s.
Proof.
  intros H1 H2 Hc u. subst u.
  assert (saved f1 s = saved f2 s) as Hsaved by (unfold saved; by rewrite Hc).
  split; [|split; [|split; [|split; [|split; [|split]]]]].
  - rewrite save_file_run. unfold input_path_at.
    by rewrite (path_join_uploads_uuid _ ".xps").
  - apply path_join_uploads_uuid.
  - rewrite !save_file_run. by rewrite Hc.
  - intros ct. destruct (dict_in ct SUPPORTED_CONVERSIONS) eqn:Hct.
    + rewrite !convert_xps_run by done. by rewrite Hsaved.
    + unfold convert_xps. by rewrite Hct.
  - rewrite !read_xps_run by done. by rewrite Hsaved.
  - rewrite !preview_all_xps_run by done. by rewrite Hsaved.
  - intros old_text new_text. rewrite !edit_xps_run by done. by rewrite Hsaved.
Qed.

End Requests.

(** ** The theorems at concrete requests *)

Example images_of_three_pages :
  fst (convert_xps "images" Toy.upload Toy.s0)
  = Return (StreamingResponse
              [("page_1.png", "PNG:Intro"); ("page_2.png", "PNG:Draft");
               ("page_3.png", "PNG:End")]
              "application/zip" "attachment; filename=images.zip").
Proof. vm_compute. reflexivity. Qed.

Example draft_becomes_final :
  fs (snd (edit_xps Toy.upload "Draft" "Final" Toy.s0))
    !! "results/edited_01234567-89ab-4def-8123-456789abcdf6.pdf"
  = Some ("%PDF" +:+ Py.join Py.LF ["Intro"; "Final"; "End"]).
Proof. vm_compute. reflexivity. Qed.

Example docx_of_empty_document :
  fs (snd (convert_xps "docx" Toy.empty_upload Toy.s0))
    !! docx_path_at Toy.s0
  = Some (docx_bytes []).
Proof. vm_compute. reflexivity. Qed.

Lemma read_xps_text_and_page_count_witness :
  is_xps Toy.upload = true
  ∧ parse (content Toy.upload) = Ok Toy.document
  ∧ fst (read_xps Toy.upload Toy.s0)
    = Return (JSONResponse [("format", "XPS")] 3
                (pages_text ["Intro"; "Draft"; "End"])).
Proof.
  split; [reflexivity|]. split; [reflexivity|].
  apply (read_xps_text_and_page_count Toy.upload Toy.s0 Toy.document
           ["Intro"; "Draft"; "End"]); [reflexivity|reflexivity|].
  repeat (constructor; [reflexivity|]). constructor.
Defined.

Lemma to_images_archive_witness :
  is_xps Toy.upload = true
  ∧ parse (content Toy.upload) = Ok Toy.document
  ∧ fst (preview_all_xps Toy.upload Toy.s0)
    = Return (StreamingResponse
                (png_entries 0 ["PNG:Intro"; "PNG:Draft"; "PNG:End"])
                "application/zip" "attachment; filename=preview_pages.zip").
Proof.
  split; [reflexivity|]. split; [reflexivity|].
  apply (to_images_archive Toy.upload Toy.s0 Toy.document
           ["PNG:Intro"; "PNG:Draft"; "PNG:End"]); [reflexivity|reflexivity|].
  repeat (constructor; [reflexivity|]). constructor.
Defined.

Lemma to_docx_paragraphs_and_breaks_witness :
  is_xps Toy.upload = true
  ∧ parse (content Toy.upload) = Ok Toy.document
  ∧ fs (snd (convert_xps "docx" Toy.upload Toy.s0)) !! docx_path_at Toy.s0
    = Some (docx_bytes (docx_body ["Intro"; "Draft"; "End"]))
  ∧ Z.of_nat (length (docx_body ["Intro"; "Draft"; "End"])) = 5%Z.
Proof.
  split; [reflexivity|]. split; [reflexivity|].
  assert (Forall2 (λ (p : string) t, get_text_of p = Ok t)
            (pages Toy.document) ["Intro"; "Draft"; "End"]) as Hall.
  { repeat (constructor; [reflexivity|]). constructor. }
  pose proof (to_docx_paragraphs_and_breaks Toy.upload Toy.s0 Toy.document
                ["Intro"; "Draft"; "End"] eq_refl eq_refl Hall)
    as (_ & Hfile & _ & _ & _ & Hlen & _).
  split; [exact Hfile|exact Hlen].
Defined.

(** C3, as stated, fails on a document of three pages, whose DOCX has
    five paragraphs, two of them holding a page break; and on a document
    without pages, since no document has 0 - 1 page breaks. *)
Lemma docx_counts_as_stated_fails :
  ¬ docx_counts_as_stated Toy.upload Toy.s0
  ∧ ¬ docx_counts_as_stated Toy.empty_upload Toy.s0.
Proof.
  split; intros H.
  - destruct (H Toy.document eq_refl) as (body & Hb & _ & Hlen & _).
    vm_compute in Hb. injection Hb as <-. discriminate Hlen.
  - destruct (H Toy.empty_document eq_refl) as (body & _ & _ & _ & Hz).
    change (length (pages Toy.empty_document)) with 0 in Hz. lia.
Qed.

Lemma zero_page_document_operations_witness :
  is_xps Toy.empty_upload = true
  ∧ parse (content Toy.empty_upload) = Ok Toy.empty_document
  ∧ pages Toy.empty_document = []
  ∧ fst (read_xps Toy.empty_upload Toy.s0)
    = Return (JSONResponse [("format", "XPS")] 0 "")
  ∧ fst (convert_xps "pdf" Toy.empty_upload Toy.s0)
    = Raise (HTTPException 500
               "Conversion failed: cannot save with zero pages").
Proof.
  split; [reflexivity|]. split; [reflexivity|]. split; [reflexivity|].
  pose proof (zero_page_document_operations Toy.empty_upload Toy.s0
                Toy.empty_document eq_refl eq_refl eq_refl)
    as (_ & _ & _ & _ & Hread & Hsave).
  split; [exact Hread|].
  exact (proj1 (Hsave "cannot save with zero pages" eq_refl)).
Defined.

(** C9, as stated, fails: a document without pages is not saved, so the
    PDF conversion does not return on it. *)
Lemma zero_pages_as_stated_fails :
  ¬ zero_pages_as_stated Toy.empty_upload Toy.s0.
Proof.
  intros H.
  destruct (H Toy.empty_document eq_refl eq_refl) as ([r Hr] & _).
  vm_compute in Hr. discriminate Hr.
Qed.



Lemma edit_fails_on_first_hit_witness :
  @is_xps Toy.upload = true
  ∧ @parse Toy.not_pdf (content Toy.upload)
    = Ok (mkDocument ["Intro"; "Draft"; "End"] [("format", "XPS")])
  ∧ fst (@edit_xps Toy.not_pdf Toy.upload "Draft" "Final"
           (@mkState Toy.not_pdf ∅ 0 [] None))
    = Raise (HTTPException 500 "Failed to edit XPS: is no PDF")
  ∧ trace (snd (@edit_xps Toy.not_pdf Toy.upload "Draft" "Final"
                  (@mkState Toy.not_pdf ∅ 0 [] None)))
    = [@EvWrite Toy.not_pdf
         (@input_path_at Toy.not_pdf (@mkState Toy.not_pdf ∅ 0 [] None));
       EvOpen (@input_path_at Toy.not_pdf (@mkState Toy.not_pdf ∅ 0 [] None));
       EvSearch 0 "Draft";
       EvSearch 1 "Draft";
       @EvAddRedact Toy.not_pdf 1 (mkRect 0 0 5 1)%Z;
       EvClose;
       EvRemove (@input_path_at Toy.not_pdf (@mkState Toy.not_pdf ∅ 0 [] None))].
Proof.
  split; [reflexivity|]. split; [reflexivity|].
  assert (∀ (i : nat) (q : string), i < 1 →
            [("Intro" : string); "Draft"; "End"] !! i = Some q →
            @search_for_of Toy.not_pdf q "Draft" = Ok (Some [])) as Hno.
  { intros i q Hi Hq. destruct i as [|i]; [|lia].
    injection Hq as <-. reflexivity. }
  pose proof (@edit_fails_on_first_hit Toy.not_pdf Toy.upload "Draft" "Final"
                (@mkState Toy.not_pdf ∅ 0 [] None)
                (mkDocument ["Intro"; "Draft"; "End"] [("format", "XPS")])
                1 "Draft" (mkRect 0 0 5 1)%Z [] "is no PDF"
                eq_refl eq_refl eq_refl Hno eq_refl eq_refl)
    as (Hr & Ht & _).
  split; [exact Hr|]. rewrite Ht. reflexivity.
Defined.

Lemma edit_replaces_in_page_order_witness :
  is_xps Toy.upload = true
  ∧ parse (content Toy.upload) = Ok Toy.document
  ∧ trace (snd (edit_xps Toy.upload "Draft" "Final" Toy.s0))
    = [EvWrite (input_path_at Toy.s0); EvOpen (input_path_at Toy.s0);
       EvSearch 0 "Draft";
       EvSearch 1 "Draft";
       EvAddRedact 1 (mkRect 0 0 5 1)%Z;
       EvApplyRedactions 1;
       EvInsertText 1 (0, 0)%Z "Final" 11%Z (0, 0, 0)%Z;
       EvSearch 2 "Draft";
       EvSave (edited_path_at Toy.s0);
       EvClose;
       EvRemove (input_path_at Toy.s0)].
Proof.
  split; [reflexivity|]. split; [reflexivity|].
  apply (edit_replaces_in_page_order Toy.upload "Draft" "Final" Toy.s0
           Toy.document
           [([], "Intro"); ([mkRect 0 0 5 1]%Z, "Final"); ([], "End")]
           ("%PDF" +:+ Py.join Py.LF ["Intro"; "Final"; "End"]));
    [reflexivity|reflexivity| |reflexivity].
  unfold edited.
  repeat (constructor; [split; reflexivity|]). constructor.
Defined.

Lemma non_xps_upload_rejected_witness :
  (¬ ∃ stem, Py.lower "report.txt" = stem +:+ ".xps")
  ∧ read_xps (mkUpload "report.txt" Toy.three_pages) Toy.s0
    = (Raise (HTTPException 400 "Only .xps files are allowed"), Toy.s0)
  ∧ ∃ detail,
      convert_xps "pdf" (mkUpload "report.txt" Toy.three_pages) Toy.s0
      = (Raise (HTTPException 400 detail), Toy.s0).
Proof.
  assert (¬ ∃ stem, Py.lower "report.txt" = stem +:+ ".xps") as Hno.
  { intros Hex. apply endswith_spec in Hex. vm_compute in Hex. discriminate. }
  split; [exact Hno|].
  split.
  - apply (non_xps_upload_rejected (mkUpload "report.txt" Toy.three_pages)
             Toy.s0 Hno).
  - apply (non_xps_upload_rejected (mkUpload "report.txt" Toy.three_pages)
             Toy.s0 Hno).
Defined.

Lemma pipeline_exception_becomes_500_witness :
  is_xps Toy.broken_upload = true
  ∧ fst (read_xps Toy.broken_upload Toy.s0)
    = Raise (HTTPException 500
               "Failed to read XPS: cannot open broken document")
  ∧ is_xps Toy.unreadable_upload = true
  ∧ fst (convert_xps "docx" Toy.unreadable_upload Toy.s0)
    = Raise (HTTPException 500 "Conversion failed: text extraction failed").
Proof.
  split; [reflexivity|]. split; [|split; [reflexivity|]].
  - pose proof (pipeline_exception_becomes_500 Toy.broken_upload Toy.s0
                  (PyError "cannot open broken document")
                  (attempted Toy.broken_upload Toy.s0 None) eq_refl)
      as (_ & Hread & _).
    apply Hread. vm_compute. reflexivity.
  - pose proof (pipeline_exception_becomes_500 Toy.unreadable_upload Toy.s0
                  (PyError "text extraction failed")
                  (drawn (attempted Toy.unreadable_upload Toy.s0
                            (Some (mkDocument ["?"] [("format", "XPS")]))))
                  eq_refl)
      as (Hconvert & _).
    apply (Hconvert "docx" eq_refl). vm_compute. reflexivity.
Defined.

Lemma upload_path_ignores_client_name_witness :
  is_xps (mkUpload "a.xps" Toy.three_pages) = true
  ∧ is_xps (mkUpload "../../etc/Passwd.XPS" Toy.three_pages) = true
  ∧ fst (save_file (mkUpload "../../etc/Passwd.XPS" Toy.three_pages) Toy.s0)
    = Return "uploads/00000000-0000-4000-8000-000000000007.xps"
  ∧ read_xps (mkUpload "../../etc/Passwd.XPS" Toy.three_pages) Toy.s0
    = read_xps (mkUpload "a.xps" Toy.three_pages) Toy.s0.
Proof.
  split; [reflexivity|]. split; [reflexivity|].
  pose proof (upload_path_ignores_client_name
                (mkUpload "../../etc/Passwd.XPS" Toy.three_pages)
                (mkUpload "a.xps" Toy.three_pages) Toy.s0
                eq_refl eq_refl eq_refl) as H.
  cbv zeta in H. destruct H as (Hsave & Hpath & _ & _ & Hread & _).
  split; [|exact Hread].
  rewrite Hsave. cbn [fst]. rewrite Hpath. vm_compute. reflexivity.
Defined.

Lemma empty_document_is_never_closed_witness :
  is_xps Toy.empty_upload = true
  ∧ parse (content Toy.empty_upload) = Ok Toy.empty_document
  ∧ pages Toy.empty_document = []
  ∧ trace (snd (read_xps Toy.empty_upload Toy.s0))
    = [EvWrite (input_path_at Toy.s0); EvOpen (input_path_at Toy.s0);
       EvRemove (input_path_at Toy.s0)]
  ∧ closes (trace (snd (preview_all_xps Toy.empty_upload Toy.s0))) = 0.
Proof.
  split; [reflexivity|]. split; [reflexivity|]. split; [reflexivity|].
  destruct (empty_document_is_never_closed Toy.empty_upload Toy.s0
              Toy.empty_document eq_refl eq_refl eq_refl)
    as (_ & _ & Hpreview & _ & Htrace).
  split; [exact Htrace|exact Hpreview].
Defined.

(** ** What the loops leave alone *)

Section Calm.
Context `{B : Backend}.

Lemma calm_step_refl s : calm_step s s.
Proof.
  split; [done|]. split; [done|]. exists []. by rewrite app_nil_r.
Qed.

Lemma calm_step_trans s1 s2 s3 :
  calm_step s1 s2 → calm_step s2 s3 → calm_step s1 s3.
Proof.
  intros (Hf1 & Hu1 & t1 & Ht1 & Hp1) (Hf2 & Hu2 & t2 & Ht2 & Hp2).
  split; [congruence|]. split; [congruence|].
  exists (t1 ++ t2). split.
  - by rewrite Ht2, Ht1, <- app_assoc.
  - by rewrite forallb_app, Hp1, Hp2.
Qed.

Lemma calm_ret {A} (a : A) : calm (ret a).
Proof. intros s. apply calm_step_refl. Qed.

Lemma calm_raise {A} (e : exn) : calm (@raise _ A e).
Proof. intros s. apply calm_step_refl. Qed.

Lemma calm_lift {A} (r : result A) : calm (lift r).
Proof. destruct r; intros s; apply calm_step_refl. Qed.

Lemma calm_bind {A C} (m : M A) (k : A → M C) :
  calm m → (∀ a, calm (k a)) → calm (bind m k).
Proof.
  intros Hm Hk s. unfold bind. pose proof (Hm s) as H1.
  destruct (m s) as [[a|e] s1]; cbn [snd] in *; [|done].
  eapply calm_step_trans; [exact H1|apply Hk].
Qed.

Lemma calm_if {A} (b : bool) (m1 m2 : M A) :
  calm m1 → calm m2 → calm (if b then m1 else m2).
Proof. by destruct b. Qed.

Lemma calm_for_each {X A} (l : list X) (body : X → A → M A) :
  (∀ x acc, calm (body x acc)) → ∀ acc, calm (for_each l acc body).
Proof.
  intros Hbody. induction l as [|x l IH]; intros acc.
  - apply calm_ret.
  - cbn [for_each]. apply calm_bind; [apply Hbody|apply IH].
Qed.

Lemma calm_emit (e : Event) : is_page_event e = true → calm (emit e).
Proof.
  intros He s. unfold emit. cbn [snd].
  split; [done|]. split; [done|]. exists [e]. cbn [trace forallb].
  by rewrite He.
Qed.

Lemma calm_get_doc : calm get_doc.
Proof.
  intros s. unfold get_doc. destruct (doc s); apply calm_step_refl.
Qed.

Lemma calm_set_doc v : calm (set_doc v).
Proof.
  intros s. unfold set_doc. cbn [snd].
  split; [done|]. split; [done|]. exists []. cbn [trace]. by rewrite app_nil_r.
Qed.

Lemma calm_doc_len : calm doc_len.
Proof. apply calm_bind; [apply calm_get_doc|intros; apply calm_ret]. Qed.

Lemma calm_load_page i : calm (load_page i).
Proof.
  apply calm_bind; [apply calm_get_doc|intros d].
  apply calm_if; [apply calm_ret|apply calm_raise].
Qed.

Lemma calm_page_data i : calm (page_data i).
Proof.
  apply calm_bind; [apply calm_get_doc|intros d].
  destruct (pages d !! i); [apply calm_ret|apply calm_raise].
Qed.

Lemma calm_page_update i f : calm (page_update i f).
Proof.
  apply calm_bind; [apply calm_get_doc|intros d].
  apply calm_bind; [apply calm_page_data|intros p].
  apply calm_bind; [apply calm_lift|intros p']. apply calm_set_doc.
Qed.

Lemma calm_page_get_text i : calm (page_get_text i).
Proof. apply calm_bind; [apply calm_page_data|intros; apply calm_lift]. Qed.

Lemma calm_page_get_pixmap i : calm (page_get_pixmap i).
Proof. apply calm_bind; [apply calm_page_data|intros; apply calm_lift]. Qed.

Lemma calm_page_search_for i needle : calm (page_search_for i needle).
Proof.
  apply calm_bind; [by apply calm_emit|intros _].
  apply calm_bind; [apply calm_page_data|intros; apply calm_lift].
Qed.

Lemma calm_zip_pages : calm zip_pages.
Proof.
  apply calm_bind; [apply calm_doc_len|intros n].
  apply calm_for_each. intros i zipf.
  apply calm_bind; [apply calm_load_page|intros page].
  apply calm_bind; [apply calm_page_get_pixmap|intros pix].
  apply calm_bind; [apply calm_lift|intros img].
  apply calm_bind; [apply calm_lift|intros img_io]. apply calm_ret.
Qed.

Lemma calm_docx_blocks : calm docx_blocks.
Proof.
  apply calm_bind; [apply calm_doc_len|intros n].
  apply calm_for_each. intros i word_doc.
  apply calm_bind; [apply calm_load_page|intros page].
  apply calm_bind; [apply calm_page_get_text|intros text]. cbv zeta.
  apply calm_bind; [apply calm_doc_len|intros len].
  apply calm_if; apply calm_ret.
Qed.

Lemma calm_extract_text : calm extract_text.
Proof.
  apply calm_bind; [apply calm_doc_len|intros n].
  apply calm_for_each. intros i text_content.
  apply calm_bind; [apply calm_load_page|intros page].
  apply calm_bind; [apply calm_page_get_text|intros text]. apply calm_ret.
Qed.

Lemma calm_replace_in_pages old_text new_text :
  calm (replace_in_pages old_text new_text).
Proof.
  apply calm_bind; [apply calm_doc_len|intros n].
  apply calm_for_each. intros i [].
  apply calm_bind; [apply calm_load_page|intros page].
  apply calm_bind; [apply calm_page_search_for|intros text_instances].
  apply calm_bind;
    [destruct text_instances; [apply calm_ret|apply calm_raise]|intros insts].
  apply calm_for_each. intros inst [].
  apply calm_bind;
    [apply calm_bind; [by apply calm_emit|intros; apply calm_page_update]|].
  intros _.
  apply calm_bind;
    [apply calm_bind; [by apply calm_emit|intros; apply calm_page_update]|].
  intros _.
  apply calm_bind; [by apply calm_emit|intros; apply calm_page_update].
Qed.

End Calm.

(** ** Every accepted request in one statement *)

Section Summaries.
Context `{B : Backend}.

Lemma supported_cases ct :
  dict_in ct SUPPORTED_CONVERSIONS = true ↔
  ct = "pdf" ∨ ct = "images" ∨ ct = "docx".
Proof.
  unfold dict_in, SUPPORTED_CONVERSIONS. cbn [dict_get].
  destruct (String.eqb_spec ct "pdf") as [->|H1]; [by split; auto|].
  destruct (String.eqb_spec ct "images") as [->|H2]; [by split; auto|].
  destruct (String.eqb_spec ct "docx") as [->|H3]; [by split; auto|].
  split; [done|]. intros [?|[?|?]]; done.
Qed.

Lemma summary_finish prefix file s out (o : outcome Response) s1 :
  fs s1 = base_fs file s
  ∨ (∃ data resp, fs s1 = <[out := data]> (base_fs file s) ∧ o = Return resp) →
  uuid_calls s1 = S (uuid_calls s) ∨ uuid_calls s1 = S (S (uuid_calls s)) →
  (∃ t, trace s1
        = trace s ++ [EvWrite (input_path_at s); EvOpen (input_path_at s)] ++ t
        ∧ forallb is_page_event t = true) →
  summary file s out (finish prefix (input_path_at s) (o, s1)).
Proof.
  intros Hfs Hu Ht. exists s1. split; [by destruct o|].
  split; [|done].
  destruct Hfs as [Hfs|(data & resp & Hfs & ->)]; [by left|].
  right. by exists data, resp.
Qed.

(** A [try] block whose statements after the first two are calm. *)
Lemma summary_calm (rest : M Response) prefix file s out st :
  calm rest →
  fs st = base_fs file s →
  uuid_calls st = S (uuid_calls s) ∨ uuid_calls st = S (S (uuid_calls s)) →
  trace st = trace s ++ [EvWrite (input_path_at s); EvOpen (input_path_at s)] →
  summary file s out (finish prefix (input_path_at s) (rest st)).
Proof.
  intros Hc Hfs Hu Ht.
  destruct (Hc st) as (Hf1 & Hu1 & t & Ht1 & Hp).
  destruct (rest st) as [o s1]. cbn [snd] in *.
  apply summary_finish.
  - left. congruence.
  - rewrite Hu1. exact Hu.
  - exists t. split; [|done]. by rewrite Ht1, Ht, <- app_assoc.
Qed.

Lemma summary_not_opened prefix file s out msg :
  summary file s out
    (finish prefix (input_path_at s)
       (@Raise Response (PyError msg), attempted file s None)).
Proof.
  apply summary_finish; [by left|by left|].
  exists []. by rewrite app_nil_r.
Qed.

Ltac calm_steps :=
  repeat first
    [ apply calm_ret | apply calm_raise | apply calm_lift
    | apply calm_doc_len | apply calm_get_doc
    | apply calm_zip_pages | apply calm_docx_blocks
    | apply calm_extract_text | apply calm_replace_in_pages
    | apply calm_if
    | apply calm_bind; [|intros ?] ].

Lemma read_xps_summary file s out :
  is_xps file = true → summary file s out (read_xps file s).
Proof.
  intros Hx. rewrite read_xps_run by done. unfold read_try.
  rewrite open_run. destruct (parse (content file)) as [d|msg];
    [|apply summary_not_opened].
  apply summary_calm; [cbv zeta; calm_steps|done|by left|done].
Qed.

Lemma preview_all_xps_summary file s out :
  is_xps file = true → summary file s out (preview_all_xps file s).
Proof.
  intros Hx. rewrite preview_all_xps_run by done. unfold preview_try.
  rewrite open_run. destruct (parse (content file)) as [d|msg];
    [|apply summary_not_opened].
  apply summary_calm; [calm_steps|done|by left|done].
Qed.

(** [doc.save(out)] and the statements after it, run on a state. *)
Lemma save_tail_summary prefix file s out (resp : Response) st :
  fs st = base_fs file s →
  uuid_calls st = S (S (uuid_calls s)) →
  (∃ t, trace st
        = trace s ++ [EvWrite (input_path_at s); EvOpen (input_path_at s)] ++ t
        ∧ forallb is_page_event t = true) →
  summary file s out
    (finish prefix (input_path_at s)
       (bind (doc_save out) (λ _, ret resp) st)).
Proof.
  intros Hfs Hu (t & Ht & Hp).
  assert (∃ t', trace st ++ [EvSave out]
                = trace s ++ [EvWrite (input_path_at s);
                              EvOpen (input_path_at s)] ++ t'
                ∧ forallb is_page_event t' = true) as Htr.
  { exists (t ++ [EvSave out]). split.
    - rewrite Ht. by rewrite <- !app_assoc.
    - by rewrite forallb_app, Hp. }
  mred. destruct (doc st) as [d|]; mred.
  - destruct (pdf_bytes d) as [data|msg]; mred.
    + apply summary_finish; cbn [fs uuid_calls trace]; [|by right|done].
      right. exists data, resp. by rewrite Hfs.
    + apply summary_finish; cbn [fs uuid_calls trace]; [by left|by right|done].
  - apply summary_finish; cbn [fs uuid_calls trace]; [by left|by right|done].
Qed.

Lemma convert_xps_summary ct file s :
  dict_in ct SUPPORTED_CONVERSIONS = true →
  is_xps file = true →
  summary file s (convert_path_at ct s) (convert_xps ct file s).
Proof.
  intros Hct Hx. rewrite convert_xps_run by done. unfold convert_try.
  rewrite open_run. destruct (parse (content file)) as [d|msg];
    [|apply summary_not_opened].
  rewrite uuid4_attempted. cbv zeta.
  rewrite results_path_at. fold (convert_path_at ct s).
  apply supported_cases in Hct as [-> | [-> | ->]].
  - change (String.eqb "pdf" "pdf") with true. cbv iota.
    unfold media_type.
    change (dict_get "pdf" SUPPORTED_CONVERSIONS) with (Some "application/pdf").
    apply (save_tail_summary _ file s); [done|done|].
    exists []. by rewrite app_nil_r.
  - change (String.eqb "images" "pdf") with false.
    change (String.eqb "images" "images") with true. cbv iota.
    apply summary_calm; [calm_steps|done|by right|done].
  - change (String.eqb "docx" "pdf") with false.
    change (String.eqb "docx" "images") with false.
    change (String.eqb "docx" "docx") with true. cbv iota.
    set (st := drawn (attempted file s (Some d))).
    destruct (calm_docx_blocks st) as (Hf1 & Hu1 & t & Ht1 & Hp).
    destruct (docx_blocks st) as [[body|e] s1] eqn:Hb; cbn [snd] in *.
    + rewrite (bind_return _ _ _ _ _ Hb). unfold media_type.
      change (dict_get "docx" SUPPORTED_CONVERSIONS)
        with (Some "application/vnd.openxmlformats-officedocument.wordprocessingml.document").
      mred. apply summary_finish; cbn [fs uuid_calls trace].
      * right. eexists _, _. by rewrite Hf1.
      * right. by rewrite Hu1.
      * exists (t ++ [EvDocxSave (convert_path_at "docx" s)]). split.
        -- rewrite Ht1. unfold st, drawn, attempted. cbn [trace].
           by rewrite <- !app_assoc.
        -- by rewrite forallb_app, Hp.
    + rewrite (bind_raise _ _ _ _ _ Hb). apply summary_finish.
      * left. by rewrite Hf1.
      * right. by rewrite Hu1.
      * exists t. split; [|done]. rewrite Ht1. unfold st, drawn, attempted.
        cbn [trace]. by rewrite <- !app_assoc.
Qed.

Lemma edit_xps_summary file old_text new_text s :
  is_xps file = true →
  summary file s (edited_path_at s) (edit_xps file old_text new_text s).
Proof.
  intros Hx. rewrite edit_xps_run by done. unfold edit_try.
  rewrite open_run. destruct (parse (content file)) as [d|msg];
    [|apply summary_not_opened].
  set (st := attempted file s (Some d)).
  destruct (calm_replace_in_pages old_text new_text st)
    as (Hf1 & Hu1 & t & Ht1 & Hp).
  destruct (replace_in_pages old_text new_text st) as [[u|e] s1] eqn:Hb;
    cbn [snd] in *.
  - rewrite (bind_return _ _ _ _ _ Hb).
    assert (uuid4 s1 = (Return (output_uuid_at s), drawn s1)) as Hu4.
    { unfold uuid4, drawn, output_uuid_at. by rewrite Hu1. }
    rewrite (bind_return _ _ _ _ _ Hu4). cbv zeta.
    fold (edited_name_at s).
    change (Py.path_join RESULT_FOLDER (edited_name_at s))
      with (edited_path_at s).
    apply (save_tail_summary _ file s).
    + unfold drawn. cbn [fs]. by rewrite Hf1.
    + unfold drawn. cbn [uuid_calls]. by rewrite Hu1.
    + exists t. split; [|done]. unfold drawn. cbn [trace].
      rewrite Ht1. unfold st, attempted. cbn [trace]. by rewrite <- !app_assoc.
  - rewrite (bind_raise _ _ _ _ _ Hb). apply summary_finish.
    + left. by rewrite Hf1.
    + left. by rewrite Hu1.
    + exists t. split; [|done]. rewrite Ht1. unfold st, attempted.
      cbn [trace]. by rewrite <- !app_assoc.
Qed.

End Summaries.

(** ** Other files, failures and the order of calls *)

Section Isolation.
Context `{B : Backend}.

Lemma summary_frame file s out r (p : string) :
  summary file s out r →
  p ≠ input_path_at s → p ≠ out → fs (snd r) !! p = fs s !! p.
Proof.
  intros (s1 & -> & Hfs & _) Hin Hout.
  rewrite released_fs_other by done.
  destruct Hfs as [->|(data & resp & -> & _)]; unfold base_fs.
  - by rewrite lookup_insert_ne.
  - rewrite lookup_insert_ne by done. by rewrite lookup_insert_ne.
Qed.

Lemma summary_failure file s out r e (p : string) :
  summary file s out r → fst r = Raise e →
  p ≠ input_path_at s → fs (snd r) !! p = fs s !! p.
Proof.
  intros (s1 & -> & Hfs & _) Hraise Hin.
  rewrite released_fs_other by done.
  destruct Hfs as [->|(data & resp & _ & Hret)]; [|congruence].
  unfold base_fs. by rewrite lookup_insert_ne.
Qed.

Lemma summary_trace file s out r :
  summary file s out r → out ≠ input_path_at s →
  ∃ t closing,
    trace (snd r)
    = trace s ++ [EvWrite (input_path_at s); EvOpen (input_path_at s)]
              ++ t ++ closing ++ [EvRemove (input_path_at s)]
    ∧ forallb is_page_event t = true
    ∧ (closing = [] ∨ closing = [EvClose]).
Proof.
  intros (s1 & -> & Hfs & _ & t & Ht & Hp) Hout.
  assert (is_Some (fs s1 !! input_path_at s)) as Hex.
  { destruct Hfs as [->|(data & resp & -> & _)]; unfold base_fs.
    - rewrite lookup_insert_eq. eauto.
    - rewrite lookup_insert_ne by done. rewrite lookup_insert_eq. eauto. }
  exists t, (if py_bool (doc s1) then [EvClose] else []).
  split; [|split; [done|]].
  - unfold released. cbn [trace].
    rewrite bool_decide_eq_true_2 by done.
    rewrite Ht. by rewrite <- !app_assoc.
  - destruct (py_bool (doc s1)); auto.
Qed.

Lemma convert_path_not_input ct s : convert_path_at ct s ≠ input_path_at s.
Proof. unfold convert_path_at, input_path_at. discriminate. Qed.

(** A request changes no file but its own upload and its own result:
    every other path of the two folders holds afterwards what it held
    before, whether the request succeeds or fails. *)
Theorem requests_touch_only_their_files file s (p : string) :
  is_xps file = true →
  p ≠ input_path_at s →
  (∀ ct, dict_in ct SUPPORTED_CONVERSIONS = true →
     p ≠ convert_path_at ct s →
     fs (snd (convert_xps ct file s)) !! p = fs s !! p)
  ∧ fs (snd (read_xps file s)) !! p = fs s !! p
  ∧ fs (snd (preview_all_xps file s)) !! p = fs s !! p
  ∧ ∀ old_text new_text,
      p ≠ edited_path_at s →
      fs (snd (edit_xps file old_text new_text s)) !! p = fs s !! p.
Proof.
  intros Hx Hp. split; [|split; [|split]].
  - intros ct Hct Hout.
    by apply (summary_frame file s _ _ p (convert_xps_summary ct file s Hct Hx)).
  - by apply (summary_frame file s _ _ p
                (read_xps_summary file s (input_path_at s) Hx)).
  - by apply (summary_frame file s _ _ p
                (preview_all_xps_summary file s (input_path_at s) Hx)).
  - intros old_text new_text Hout.
    by apply (summary_frame file s _ _ p
                (edit_xps_summary file old_text new_text s Hx)).
Qed.

(** A request that ends in an error, of status 400 or 500, has written
    no result: every path but the one of its upload holds what it held
    before. *)
Theorem failed_requests_leave_no_file file s e (p : string) :
  p ≠ input_path_at s →
  (∀ ct, fst (convert_xps ct file s) = Raise e →
     fs (snd (convert_xps ct file s)) !! p = fs s !! p)
  ∧ (fst (read_xps file s) = Raise e →
     fs (snd (read_xps file s)) !! p = fs s !! p)
  ∧ (fst (preview_all_xps file s) = Raise e →
     fs (snd (preview_all_xps file s)) !! p = fs s !! p)
  ∧ ∀ old_text new_text,
      fst (edit_xps file old_text new_text s) = Raise e →
      fs (snd (edit_xps file old_text new_text s)) !! p = fs s !! p.
Proof.
  intros Hp. destruct (is_xps file) eqn:Hx.
  - split; [|split; [|split]].
    + intros ct. destruct (dict_in ct SUPPORTED_CONVERSIONS) eqn:Hct.
      * intros Hr.
        by apply (summary_failure file s _ _ e p
                    (convert_xps_summary ct file s Hct Hx)).
      * unfold convert_xps. by rewrite Hct.
    + intros Hr.
      by apply (summary_failure file s _ _ e p
                  (read_xps_summary file s "" Hx)).
    + intros Hr.
      by apply (summary_failure file s _ _ e p
                  (preview_all_xps_summary file s "" Hx)).
    + intros old_text new_text Hr.
      by apply (summary_failure file s _ _ e p
                  (edit_xps_summary file old_text new_text s Hx)).
  - split; [|split; [|split]].
    + intros ct _. unfold convert_xps. rewrite Hx.
      by destruct (dict_in ct SUPPORTED_CONVERSIONS).
    + intros _. unfold read_xps. by rewrite Hx.
    + intros _. unfold preview_all_xps. by rewrite Hx.
    + intros old_text new_text _. unfold edit_xps. by rewrite Hx.
Qed.

(** The calls of an accepted request come in one order on every path:
    the upload is written, then opened, then come calls on the document
    and the saving of the result, then at most one close, and the removal
    of the upload is the last call. *)
Theorem requests_run_in_order file s :
  is_xps file = true →
  (∀ ct, dict_in ct SUPPORTED_CONVERSIONS = true →
     in_order s (trace (snd (convert_xps ct file s))))
  ∧ in_order s (trace (snd (read_xps file s)))
  ∧ in_order s (trace (snd (preview_all_xps file s)))
  ∧ ∀ old_text new_text,
      in_order s (trace (snd (edit_xps file old_text new_text s))).
Proof.
  intros Hx. unfold in_order. split; [|split; [|split]].
  - intros ct Hct.
    apply (summary_trace file s _ _ (convert_xps_summary ct file s Hct Hx)).
    apply convert_path_not_input.
  - apply (summary_trace file s _ _ (read_xps_summary file s "" Hx)).
    unfold input_path_at. discriminate.
  - apply (summary_trace file s _ _ (preview_all_xps_summary file s "" Hx)).
    unfold input_path_at. discriminate.
  - intros old_text new_text.
    apply (summary_trace file s _ _
             (edit_xps_summary file old_text new_text s Hx)).
    apply input_not_edited.
Qed.

End Isolation.

(** ** The pipelines that only read *)

Section Still.
Context `{B : Backend}.

Lemma still_ret {A} (a : A) : still (ret a).
Proof. by intros s. Qed.

Lemma still_raise {A} (e : exn) : still (@raise _ A e).
Proof. by intros s. Qed.

Lemma still_lift {A} (r : result A) : still (lift r).
Proof. by destruct r; intros s. Qed.

Lemma still_bind {A C} (m : M A) (k : A → M C) :
  still m → (∀ a, still (k a)) → still (bind m k).
Proof.
  intros Hm Hk s. unfold bind. pose proof (Hm s) as H1.
  destruct (m s) as [[a|e] s1]; cbn [snd] in *; subst s1; [apply Hk|done].
Qed.

Lemma still_if {A} (b : bool) (m1 m2 : M A) :
  still m1 → still m2 → still (if b then m1 else m2).
Proof. by destruct b. Qed.

Lemma still_for_each {X A} (l : list X) (body : X → A → M A) :
  (∀ x acc, still (body x acc)) → ∀ acc, still (for_each l acc body).
Proof.
  intros Hbody. induction l as [|x l IH]; intros acc.
  - apply still_ret.
  - cbn [for_each]. apply still_bind; [apply Hbody|apply IH].
Qed.

Lemma still_get_doc : still get_doc.
Proof. intros s. unfold get_doc. by destruct (doc s). Qed.

Lemma still_doc_len : still doc_len.
Proof. apply still_bind; [apply still_get_doc|intros; apply still_ret]. Qed.

Lemma still_load_page i : still (load_page i).
Proof.
  apply still_bind; [apply still_get_doc|intros d].
  apply still_if; [apply still_ret|apply still_raise].
Qed.

Lemma still_page_data i : still (page_data i).
Proof.
  apply still_bind; [apply still_get_doc|intros d].
  destruct (pages d !! i); [apply still_ret|apply still_raise].
Qed.

Lemma still_page_get_text i : still (page_get_text i).
Proof. apply still_bind; [apply still_page_data|intros; apply still_lift]. Qed.

Lemma still_page_get_pixmap i : still (page_get_pixmap i).
Proof. apply still_bind; [apply still_page_data|intros; apply still_lift]. Qed.

Lemma still_zip_page i zipf : still (zip_page i zipf).
Proof.
  apply still_bind; [apply still_load_page|intros page].
  apply still_bind; [apply still_page_get_pixmap|intros pix].
  apply still_bind; [apply still_lift|intros img].
  apply still_bind; [apply still_lift|intros img_io]. apply still_ret.
Qed.

Lemma still_zip_pages : still zip_pages.
Proof.
  apply still_bind; [apply still_doc_len|intros n].
  apply still_for_each. apply still_zip_page.
Qed.

Lemma still_docx_page i word_doc : still (docx_page i word_doc).
Proof.
  apply still_bind; [apply still_load_page|intros page].
  apply still_bind; [apply still_page_get_text|intros text]. cbv zeta.
  apply still_bind; [apply still_doc_len|intros len].
  apply still_if; apply still_ret.
Qed.

Lemma still_docx_blocks : still docx_blocks.
Proof.
  apply still_bind; [apply still_doc_len|intros n].
  apply still_for_each. apply still_docx_page.
Qed.

Lemma still_extract_page i text_content : still (extract_page i text_content).
Proof.
  apply still_bind; [apply still_load_page|intros page].
  apply still_bind; [apply still_page_get_text|intros text]. apply still_ret.
Qed.

Lemma still_extract_text : still extract_text.
Proof.
  apply still_bind; [apply still_doc_len|intros n].
  apply still_for_each. apply still_extract_page.
Qed.

(** A loop over a still body stops at the first element on which the body
    raises, whatever it gathered before. *)
Lemma for_each_first_failure {X A} (body : X → A → M A)
    (good : list X) (x : X) (rest : list X) (e : exn) s :
  (∀ i acc, still (body i acc)) →
  (∀ i acc, i ∈ good → ∃ acc', fst (body i acc s) = Return acc') →
  (∀ acc, fst (body x acc s) = Raise e) →
  ∀ acc, for_each (good ++ x :: rest) acc body s = (Raise e, s).
Proof.
  intros Hstill Hgood Hbad.
  induction good as [|g good IH]; intros acc.
  - cbn [app for_each]. unfold bind.
    pose proof (Hstill x acc s) as Hs. pose proof (Hbad acc) as Hb.
    destruct (body x acc s) as [[a|e'] s1]; cbn [fst snd] in *; [done|].
    congruence.
  - cbn [app for_each]. unfold bind.
    pose proof (Hstill g acc s) as Hs.
    destruct (Hgood g acc) as [acc' Hacc]; [by left|].
    destruct (body g acc s) as [[a|e'] s1]; cbn [fst snd] in *; [|done].
    subst s1. apply IH. intros i acc0 Hi. apply Hgood. by right.
Qed.

End Still.

(** ** Helper functions, validation and the PDF conversion *)

Section Helpers.
Context `{B : Backend}.

(** [cleanup] looks before it removes. On a path that does not exist it
    does nothing at all: [os.remove] is not called. On a path that holds a
    file it calls [os.remove] once, for that path; afterwards the path
    does not exist, every other path holds what it held, and a second
    [cleanup] of the same path does nothing. *)
Theorem cleanup_removes_only_its_path (file_path : string) s :
  (fs s !! file_path = None → cleanup file_path s = (Return tt, s))
  ∧ (is_Some (fs s !! file_path) →
     trace (snd (cleanup file_path s)) = trace s ++ [EvRemove file_path]
     ∧ fs (snd (cleanup file_path s)) !! file_path = None
     ∧ (∀ p : string, p ≠ file_path →
          fs (snd (cleanup file_path s)) !! p = fs s !! p)
     ∧ cleanup file_path (snd (cleanup file_path s))
       = (Return tt, snd (cleanup file_path s))).
Proof.
  assert (∀ s', fs s' !! file_path = None →
                cleanup file_path s' = (Return tt, s')) as Hnone.
  { intros s' Hn. unfold cleanup. mred.
    rewrite bool_decide_eq_false_2; [done|].
    rewrite Hn. by intros [? ?]. }
  split; [apply Hnone|]. intros Hl.
  assert (cleanup file_path s
          = (Return tt,
             mkState (delete file_path (fs s)) (uuid_calls s)
                     (trace s ++ [EvRemove file_path]) (doc s))) as ->.
  { unfold cleanup. mred. by rewrite bool_decide_eq_true_2. }
  cbn [fst snd fs trace].
  split; [done|]. split; [apply lookup_delete_eq|].
  split; [intros p Hp; by apply lookup_delete_ne|].
  apply Hnone. cbn [fs]. apply lookup_delete_eq.
Qed.

(** What [fitz.open] reads right after [save_file] is the content of the
    upload, whatever the path held before: the handler works on the
    document the uploaded bytes parse to, or gets their parse error. *)
Theorem saved_upload_opens_as_uploaded file s :
  fs (snd (save_file file s)) !! input_path_at s = Some (content file)
  ∧ fst (bind (save_file file) fitz_open s)
    = match parse (content file) with
      | Ok d => Return d
      | Err msg => Raise (PyError msg)
      end.
Proof.
  rewrite save_file_run. cbn [snd fs]. split; [apply lookup_insert_eq|].
  rewrite (bind_return _ _ _ _ _ (save_file_run file s)).
  unfold fitz_open. mred. rewrite lookup_insert_eq.
  by destruct (parse (content file)).
Qed.

(** The PDF conversion: for an upload that opens as a document [d] which
    saves as [data], [convert_xps] ("pdf") writes [data] to
    [results/{uuid}.pdf] and answers with that file, its media type
    [application/pdf] and the name [{uuid}.pdf]; the document is saved as
    opened, no call on any page is made. *)
Theorem to_pdf_saves_document file s d data :
  is_xps file = true →
  parse (content file) = Ok d →
  pdf_bytes d = Ok data →
  fst (convert_xps "pdf" file s)
  = Return (FileResponse (pdf_path_at s) "application/pdf"
              (output_uuid_at s +:+ ".pdf"))
  ∧ fs (snd (convert_xps "pdf" file s)) !! pdf_path_at s = Some data
  ∧ trace (snd (convert_xps "pdf" file s))
    = trace s ++ [EvWrite (input_path_at s); EvOpen (input_path_at s);
                  EvSave (pdf_path_at s)]
              ++ (if py_bool (Some d) then [EvClose] else [])
              ++ [EvRemove (input_path_at s)].
Proof.
  intros Hx Hparse Hsave. rewrite convert_xps_run by done.
  unfold convert_try. rewrite open_run, Hparse.
  rewrite uuid4_attempted. cbv zeta.
  change (String.eqb "pdf" "pdf") with true. cbv iota.
  rewrite (results_path_at s "pdf").
  change ("." +:+ "pdf") with ".pdf". fold (pdf_path_at s).
  unfold media_type.
  change (dict_get "pdf" SUPPORTED_CONVERSIONS) with (Some "application/pdf").
  unfold drawn, attempted. mred. rewrite Hsave. mred.
  unfold finish, released. cbn [fst snd fs trace doc].
  assert (pdf_path_at s ≠ input_path_at s) as Hne
    by (unfold pdf_path_at, input_path_at; discriminate).
  split; [done|]. split.
  - rewrite lookup_delete_ne by done. apply lookup_insert_eq.
  - rewrite lookup_insert_ne by done. rewrite lookup_insert_eq.
    rewrite bool_decide_eq_true_2 by eauto.
    by rewrite <- !app_assoc.
Qed.

(** A conversion type other than [pdf], [images] and [docx], compared to
    the letter, is refused with status 400 and the list of the three
    types, before the file name is looked at; the state is untouched. *)
Theorem unsupported_conversion_rejected ct file s :
  ct ≠ "pdf" → ct ≠ "images" → ct ≠ "docx" →
  convert_xps ct file s
  = (Raise (HTTPException 400
              "Unsupported conversion. Allowed: ['pdf', 'images', 'docx']"),
     s).
Proof.
  intros H1 H2 H3. unfold convert_xps.
  destruct (dict_in ct SUPPORTED_CONVERSIONS) eqn:Hct; [|reflexivity].
  apply supported_cases in Hct as [? | [? | ?]]; done.
Qed.

Lemma lower_append (a b : string) :
  Py.lower (a +:+ b) = Py.lower a +:+ Py.lower b.
Proof.
  induction a as [|c a IH]; [done|].
  rewrite append_cons. cbn [Py.lower]. by rewrite IH, append_cons.
Qed.

(** The extension is compared without regard to case, and nothing else
    of the name matters: a name made of any stem, the empty one and one
    with folders in it included, and an extension that is [.xps] in lower
    case passes the check of the handlers. *)
Theorem extension_case_is_ignored (stem ext : string) (data : bytes) :
  Py.lower ext = ".xps" →
  is_xps (mkUpload (stem +:+ ext) data) = true.
Proof.
  intros Hext. unfold is_xps. cbn [filename].
  apply endswith_spec. exists (Py.lower stem).
  by rewrite lower_append, Hext.
Qed.

(** On every path of every handler the upload is removed; a document
    that opened with at least one page is closed exactly once. *)
Theorem opened_document_closed_once file s d :
  is_xps file = true →
  parse (content file) = Ok d →
  pages d ≠ [] →
  (∀ ct, dict_in ct SUPPORTED_CONVERSIONS = true →
     fs (snd (convert_xps ct file s)) !! input_path_at s = None
     ∧ closes (trace (snd (convert_xps ct file s))) = closes (trace s) + 1)
  ∧ (fs (snd (read_xps file s)) !! input_path_at s = None
     ∧ closes (trace (snd (read_xps file s))) = closes (trace s) + 1)
  ∧ (fs (snd (preview_all_xps file s)) !! input_path_at s = None
     ∧ closes (trace (snd (preview_all_xps file s))) = closes (trace s) + 1)
  ∧ ∀ old_text new_text,
      fs (snd (edit_xps file old_text new_text s)) !! input_path_at s = None
      ∧ closes (trace (snd (edit_xps file old_text new_text s)))
        = closes (trace s) + 1.
Proof.
  intros Hx Hparse Hne.
  assert (closes_expected file = 1) as H1.
  { unfold closes_expected. rewrite Hparse. unfold py_bool.
    destruct (pages d); done. }
  destruct (cleanup_on_every_path file s Hx) as (Hc & Hr & Hp & He).
  rewrite H1 in Hc, Hr, Hp, He. done.
Qed.

(** An upload that does not open: every handler answers with status 500,
    its prefix and the text of the error; the upload was written, the
    open was tried, the upload was removed, and nothing else happened: no
    close, no second identifier, no other file touched. *)
Theorem open_failure_is_reported file s msg :
  is_xps file = true →
  parse (content file) = Err msg →
  let after := released (input_path_at s) (attempted file s None) in
  (∀ ct, dict_in ct SUPPORTED_CONVERSIONS = true →
     convert_xps ct file s
     = (Raise (HTTPException 500 ("Conversion failed: " +:+ msg)), after))
  ∧ read_xps file s
    = (Raise (HTTPException 500 ("Failed to read XPS: " +:+ msg)), after)
  ∧ preview_all_xps file s
    = (Raise (HTTPException 500 ("Failed to generate preview: " +:+ msg)),
       after)
  ∧ (∀ old_text new_text,
       edit_xps file old_text new_text s
       = (Raise (HTTPException 500 ("Failed to edit XPS: " +:+ msg)), after))
  ∧ trace after
    = trace s ++ [EvWrite (input_path_at s); EvOpen (input_path_at s);
                  EvRemove (input_path_at s)]
  ∧ uuid_calls after = S (uuid_calls s)
  ∧ ∀ p : string, p ≠ input_path_at s → fs after !! p = fs s !! p.
Proof.
  intros Hx Hparse after. subst after.
  split; [|split; [|split; [|split; [|split; [|split]]]]].
  - intros ct Hct. rewrite convert_xps_run by done. unfold convert_try.
    by rewrite open_run, Hparse.
  - rewrite read_xps_run by done. unfold read_try.
    by rewrite open_run, Hparse.
  - rewrite preview_all_xps_run by done. unfold preview_try.
    by rewrite open_run, Hparse.
  - intros old_text new_text. rewrite edit_xps_run by done. unfold edit_try.
    by rewrite open_run, Hparse.
  - unfold released, attempted. cbn [trace doc fs py_bool].
    rewrite lookup_insert_eq. rewrite bool_decide_eq_true_2 by eauto.
    by rewrite <- !app_assoc.
  - done.
  - intros p Hp. rewrite released_fs_other by done.
    unfold attempted. cbn [fs]. by rewrite lookup_insert_ne.
Qed.

End Helpers.

(** ** Failures on a page, and what reading leaves behind *)

Section Pages.
Context `{B : Backend}.

Lemma snd_finish {A} prefix input_path (r : outcome A * State) :
  snd (finish prefix input_path r) = released input_path (snd r).
Proof. by destruct r as [[a|e] s1]. Qed.

Lemma extract_page_run i acc s d p :
  doc s = Some d → pages d !! i = Some p →
  extract_page i acc s
  = (match get_text_of p with
     | Ok t => Return (acc +:+ (t +:+ PAGE_BREAK))
     | Err msg => Raise (PyError msg)
     end, s).
Proof.
  intros Hd Hp. unfold extract_page.
  erewrite bind_return; [|eapply load_page_run; [done|by eapply lookup_lt_Some]].
  unfold page_get_text. mred. rewrite Hd. mred. rewrite Hp.
  by destruct (get_text_of p).
Qed.

Lemma docx_page_run i acc s d p :
  doc s = Some d → pages d !! i = Some p →
  ∃ acc', docx_page i acc s
          = (match get_text_of p with
             | Ok t => Return (acc' t)
             | Err msg => Raise (PyError msg)
             end, s).
Proof.
  intros Hd Hp.
  exists (λ t, if (Z.of_nat i <? Z.of_nat (length (pages d)) - 1)%Z
               then (acc ++ [Paragraph t]) ++ [PageBreak]
               else acc ++ [Paragraph t]).
  unfold docx_page.
  erewrite bind_return; [|eapply load_page_run; [done|by eapply lookup_lt_Some]].
  unfold page_get_text. mred. rewrite Hd. mred. rewrite Hp.
  destruct (get_text_of p) as [t|msg]; mred; [|done].
  rewrite Hd. mred.
  by destruct (Z.of_nat i <? Z.of_nat (length (pages d)) - 1)%Z.
Qed.

Lemma zip_page_run i acc s d p :
  doc s = Some d → pages d !! i = Some p →
  zip_page i acc s
  = (match png_of_page p with
     | Ok b => Return (acc ++ [("page_" +:+ Py.str_of_nat (i + 1) +:+ ".png", b)])
     | Err msg => Raise (PyError msg)
     end, s).
Proof.
  intros Hd Hp. unfold zip_page, png_of_page.
  erewrite bind_return; [|eapply load_page_run; [done|by eapply lookup_lt_Some]].
  unfold page_get_pixmap. mred. rewrite Hd. mred. rewrite Hp.
  destruct (get_pixmap_of p) as [pix|msg]; mred; [|done].
  destruct (image_frombytes "RGB" (width pix, height pix) (samples pix))
    as [img|msg]; mred; [|done].
  by destruct (image_save img "PNG").
Qed.

(** A loop over the page numbers, with a body that is still and reads the
    page it is given, raises what the first page that fails raises. *)
Lemma page_loop_first_failure {A V} (body : nat → A → M A)
    (read : PageData → result V) (acc0 : A) s d k p msg :
  (∀ i acc, still (body i acc)) →
  (∀ i acc q, pages d !! i = Some q →
     ∃ f, body i acc s
          = (match read q with
             | Ok v => Return (f v)
             | Err m => Raise (PyError m)
             end, s)) →
  pages d !! k = Some p →
  read p = Err msg →
  (∀ i q, i < k → pages d !! i = Some q → ∃ v, read q = Ok v) →
  for_each (seq 0 (length (pages d))) acc0 body s = (Raise (PyError msg), s).
Proof.
  intros Hstill Hrun Hp Hbad Hgood.
  rewrite (seq_split_at (length (pages d)) k) by (by eapply lookup_lt_Some).
  apply for_each_first_failure; [done| |].
  - intros i acc Hi. apply elem_of_seq in Hi as [_ Hi].
    assert (i < length (pages d)) as Hlt.
    { apply lookup_lt_Some in Hp. lia. }
    destruct (lookup_lt_is_Some_2 _ _ Hlt) as [q Hq].
    destruct (Hgood i q ltac:(lia) Hq) as [v Hv].
    destruct (Hrun i acc q Hq) as [f ->]. rewrite Hv. eauto.
  - intros acc. destruct (Hrun k acc p Hp) as [f ->]. by rewrite Hbad.
Qed.

(** When the text of a page cannot be extracted, and the texts of the
    pages before it can, [read_xps] and the DOCX conversion answer with
    status 500 and the error of that page; the state is what it is after
    any request that opened [d] and changed nothing, and in particular no
    DOCX file was written. *)
Theorem text_failure_on_a_page file s d k p msg :
  is_xps file = true →
  parse (content file) = Ok d →
  pages d !! k = Some p →
  get_text_of p = Err msg →
  (∀ i q, i < k → pages d !! i = Some q → ∃ t, get_text_of q = Ok t) →
  read_xps file s
  = (Raise (HTTPException 500 ("Failed to read XPS: " +:+ msg)),
     released (input_path_at s) (attempted file s (Some d)))
  ∧ convert_xps "docx" file s
    = (Raise (HTTPException 500 ("Conversion failed: " +:+ msg)),
       released (input_path_at s) (drawn (attempted file s (Some d)))).
Proof.
  intros Hx Hparse Hp Hbad Hgood. split.
  - rewrite read_xps_run by done. unfold read_try.
    rewrite open_run, Hparse.
    set (st := attempted file s (Some d)).
    assert (doc st = Some d) as Hd by done.
    assert (get_doc st = (Return d, st)) as Hget
      by (unfold get_doc; by rewrite Hd).
    rewrite (bind_return _ _ _ _ _ Hget). cbv zeta.
    assert (extract_text st = (Raise (PyError msg), st)) as Hfail.
    { unfold extract_text.
      rewrite (bind_return _ _ _ _ _ (doc_len_run st d Hd)).
      apply (page_loop_first_failure extract_page get_text_of "" st d k p msg);
        try done.
      - intros i acc. apply still_extract_page.
      - intros i acc q Hq. eexists.
        by rewrite (extract_page_run i acc st d q Hd Hq). }
    by rewrite (bind_raise _ _ _ _ _ Hfail).
  - rewrite convert_xps_run by done. unfold convert_try.
    rewrite open_run, Hparse. rewrite uuid4_attempted. cbv zeta.
    change (String.eqb "docx" "pdf") with false.
    change (String.eqb "docx" "images") with false.
    change (String.eqb "docx" "docx") with true. cbv iota.
    set (st := drawn (attempted file s (Some d))).
    assert (doc st = Some d) as Hd by done.
    assert (docx_blocks st = (Raise (PyError msg), st)) as Hfail.
    { unfold docx_blocks.
      rewrite (bind_return _ _ _ _ _ (doc_len_run st d Hd)).
      apply (page_loop_first_failure docx_page get_text_of [] st d k p msg);
        try done.
      - intros i acc. apply still_docx_page.
      - intros i acc q Hq. apply (docx_page_run i acc st d q Hd Hq). }
    by rewrite (bind_raise _ _ _ _ _ Hfail).
Qed.

(** When a page cannot be turned into a PNG file (no pixmap, no image
    from the pixmap, or no PNG from the image), and the pages before it
    can, both image pipelines answer with status 500 and the error of that
    page, and no archive. *)
Theorem render_failure_on_a_page file s d k p msg :
  is_xps file = true →
  parse (content file) = Ok d →
  pages d !! k = Some p →
  png_of_page p = Err msg →
  (∀ i q, i < k → pages d !! i = Some q → ∃ b, png_of_page q = Ok b) →
  convert_xps "images" file s
  = (Raise (HTTPException 500 ("Conversion failed: " +:+ msg)),
     released (input_path_at s) (drawn (attempted file s (Some d))))
  ∧ preview_all_xps file s
    = (Raise (HTTPException 500 ("Failed to generate preview: " +:+ msg)),
       released (input_path_at s) (attempted file s (Some d))).
Proof.
  intros Hx Hparse Hp Hbad Hgood.
  assert (∀ st, doc st = Some d → zip_pages st = (Raise (PyError msg), st))
    as Hfail.
  { intros st Hd. unfold zip_pages.
    rewrite (bind_return _ _ _ _ _ (doc_len_run st d Hd)).
    apply (page_loop_first_failure zip_page png_of_page [] st d k p msg);
      try done.
    - intros i acc. apply still_zip_page.
    - intros i acc q Hq. eexists.
      by rewrite (zip_page_run i acc st d q Hd Hq). }
  split.
  - rewrite convert_xps_run by done. unfold convert_try.
    rewrite open_run, Hparse. rewrite uuid4_attempted. cbv zeta.
    change (String.eqb "images" "pdf") with false.
    change (String.eqb "images" "images") with true. cbv iota.
    by rewrite (bind_raise _ _ _ _ _
                  (Hfail (drawn (attempted file s (Some d))) eq_refl)).
  - rewrite preview_all_xps_run by done. unfold preview_try.
    rewrite open_run, Hparse.
    by rewrite (bind_raise _ _ _ _ _
                  (Hfail (attempted file s (Some d)) eq_refl)).
Qed.

(** The state in which [read_xps] and the two image pipelines end on an
    upload that opens as [d], whether they succeed or fail on a page. *)
Lemma reading_final_state file s d :
  is_xps file = true →
  parse (content file) = Ok d →
  let closing := if py_bool (Some d) then [EvClose] else [] in
  let quiet_trace :=
    trace s ++ [EvWrite (input_path_at s); EvOpen (input_path_at s)]
            ++ closing ++ [EvRemove (input_path_at s)] in
  (snd (read_xps file s)
   = released (input_path_at s) (attempted file s (Some d))
   ∧ trace (snd (read_xps file s)) = quiet_trace)
  ∧ (snd (preview_all_xps file s)
     = released (input_path_at s) (attempted file s (Some d))
     ∧ trace (snd (preview_all_xps file s)) = quiet_trace)
  ∧ (snd (convert_xps "images" file s)
     = released (input_path_at s) (drawn (attempted file s (Some d)))
     ∧ trace (snd (convert_xps "images" file s)) = quiet_trace).
Proof.
  intros Hx Hparse closing quiet_trace. subst closing quiet_trace.
  assert (∀ v, trace (released (input_path_at s) v)
               = trace v ++ (if py_bool (doc v) then [EvClose] else [])
                         ++ (if bool_decide (is_Some (fs v !! input_path_at s))
                             then [EvRemove (input_path_at s)] else []))
    as Htr by done.
  assert (∀ v, v = attempted file s (Some d) ∨ v = drawn (attempted file s (Some d)) →
               trace (released (input_path_at s) v)
               = trace s ++ [EvWrite (input_path_at s); EvOpen (input_path_at s)]
                         ++ (if py_bool (Some d) then [EvClose] else [])
                         ++ [EvRemove (input_path_at s)]) as Hq.
  { intros v Hv. rewrite Htr.
    assert (fs v !! input_path_at s = Some (content file)) as ->.
    { destruct Hv as [-> | ->]; apply lookup_insert_eq. }
    rewrite bool_decide_eq_true_2 by eauto.
    destruct Hv as [-> | ->]; cbn [trace doc attempted drawn];
      by rewrite <- !app_assoc. }
  split; [|split].
  - rewrite read_xps_run by done. unfold read_try.
    rewrite open_run, Hparse, snd_finish.
    match goal with
    | |- context [released _ (snd (?rest ?st))] =>
        assert (still rest) as Hs
    end.
    { apply still_bind; [apply still_get_doc|intros d']. cbv zeta.
      apply still_bind; [apply still_extract_text|intros t].
      apply still_bind; [apply still_doc_len|intros n]. apply still_ret. }
    rewrite Hs. split; [done|]. apply Hq. by left.
  - rewrite preview_all_xps_run by done. unfold preview_try.
    rewrite open_run, Hparse, snd_finish.
    match goal with
    | |- context [released _ (snd (?rest ?st))] =>
        assert (still rest) as Hs
    end.
    { apply still_bind; [apply still_zip_pages|intros z]. apply still_ret. }
    rewrite Hs. split; [done|]. apply Hq. by left.
  - rewrite convert_xps_run by done. unfold convert_try.
    rewrite open_run, Hparse, uuid4_attempted. cbv zeta.
    change (String.eqb "images" "pdf") with false.
    change (String.eqb "images" "images") with true. cbv iota.
    rewrite snd_finish.
    match goal with
    | |- context [released _ (snd (?rest ?st))] =>
        assert (still rest) as Hs
    end.
    { apply still_bind; [apply still_zip_pages|intros z]. apply still_ret. }
    rewrite Hs. split; [done|]. apply Hq. by right.
Qed.

(** [read_xps] and the two image pipelines save nothing: whether they
    succeed or fail on a page, on an upload that opens as [d] they write
    no file, so that the files at the end are those from before the
    request (the upload is removed, and the identifier that the image
    conversion draws for an output path names no file), and of the traced
    calls they make none that searches or changes a page or saves the
    document: the trace is the writing and the opening of the upload, the
    closing of the document when it has pages, and the removal of the
    upload. *)
Theorem reading_saves_nothing file s d :
  is_xps file = true →
  parse (content file) = Ok d →
  let closing := if py_bool (Some d) then [EvClose] else [] in
  let quiet_trace :=
    trace s ++ [EvWrite (input_path_at s); EvOpen (input_path_at s)]
            ++ closing ++ [EvRemove (input_path_at s)] in
  (fs (snd (read_xps file s)) = delete (input_path_at s) (base_fs file s)
   ∧ trace (snd (read_xps file s)) = quiet_trace)
  ∧ (fs (snd (preview_all_xps file s))
     = delete (input_path_at s) (base_fs file s)
     ∧ trace (snd (preview_all_xps file s)) = quiet_trace)
  ∧ (fs (snd (convert_xps "images" file s))
     = delete (input_path_at s) (base_fs file s)
     ∧ fs (snd (convert_xps "images" file s)) !! convert_path_at "images" s
       = fs s !! convert_path_at "images" s
     ∧ trace (snd (convert_xps "images" file s)) = quiet_trace).
Proof.
  intros Hx Hparse closing quiet_trace.
  pose proof (reading_final_state file s d Hx Hparse) as H.
  cbv zeta in H. destruct H as ([Hr1 Hr2] & [Hp1 Hp2] & [Hc1 Hc2]).
  split; [|split].
  - split; [by rewrite Hr1|exact Hr2].
  - split; [by rewrite Hp1|exact Hp2].
  - split; [by rewrite Hc1|]. split; [|exact Hc2].
    rewrite Hc1. cbn [released fs drawn attempted].
    rewrite lookup_delete_ne by apply not_eq_sym, convert_path_not_input.
    apply lookup_insert_ne. apply not_eq_sym, convert_path_not_input.
Qed.

End Pages.

(** ** Responses *)

Section Responses.
Context `{B : Backend}.

Lemma finish_return {A} prefix input_path (o : outcome A) s1 (r : A) :
  fst (finish prefix input_path (o, s1)) = Return r → o = Return r.
Proof. destruct o; cbn; congruence. Qed.

Lemma finish_bind_return {A C} prefix input_path (m : M A) (k : A → M C) st
    (r : C) :
  fst (finish prefix input_path (bind m k st)) = Return r →
  ∃ a s1, m st = (Return a, s1)
          ∧ fst (finish prefix input_path (k a s1)) = Return r
          ∧ snd (finish prefix input_path (bind m k st))
            = snd (finish prefix input_path (k a s1)).
Proof.
  unfold bind. destruct (m st) as [[a|e] s1]; [eauto|].
  cbn. discriminate.
Qed.

(** [doc.save(out)] followed by the answer, when the handler returns. *)
Lemma save_tail_return prefix input_path (out : string) (resp r : Response) st :
  out ≠ input_path →
  fst (finish prefix input_path (bind (doc_save out) (λ _, ret resp) st))
  = Return r →
  r = resp
  ∧ is_Some (fs (snd (finish prefix input_path
                        (bind (doc_save out) (λ _, ret resp) st))) !! out).
Proof.
  intros Hne. mred. destruct (doc st) as [d|]; mred; [|discriminate].
  destruct (pdf_bytes d) as [data|msg]; mred; [|discriminate].
  cbn [finish fst snd]. intros [= <-]. split; [done|].
  rewrite released_fs_other by done. cbn [fs].
  rewrite lookup_insert_eq. eauto.
Qed.

(** What a handler answers when it returns, by endpoint: [convert_xps]
    answers with the file it wrote for [pdf] and [docx] and with a ZIP
    stream for [images], and never with nothing; [read_xps] answers with
    the metadata and the page count of the opened document;
    [preview_all_xps] answers with a ZIP stream; [edit_xps] answers with
    the PDF it wrote. A file named in an answer exists when the handler
    returns. *)
Theorem responses_by_endpoint file s r :
  (∀ ct, fst (convert_xps ct file s) = Return r →
     (ct = "pdf"
      ∧ r = FileResponse (convert_path_at "pdf" s) "application/pdf"
              (output_uuid_at s +:+ ".pdf")
      ∧ is_Some (fs (snd (convert_xps ct file s)) !! convert_path_at "pdf" s))
     ∨ (ct = "images"
        ∧ ∃ zipf, r = StreamingResponse zipf "application/zip"
                        "attachment; filename=images.zip")
     ∨ (ct = "docx"
        ∧ r = FileResponse (convert_path_at "docx" s)
                "application/vnd.openxmlformats-officedocument.wordprocessingml.document"
                (output_uuid_at s +:+ ".docx")
        ∧ is_Some (fs (snd (convert_xps ct file s))
                     !! convert_path_at "docx" s)))
  ∧ (fst (read_xps file s) = Return r →
     ∃ d text, parse (content file) = Ok d
               ∧ r = JSONResponse (metadata d) (length (pages d)) text)
  ∧ (fst (preview_all_xps file s) = Return r →
     ∃ zipf, r = StreamingResponse zipf "application/zip"
                   "attachment; filename=preview_pages.zip")
  ∧ ∀ old_text new_text,
      fst (edit_xps file old_text new_text s) = Return r →
      r = FileResponse (edited_path_at s) "application/pdf" (edited_name_at s)
      ∧ is_Some (fs (snd (edit_xps file old_text new_text s))
                   !! edited_path_at s).
Proof.
  destruct (is_xps file) eqn:Hx.
  2:{ split; [|split; [|split]].
      - intros ct. unfold convert_xps. rewrite Hx.
        destruct (dict_in ct SUPPORTED_CONVERSIONS); discriminate.
      - unfold read_xps. rewrite Hx. discriminate.
      - unfold preview_all_xps. rewrite Hx. discriminate.
      - intros old_text new_text. unfold edit_xps. rewrite Hx. discriminate. }
  split; [|split; [|split]].
  - intros ct. destruct (dict_in ct SUPPORTED_CONVERSIONS) eqn:Hct.
    2:{ unfold convert_xps. rewrite Hct. discriminate. }
    rewrite convert_xps_run by done. unfold convert_try.
    rewrite open_run. destruct (parse (content file)) as [d|msg];
      [|discriminate].
    rewrite uuid4_attempted. cbv zeta.
    rewrite results_path_at. fold (convert_path_at ct s).
    apply supported_cases in Hct as [-> | [-> | ->]].
    + change (String.eqb "pdf" "pdf") with true. cbv iota.
      unfold media_type.
      change (dict_get "pdf" SUPPORTED_CONVERSIONS)
        with (Some "application/pdf").
      intros Hr. left. split; [done|].
      apply (save_tail_return _ _ _ _ _ _ (convert_path_not_input "pdf" s)) in Hr.
      destruct Hr as [-> Hex]. done.
    + change (String.eqb "images" "pdf") with false.
      change (String.eqb "images" "images") with true. cbv iota.
      intros (zipf & s1 & _ & Hr & _)%finish_bind_return.
      right. left. split; [done|]. exists zipf.
      apply finish_return in Hr. by injection Hr as <-.
    + change (String.eqb "docx" "pdf") with false.
      change (String.eqb "docx" "images") with false.
      change (String.eqb "docx" "docx") with true. cbv iota.
      intros Hr. right. right. split; [done|].
      apply finish_bind_return in Hr as (body & s1 & _ & Hr & ->).
      revert Hr. unfold media_type.
      change (dict_get "docx" SUPPORTED_CONVERSIONS)
        with (Some "application/vnd.openxmlformats-officedocument.wordprocessingml.document").
      mred. cbn [finish fst snd]. intros [= <-]. split; [done|].
      rewrite released_fs_other by apply convert_path_not_input.
      cbn [fs]. rewrite lookup_insert_eq. eauto.
  - rewrite read_xps_run by done. unfold read_try.
    rewrite open_run. destruct (parse (content file)) as [d|msg];
      [|discriminate].
    set (st := attempted file s (Some d)).
    assert (get_doc st = (Return d, st)) as Hget by done.
    rewrite (bind_return _ _ _ _ _ Hget). cbv zeta.
    intros (text & s1 & Htext & Hr & _)%finish_bind_return.
    pose proof (still_extract_text st) as Hst. rewrite Htext in Hst.
    cbn [snd] in Hst. subst s1.
    rewrite (bind_return _ _ _ _ _ (doc_len_run st d eq_refl)) in Hr.
    apply finish_return in Hr. injection Hr as <-. eauto.
  - rewrite preview_all_xps_run by done. unfold preview_try.
    rewrite open_run. destruct (parse (content file)) as [d|msg];
      [|discriminate].
    intros (zipf & s1 & _ & Hr & _)%finish_bind_return.
    exists zipf. apply finish_return in Hr. by injection Hr as <-.
  - intros old_text new_text. rewrite edit_xps_run by done. unfold edit_try.
    rewrite open_run. destruct (parse (content file)) as [d|msg];
      [|discriminate].
    set (st := attempted file s (Some d)).
    intros Hr. apply finish_bind_return in Hr as (u & s1 & Hrep & Hr & ->).
    destruct (calm_replace_in_pages old_text new_text st)
      as (_ & Hu1 & _).
    rewrite Hrep in Hu1. cbn [snd] in Hu1.
    assert (uuid4 s1 = (Return (output_uuid_at s), drawn s1)) as Hu4.
    { unfold uuid4, drawn, output_uuid_at. by rewrite Hu1. }
    revert Hr. rewrite (bind_return _ _ _ _ _ Hu4). cbv zeta.
    fold (edited_name_at s).
    change (Py.path_join RESULT_FOLDER (edited_name_at s))
      with (edited_path_at s).
    intros Hr.
    apply (save_tail_return _ _ _ _ _ _ (input_not_edited s)) in Hr.
    destruct Hr as [-> Hex]. done.
Qed.

End Responses.

(** ** Generated names *)

Section Names.
Context `{B : Backend}.






Lemma str_of_nat_inj (n m : nat) :
  Py.str_of_nat n = Py.str_of_nat m → n = m.
Proof.
  unfold Py.str_of_nat. intros H.
  apply DecimalNat.Unsigned.to_uint_inj.
  assert (Some (Nat.to_uint n) = Some (Nat.to_uint m)) as [= ->]; [|done].
  by rewrite <- !NilEmpty.usu, H.
Qed.

Lemma append_inj_r (a b suf : string) : a +:+ suf = b +:+ suf → a = b.
Proof.
  revert b. induction a as [|c a IH]; intros [|c' b] H.
  - done.
  - exfalso. apply (f_equal String.length) in H.
    rewrite append_nil_l, append_cons in H. cbn [String.length] in H.
    rewrite length_append in H. lia.
  - exfalso. apply (f_equal String.length) in H.
    rewrite append_nil_l, append_cons in H. cbn [String.length] in H.
    rewrite length_append in H. lia.
  - rewrite !append_cons in H. injection H as -> H. f_equal. by apply IH.
Qed.

Lemma png_entries_names pngs : ∀ k name,
  name ∈ map fst (png_entries k pngs) →
  ∃ i, k ≤ i ∧ name = "page_" +:+ Py.str_of_nat (i + 1) +:+ ".png".
Proof.
  induction pngs as [|b pngs IH]; intros k name Hin.
  - by apply elem_of_nil in Hin.
  - cbn [png_entries map fst] in Hin.
    apply elem_of_cons in Hin as [-> | Hin]; [by exists k|].
    destruct (IH (S k) name Hin) as (i & Hi & ->). exists i. split; [lia|done].
Qed.

Lemma png_entries_nodup (pngs : list bytes) : ∀ k,
  NoDup (map fst (png_entries k pngs)).
Proof.
  induction pngs as [|b pngs IH]; intros k; [constructor|].
  cbn [png_entries map fst]. constructor; [|apply IH].
  intros (i & Hi & Heq)%png_entries_names.
  apply (inj (String.app "page_")) in Heq.
  apply append_inj_r, str_of_nat_inj in Heq. lia.
Qed.

Lemma png_entries_contents (pngs : list bytes) : ∀ k,
  map snd (png_entries k pngs) = pngs.
Proof.
  induction pngs as [|b pngs IH]; intros k; [done|].
  cbn [png_entries map snd]. by rewrite IH.
Qed.

(** The entries of the archive of either image pipeline have names of
    their own, no two pages are written under the same name however many
    pages there are, and their contents are the pages' PNG files in page
    order. *)
Theorem archive_names_are_distinct file s d pngs :
  is_xps file = true →
  parse (content file) = Ok d →
  Forall2 (λ p b, png_of_page p = Ok b) (pages d) pngs →
  ∃ zipf,
    fst (convert_xps "images" file s)
    = Return (StreamingResponse zipf "application/zip"
                "attachment; filename=images.zip")
    ∧ fst (preview_all_xps file s)
      = Return (StreamingResponse zipf "application/zip"
                  "attachment; filename=preview_pages.zip")
    ∧ NoDup (map fst zipf)
    ∧ map snd zipf = pngs.
Proof.
  intros Hx Hparse Hall. exists (png_entries 0 pngs).
  rewrite (convert_images_ok file s d pngs) by done.
  rewrite (preview_all_xps_ok file s d pngs) by done.
  split; [done|]. split; [done|].
  split; [apply png_entries_nodup|apply png_entries_contents].
Qed.

End Names.

(** ** More concrete requests *)

Lemma requests_touch_only_their_files_witness :
  is_xps Toy.upload = true
  ∧ "uploads/other.xps" ≠ input_path_at Toy.busy
  ∧ fs (snd (read_xps Toy.upload Toy.busy)) !! "uploads/other.xps"
    = Some Toy.three_pages
  ∧ fs (snd (convert_xps "pdf" Toy.upload Toy.busy)) !! "uploads/other.xps"
    = Some Toy.three_pages.
Proof.
  assert ("uploads/other.xps" ≠ input_path_at Toy.busy) as Hp.
  { intros H. vm_compute in H. discriminate. }
  split; [reflexivity|]. split; [exact Hp|].
  pose proof (requests_touch_only_their_files Toy.upload Toy.busy
                "uploads/other.xps" eq_refl Hp) as (Hc & Hr & _).
  split.
  - rewrite Hr. vm_compute. reflexivity.
  - rewrite (Hc "pdf" eq_refl).
    + vm_compute. reflexivity.
    + intros H. vm_compute in H. discriminate.
Defined.

Lemma failed_requests_leave_no_file_witness :
  convert_path_at "docx" Toy.busy ≠ input_path_at Toy.busy
  ∧ fst (convert_xps "docx" Toy.unreadable_upload Toy.busy)
    = Raise (HTTPException 500 "Conversion failed: text extraction failed")
  ∧ fs (snd (convert_xps "docx" Toy.unreadable_upload Toy.busy))
      !! convert_path_at "docx" Toy.busy
    = None.
Proof.
  assert (fst (convert_xps "docx" Toy.unreadable_upload Toy.busy)
          = Raise (HTTPException 500
                     "Conversion failed: text extraction failed")) as Hr.
  { vm_compute. reflexivity. }
  split; [apply convert_path_not_input|]. split; [exact Hr|].
  pose proof (failed_requests_leave_no_file Toy.unreadable_upload Toy.busy
                (HTTPException 500 "Conversion failed: text extraction failed")
                (convert_path_at "docx" Toy.busy)
                (convert_path_not_input "docx" Toy.busy)) as (Hc & _).
  rewrite (Hc "docx" Hr). vm_compute. reflexivity.
Defined.

Lemma requests_run_in_order_witness :
  is_xps Toy.upload = true
  ∧ in_order Toy.s0 (trace (snd (edit_xps Toy.upload "Draft" "Final" Toy.s0))).
Proof.
  split; [reflexivity|].
  pose proof (requests_run_in_order Toy.upload Toy.s0 eq_refl)
    as (_ & _ & _ & He).
  apply He.
Defined.

Lemma cleanup_removes_only_its_path_witness :
  is_Some (fs Toy.busy !! "uploads/other.xps")
  ∧ fs (snd (cleanup "uploads/other.xps" Toy.busy)) !! "uploads/other.xps"
    = None
  ∧ fs (snd (cleanup "uploads/other.xps" Toy.busy)) !! "results/earlier.pdf"
    = Some "%PDFold"
  ∧ cleanup "uploads/absent.xps" Toy.busy = (Return tt, Toy.busy).
Proof.
  assert (is_Some (fs Toy.busy !! "uploads/other.xps")) as Hl
    by (by exists Toy.three_pages).
  split; [exact Hl|].
  pose proof (cleanup_removes_only_its_path "uploads/other.xps" Toy.busy)
    as (_ & Hsome).
  destruct (Hsome Hl) as (_ & Hgone & Hothers & _).
  split; [exact Hgone|]. split.
  - etrans; [apply (Hothers "results/earlier.pdf"); discriminate|].
    reflexivity.
  - pose proof (cleanup_removes_only_its_path "uploads/absent.xps" Toy.busy)
      as (Habsent & _).
    apply Habsent. vm_compute. reflexivity.
Defined.

Lemma to_pdf_saves_document_witness :
  is_xps Toy.upload = true
  ∧ parse (content Toy.upload) = Ok Toy.document
  ∧ pdf_bytes Toy.document
    = Ok ("%PDF" +:+ Py.join Py.LF ["Intro"; "Draft"; "End"])
  ∧ fs (snd (convert_xps "pdf" Toy.upload Toy.s0)) !! pdf_path_at Toy.s0
    = Some ("%PDF" +:+ Py.join Py.LF ["Intro"; "Draft"; "End"]).
Proof.
  split; [reflexivity|]. split; [reflexivity|]. split; [reflexivity|].
  pose proof (to_pdf_saves_document Toy.upload Toy.s0 Toy.document
                ("%PDF" +:+ Py.join Py.LF ["Intro"; "Draft"; "End"])
                eq_refl eq_refl eq_refl) as (_ & Hfile & _).
  exact Hfile.
Defined.

Lemma unsupported_conversion_rejected_witness :
  "PDF" ≠ "pdf" ∧ "PDF" ≠ "images" ∧ "PDF" ≠ "docx"
  ∧ convert_xps "PDF" Toy.upload Toy.s0
    = (Raise (HTTPException 400
                "Unsupported conversion. Allowed: ['pdf', 'images', 'docx']"),
       Toy.s0).
Proof.
  split; [discriminate|]. split; [discriminate|]. split; [discriminate|].
  apply (unsupported_conversion_rejected "PDF" Toy.upload Toy.s0);
    discriminate.
Defined.

Lemma extension_case_is_ignored_witness :
  Py.lower ".XpS" = ".xps"
  ∧ is_xps (mkUpload ("../folder/Report" +:+ ".XpS") Toy.three_pages) = true
  ∧ is_xps (mkUpload ("" +:+ ".XPS") Toy.three_pages) = true.
Proof.
  split; [reflexivity|]. split.
  - apply (extension_case_is_ignored "../folder/Report" ".XpS"). reflexivity.
  - apply (extension_case_is_ignored "" ".XPS"). reflexivity.
Defined.

Lemma opened_document_closed_once_witness :
  is_xps Toy.upload = true
  ∧ parse (content Toy.upload) = Ok Toy.document
  ∧ pages Toy.document ≠ []
  ∧ closes (trace (snd (read_xps Toy.upload Toy.s0))) = 1
  ∧ fs (snd (edit_xps Toy.upload "Draft" "Final" Toy.s0))
      !! input_path_at Toy.s0 = None.
Proof.
  split; [reflexivity|]. split; [reflexivity|]. split; [discriminate|].
  pose proof (opened_document_closed_once Toy.upload Toy.s0 Toy.document
                eq_refl eq_refl ltac:(discriminate))
    as (_ & [_ Hr] & _ & He).
  split; [exact Hr|]. exact (proj1 (He "Draft" "Final")).
Defined.

Lemma open_failure_is_reported_witness :
  is_xps Toy.broken_upload = true
  ∧ parse (content Toy.broken_upload) = Err "cannot open broken document"
  ∧ fst (edit_xps Toy.broken_upload "Draft" "Final" Toy.s0)
    = Raise (HTTPException 500
               "Failed to edit XPS: cannot open broken document")
  ∧ trace (snd (edit_xps Toy.broken_upload "Draft" "Final" Toy.s0))
    = [EvWrite (input_path_at Toy.s0); EvOpen (input_path_at Toy.s0);
       EvRemove (input_path_at Toy.s0)].
Proof.
  split; [reflexivity|]. split; [reflexivity|].
  pose proof (open_failure_is_reported Toy.broken_upload Toy.s0
                "cannot open broken document" eq_refl eq_refl) as H.
  cbv zeta in H. destruct H as (_ & _ & _ & He & Ht & _).
  rewrite (He "Draft" "Final"). cbn [fst snd]. split; [reflexivity|].
  exact Ht.
Defined.

Lemma text_failure_on_a_page_witness :
  is_xps Toy.second_unreadable = true
  ∧ parse (content Toy.second_unreadable)
    = Ok (mkDocument ["Intro"; "?"; "End"] [("format", "XPS")])
  ∧ fst (read_xps Toy.second_unreadable Toy.s0)
    = Raise (HTTPException 500 "Failed to read XPS: text extraction failed")
  ∧ fst (convert_xps "docx" Toy.second_unreadable Toy.s0)
    = Raise (HTTPException 500 "Conversion failed: text extraction failed").
Proof.
  split; [reflexivity|]. split; [reflexivity|].
  assert (∀ (i : nat) (q : string), i < 1 →
            [("Intro" : string); "?"; "End"] !! i = Some q →
            ∃ t, get_text_of q = Ok t) as Hgood.
  { intros i q Hi Hq. destruct i as [|i]; [|lia].
    injection Hq as <-. by exists "Intro". }
  pose proof (text_failure_on_a_page Toy.second_unreadable Toy.s0
                (mkDocument ["Intro"; "?"; "End"] [("format", "XPS")])
                1 "?" "text extraction failed"
                eq_refl eq_refl eq_refl eq_refl Hgood) as [Hr Hc].
  rewrite Hr, Hc. split; reflexivity.
Defined.

Lemma render_failure_on_a_page_witness :
  @is_xps Toy.second_unrenderable = true
  ∧ @parse Toy.frail (content Toy.second_unrenderable)
    = Ok (mkDocument ["Intro"; "#"; "End"] [("format", "XPS")])
  ∧ fst (@preview_all_xps Toy.frail Toy.second_unrenderable
           (@mkState Toy.frail ∅ 0 [] None))
    = Raise (HTTPException 500
               "Failed to generate preview: cannot render page").
Proof.
  split; [reflexivity|]. split; [reflexivity|].
  assert (∀ (i : nat) (q : string), i < 1 →
            [("Intro" : string); "#"; "End"] !! i = Some q →
            ∃ b, @png_of_page Toy.frail q = Ok b) as Hgood.
  { intros i q Hi Hq. destruct i as [|i]; [|lia].
    injection Hq as <-. by exists "PNG:Intro". }
  pose proof (@render_failure_on_a_page Toy.frail Toy.second_unrenderable
                (@mkState Toy.frail ∅ 0 [] None)
                (mkDocument ["Intro"; "#"; "End"] [("format", "XPS")])
                1 "#" "cannot render page"
                eq_refl eq_refl eq_refl eq_refl Hgood) as [_ Hp].
  rewrite Hp. reflexivity.
Defined.

Lemma reading_saves_nothing_witness :
  is_xps Toy.second_unreadable = true
  ∧ parse (content Toy.second_unreadable)
    = Ok (mkDocument ["Intro"; "?"; "End"] [("format", "XPS")])
  ∧ trace (snd (read_xps Toy.second_unreadable Toy.s0))
    = [EvWrite (input_path_at Toy.s0); EvOpen (input_path_at Toy.s0);
       EvClose; EvRemove (input_path_at Toy.s0)]
  ∧ fs (snd (preview_all_xps Toy.second_unreadable Toy.s0))
    = delete (input_path_at Toy.s0) (base_fs Toy.second_unreadable Toy.s0).
Proof.
  split; [reflexivity|]. split; [reflexivity|].
  pose proof (reading_saves_nothing Toy.second_unreadable Toy.s0
                (mkDocument ["Intro"; "?"; "End"] [("format", "XPS")])
                eq_refl eq_refl) as H.
  cbv zeta in H. destruct H as ([_ Hr] & [Hp _] & _).
  split; [exact Hr|exact Hp].
Defined.

Lemma responses_by_endpoint_witness :
  fst (convert_xps "pdf" Toy.upload Toy.s0)
  = Return (FileResponse (convert_path_at "pdf" Toy.s0) "application/pdf"
              (output_uuid_at Toy.s0 +:+ ".pdf"))
  ∧ is_Some (fs (snd (convert_xps "pdf" Toy.upload Toy.s0))
               !! convert_path_at "pdf" Toy.s0).
Proof.
  assert (fst (convert_xps "pdf" Toy.upload Toy.s0)
          = Return (FileResponse (convert_path_at "pdf" Toy.s0)
                      "application/pdf" (output_uuid_at Toy.s0 +:+ ".pdf")))
    as Hr by (vm_compute; reflexivity).
  split; [exact Hr|].
  pose proof (responses_by_endpoint Toy.upload Toy.s0
                (FileResponse (convert_path_at "pdf" Toy.s0) "application/pdf"
                   (output_uuid_at Toy.s0 +:+ ".pdf"))) as (Hc & _).
  destruct (Hc "pdf" Hr) as [(_ & _ & Hex) | [[Hne _] | [Hne _]]];
    [exact Hex|discriminate|discriminate].
Defined.

Lemma archive_names_are_distinct_witness :
  is_xps Toy.upload = true
  ∧ parse (content Toy.upload) = Ok Toy.document
  ∧ ∃ zipf,
      fst (convert_xps "images" Toy.upload Toy.s0)
      = Return (StreamingResponse zipf "application/zip"
                  "attachment; filename=images.zip")
      ∧ NoDup (map fst zipf).
Proof.
  split; [reflexivity|]. split; [reflexivity|].
  destruct (archive_names_are_distinct Toy.upload Toy.s0 Toy.document
              ["PNG:Intro"; "PNG:Draft"; "PNG:End"] eq_refl eq_refl)
    as (zipf & Hc & _ & Hnd & _).
  - repeat (constructor; [reflexivity|]). constructor.
  - exists zipf. split; [exact Hc|exact Hnd].
Defined.
